(** * Course-materials chatbot: tool registry and tool-calling orchestrator

    A shallow embedding of [backend/search_tools.py] (the two tools and the
    [ToolManager] registry) and of [backend/ai_generator.py] (the bounded
    tool-calling loop of [AIGenerator.generate_response]), followed by the
    properties of the specification that concern them.

    Python objects are modelled as records, [dict]s whose insertion order is
    observable as association lists, [raise]/[try ... except Exception] as a
    result type with a handler, and the external collaborators (vector store,
    completion API) as functions that may raise. *)

From Stdlib Require Import String Ascii List ZArith Lia Bool DecimalString.
From Stdlib Require Import Sorting.Permutation Sorting.Sorted.
Import ListNotations.
Local Open Scope string_scope.

(* ================================================================== *)
(** ** The fragment of the Python runtime the sources rely on *)
(* ================================================================== *)

Module Py.

(** An exception instance, reduced to its class name and [str(e)]. Only
    subclasses of [Exception] are modelled, which is what
    [except Exception] catches. *)
Record Exception := mkException { exc_class : string; exc_str : string }.

Definition str_exc (e : Exception) : string := exc_str e.

Definition ValueError (msg : string) : Exception := mkException "ValueError" msg.
Definition TypeError (msg : string) : Exception := mkException "TypeError" msg.
Definition IndexError (msg : string) : Exception := mkException "IndexError" msg.
Definition AttributeError (msg : string) : Exception := mkException "AttributeError" msg.

(** The outcome of evaluating an expression: a value, or a raised exception. *)
Inductive Result (A : Type) : Type :=
| Ok (a : A)
| Raise (e : Exception).
Arguments Ok {A} a.
Arguments Raise {A} e.

Definition bindR {A B} (r : Result A) (k : A -> Result B) : Result B :=
  match r with
  | Ok a => k a
  | Raise e => Raise e
  end.

(** Values that reach a tool as keyword arguments (decoded JSON). *)
Inductive PyVal : Type :=
| PNone
| PStr (s : string)
| PInt (z : Z).

Definition LF : string := String (ascii_of_nat 10) "".
Definition DQ : string := String (ascii_of_nat 34) "".

(** [str(n)] for an [int]. *)
Definition str_of_int (z : Z) : string := NilZero.string_of_int (Z.to_int z).

(** [str(len(l))]. *)
Definition str_of_nat (n : nat) : string := str_of_int (Z.of_nat n).

(** [str(v)], as used by f-string interpolation. *)
Definition py_str (v : PyVal) : string :=
  match v with
  | PNone => "None"
  | PStr s => s
  | PInt z => str_of_int z
  end.

(** Truth value testing: [None], [""] and [0] are false. *)
Definition truthy_str (s : string) : bool := negb (s =? "").

Definition truthy (v : PyVal) : bool :=
  match v with
  | PNone => false
  | PStr s => truthy_str s
  | PInt z => negb (z =? 0)%Z
  end.

Definition truthy_opt_str (o : option string) : bool :=
  match o with
  | None => false
  | Some s => truthy_str s
  end.

Definition truthy_list {A} (l : list A) : bool :=
  match l with
  | [] => false
  | _ :: _ => true
  end.

(** [sep.join(l)]. *)
Fixpoint join (sep : string) (l : list string) : string :=
  match l with
  | [] => ""
  | [s] => s
  | s :: rest => s ++ sep ++ join sep rest
  end.

(** [sub in s]. *)
Definition contains (sub s : string) : Prop :=
  exists before after, s = before ++ sub ++ after.

(** [sorted(l, key=key)] on integer keys. The built-in is a stable sort
    that compares keys with [<] only; it is modelled by insertion from the
    right, where an element goes in front of the first one whose key is
    not smaller than its own. *)
Fixpoint insert_by_key {A} (key : A -> Z) (x : A) (l : list A) : list A :=
  match l with
  | [] => [x]
  | y :: rest =>
      if (key y <? key x)%Z then y :: insert_by_key key x rest
      else x :: y :: rest
  end.

Fixpoint sorted {A} (key : A -> Z) (l : list A) : list A :=
  match l with
  | [] => []
  | x :: rest => insert_by_key key x (sorted key rest)
  end.

(** Keyword arguments of a call that unpacks a mapping, in the order of
    the mapping. *)
Definition Kwargs : Type := list (string * PyVal).

Fixpoint kw_get (k : string) (kw : Kwargs) : option PyVal :=
  match kw with
  | [] => None
  | (k', v) :: rest => if k' =? k then Some v else kw_get k rest
  end.

(** The first keyword that no parameter of the callee accepts. *)
Fixpoint unexpected_keyword (params : list string) (kw : Kwargs) : option string :=
  match kw with
  | [] => None
  | (k, _) :: rest =>
      if existsb (String.eqb k) params then unexpected_keyword params rest
      else Some k
  end.

Definition unexpected_keyword_error (k : string) : Exception :=
  TypeError ("execute() got an unexpected keyword argument '" ++ k ++ "'").

Definition missing_argument_error (k : string) : Exception :=
  TypeError ("execute() missing 1 required positional argument: '" ++ k ++ "'").

(** An insertion-ordered [dict] with string keys. *)
Definition Dict (V : Type) : Type := list (string * V).

Fixpoint dict_get {V} (k : string) (d : Dict V) : option V :=
  match d with
  | [] => None
  | (k', v) :: rest => if k' =? k then Some v else dict_get k rest
  end.

(** [d[k] = v]: an existing key keeps its position, a new key goes last. *)
Fixpoint dict_set {V} (k : string) (v : V) (d : Dict V) : Dict V :=
  match d with
  | [] => [(k, v)]
  | (k', v') :: rest =>
      if k' =? k then (k', v) :: rest else (k', v') :: dict_set k v rest
  end.

Definition dict_keys {V} (d : Dict V) : list string := map fst d.
Definition dict_values {V} (d : Dict V) : list V := map snd d.

End Py.

(* ================================================================== *)
(** ** backend/search_tools.py *)
(* ================================================================== *)

Module SearchTools.
Import Py.

(** A provenance record [{"text": ..., "link": ...}]; the key ["link"] is
    present only when a link was found. *)
Record Source := mkSource { text : string; link : option string }.

(** The metadata [dict] of one matched chunk ([meta.get(...)] is [None] for
    an absent key). *)
Record ChunkMeta := mkChunkMeta {
  course_title : option string;
  lesson_number : option Z }.

(** Modelled from the spec: the class [SearchResults] of the module
    [vector_store], which is not among the sources. The tools read its
    fields [documents], [metadata] and [error] and call [is_empty()];
    the tests build it as [SearchResults(documents=[], metadata=[],
    distances=[])] and expect [is_empty()] exactly when there is no match. *)
Record SearchResults := mkSearchResults {
  documents : list string;
  metadata : list ChunkMeta;
  error : option string }.

Definition is_empty (r : SearchResults) : bool :=
  match documents r with
  | [] => true
  | _ :: _ => false
  end.

(** The value of [course_catalog.get(ids=[title])]: a mapping whose
    ['metadatas'] entry lists one metadata [dict] per id found. *)
Record GetResult := mkGetResult { metadatas : list (Dict string) }.

(** The retrieval collaborator (class [VectorStore]), seen through the
    four operations the tools call; each may raise. *)
Record VectorStore := mkVectorStore {
  search : PyVal -> PyVal -> PyVal -> Result SearchResults;
  get_lesson_link : string -> Z -> Result (option string);
  _resolve_course_name : PyVal -> Result (option string);
  course_catalog_get : string -> Result (option GetResult) }.

(** A tool definition handed to the completion API. *)
Record ToolDefinition := mkToolDefinition {
  name : option string;
  description : string;
  properties : list (string * string);
  required : list string }.

(** The abstract base class [Tool], together with the optional attribute
    [last_sources] that [ToolManager] probes with [hasattr]. *)
Class Tool (T : Type) := {
  get_tool_definition : T -> ToolDefinition;
  execute : T -> Kwargs -> Result string * T;
  last_sources_attr : T -> option (list Source);
  set_last_sources : list Source -> T -> T }.

(* ---------------------------------------------------------------- *)
Module CourseSearchTool.

Record t := mk { store : VectorStore; last_sources : list Source }.

Definition __init__ (vector_store : VectorStore) : t := mk vector_store [].

Definition get_tool_definition (self : t) : ToolDefinition :=
  {| name := Some "search_course_content";
     description := "Search inside course materials for specific content, topics, concepts, or explanations. Use this to find detailed information WITHIN lessons.";
     properties := [("query", "string"); ("course_name", "string");
                    ("lesson_number", "integer")];
     required := ["query"] |}.

(** The header of a formatted match, [[title - Lesson n]]. *)
Definition header (course_title : string) (lesson_num : option Z) : string :=
  "[" ++ course_title
      ++ match lesson_num with
         | Some n => " - Lesson " ++ str_of_int n
         | None => ""
         end
      ++ "]".

Definition source_text (course_title : string) (lesson_num : option Z) : string :=
  course_title ++ match lesson_num with
                  | Some n => " - Lesson " ++ str_of_int n
                  | None => ""
                  end.

(** One iteration of the loop of [_format_results]. *)
Definition format_one (st : VectorStore) (doc : string) (meta : ChunkMeta)
  : Result (string * Source) :=
  let course_title :=
    match course_title meta with Some c => c | None => "unknown" end in
  let lesson_num := lesson_number meta in
  bindR
    (match lesson_num with
     | Some n =>
         if negb (course_title =? "unknown")
         then get_lesson_link st course_title n
         else Ok None
     | None => Ok None
     end)
    (fun lesson_link =>
       let source_obj :=
         {| text := source_text course_title lesson_num;
            link := if truthy_opt_str lesson_link then lesson_link else None |} in
       Ok (header course_title lesson_num ++ LF ++ doc, source_obj)).

(** The loop over [zip(results.documents, results.metadata)], with the
    two lists it appends to. *)
Fixpoint format_loop (st : VectorStore) (pairs : list (string * ChunkMeta))
    (formatted : list string) (sources : list Source)
  : Result (list string * list Source) :=
  match pairs with
  | [] => Ok (formatted, sources)
  | (doc, meta) :: rest =>
      bindR (format_one st doc meta)
        (fun '(block, source_obj) =>
           format_loop st rest (formatted ++ [block]) (sources ++ [source_obj]))
  end.

Definition _format_results (self : t) (results : SearchResults) : Result string * t :=
  match format_loop (store self) (combine (documents results) (metadata results)) [] [] with
  | Raise e => (Raise e, self)
  | Ok (formatted, sources) =>
      (Ok (join (LF ++ LF) formatted), mk (store self) sources)
  end.

Definition filter_info (course_name lesson_number : PyVal) : string :=
  (if truthy course_name then " in course '" ++ py_str course_name ++ "'" else "")
  ++ (if truthy lesson_number then " in lesson " ++ py_str lesson_number else "").

Definition execute (self : t) (query course_name lesson_number : PyVal)
  : Result string * t :=
  match search (store self) query course_name lesson_number with
  | Raise e => (Raise e, self)
  | Ok results =>
      if truthy_opt_str (error results)
      then (Ok (match error results with Some err => err | None => "" end), self)
      else if is_empty results
      then (Ok ("No relevant content found"
                  ++ filter_info course_name lesson_number ++ "."), self)
      else _format_results self results
  end.

(** The call [tool.execute] on unpacked keyword arguments. *)
Definition call (self : t) (kw : Kwargs) : Result string * t :=
  match unexpected_keyword ["query"; "course_name"; "lesson_number"] kw with
  | Some k => (Raise (unexpected_keyword_error k), self)
  | None =>
      match kw_get "query" kw with
      | None => (Raise (missing_argument_error "query"), self)
      | Some query =>
          execute self query
            (match kw_get "course_name" kw with Some v => v | None => PNone end)
            (match kw_get "lesson_number" kw with Some v => v | None => PNone end)
      end
  end.

End CourseSearchTool.

(* ---------------------------------------------------------------- *)
Module CourseOutlineTool.

Record t := mk { store : VectorStore; last_sources : list Source }.

Definition __init__ (vector_store : VectorStore) : t := mk vector_store [].

Definition get_tool_definition (self : t) : ToolDefinition :=
  {| name := Some "get_course_outline";
     description := "Get course structure, lesson list, titles, and navigation info. Use this to understand WHAT lessons exist and course organization, NOT to search content within lessons.";
     properties := [("course_name", "string")];
     required := ["course_name"] |}.

(** One entry of the decoded [lessons_json] list; a field is [None] when
    the key is absent. Lesson numbers are the integers written by the
    ingestion side. *)
Record Lesson := mkLesson {
  lesson_number : option Z;
  lesson_title : option string }.

(** [lambda x: x.get('lesson_number', 0)]. *)
Definition sort_key (x : Lesson) : Z :=
  match lesson_number x with Some n => n | None => 0%Z end.

(** The line appended for one lesson. *)
Definition lesson_line (lesson : Lesson) : string :=
  let lesson_num :=
    match lesson_number lesson with Some n => str_of_int n | None => "?" end in
  let lesson_title :=
    match lesson_title lesson with Some s => s | None => "Untitled" end in
  lesson_num ++ ". " ++ lesson_title ++ LF.

Section WithJson.

(** [json.loads], restricted to the inputs it is applied to here. *)
Variable json_loads : string -> Result (list Lesson).

(** The body of the [try] block, entered once the course title is known. *)
Definition outline_body (self : t) (course_title : string) : Result (string * t) :=
  bindR (course_catalog_get (store self) course_title)
    (fun results =>
       match results with
       | None => Ok ("Course metadata not found for '" ++ course_title ++ "'", self)
       | Some r =>
           match metadatas r with
           | [] => Ok ("Course metadata not found for '" ++ course_title ++ "'", self)
           | metadata :: _ =>
               if negb (truthy_list metadata)
               then Ok ("Course metadata not found for '" ++ course_title ++ "'", self)
               else
                 let course_link := dict_get "course_link" metadata in
                 let lessons_json := dict_get "lessons_json" metadata in
                 match lessons_json with
                 | None =>
                     Ok ("No lesson information available for '" ++ course_title ++ "'", self)
                 | Some js =>
                     if negb (truthy_str js)
                     then Ok ("No lesson information available for '"
                                ++ course_title ++ "'", self)
                     else
                       bindR (json_loads js)
                         (fun lessons =>
                            let formatted_output := "**" ++ course_title ++ "**" ++ LF in
                            let formatted_output :=
                              match course_link with
                              | Some l =>
                                  if truthy_str l
                                  then formatted_output ++ "Course Link: " ++ l ++ LF
                                  else formatted_output
                              | None => formatted_output
                              end in
                            let formatted_output :=
                              formatted_output ++ LF ++ "**Lessons ("
                                ++ str_of_nat (length lessons) ++ " total):**" ++ LF in
                            let sorted_lessons := sorted sort_key lessons in
                            let formatted_output :=
                              fold_left (fun out lesson => out ++ lesson_line lesson)
                                sorted_lessons formatted_output in
                            let source_obj :=
                              {| text := course_title ++ " - Course Outline";
                                 link := if truthy_opt_str course_link
                                         then course_link else None |} in
                            Ok (formatted_output, mk (store self) [source_obj]))
                 end
           end
       end).

Definition execute (self : t) (course_name : PyVal) : Result string * t :=
  match _resolve_course_name (store self) course_name with
  | Raise e => (Raise e, self)
  | Ok course_title =>
      match course_title with
      | None => (Ok ("No course found matching '" ++ py_str course_name ++ "'"), self)
      | Some title =>
          if negb (truthy_str title)
          then (Ok ("No course found matching '" ++ py_str course_name ++ "'"), self)
          else
            match outline_body self title with
            | Ok (out, self') => (Ok out, self')
            | Raise e => (Ok ("Error retrieving course outline: " ++ str_exc e), self)
            end
      end
  end.

(** The call [tool.execute] on unpacked keyword arguments. *)
Definition call (self : t) (kw : Kwargs) : Result string * t :=
  match unexpected_keyword ["course_name"] kw with
  | Some k => (Raise (unexpected_keyword_error k), self)
  | None =>
      match kw_get "course_name" kw with
      | None => (Raise (missing_argument_error "course_name"), self)
      | Some course_name => execute self course_name
      end
  end.

End WithJson.

End CourseOutlineTool.

#[export] Instance CourseSearchTool_Tool : Tool CourseSearchTool.t := {|
  get_tool_definition := CourseSearchTool.get_tool_definition;
  execute := CourseSearchTool.call;
  last_sources_attr := fun self => Some (CourseSearchTool.last_sources self);
  set_last_sources := fun l self => CourseSearchTool.mk (CourseSearchTool.store self) l |}.

(** The tools the application registers: one of either class. The outline
    tool needs the decoder of its lesson lists. *)
Inductive RegisteredTool : Type :=
| SearchTool (tool : CourseSearchTool.t)
| OutlineTool (tool : CourseOutlineTool.t).

Definition RegisteredTool_Tool
    (json_loads : string -> Result (list CourseOutlineTool.Lesson))
  : Tool RegisteredTool := {|
  get_tool_definition := fun t =>
    match t with
    | SearchTool tool => CourseSearchTool.get_tool_definition tool
    | OutlineTool tool => CourseOutlineTool.get_tool_definition tool
    end;
  execute := fun t kw =>
    match t with
    | SearchTool tool =>
        let '(r, tool') := CourseSearchTool.call tool kw in (r, SearchTool tool')
    | OutlineTool tool =>
        let '(r, tool') := CourseOutlineTool.call json_loads tool kw in
        (r, OutlineTool tool')
    end;
  last_sources_attr := fun t =>
    match t with
    | SearchTool tool => Some (CourseSearchTool.last_sources tool)
    | OutlineTool tool => Some (CourseOutlineTool.last_sources tool)
    end;
  set_last_sources := fun l t =>
    match t with
    | SearchTool tool => SearchTool (CourseSearchTool.mk (CourseSearchTool.store tool) l)
    | OutlineTool tool => OutlineTool (CourseOutlineTool.mk (CourseOutlineTool.store tool) l)
    end |}.

(* ---------------------------------------------------------------- *)
Module ToolManager.

Section Registry.

Context {T : Type} `{Tool T}.

Record t := mk { tools : Dict T }.

Definition __init__ : t := mk [].

Definition register_tool (self : t) (tool : T) : Result unit * t :=
  let tool_def := get_tool_definition tool in
  let tool_name := name tool_def in
  if truthy_opt_str tool_name
  then (Ok tt,
        mk (dict_set (match tool_name with Some n => n | None => "" end)
              tool (tools self)))
  else (Raise (ValueError "Tool must have a 'name' in its definition"), self).

Definition get_tool_definitions (self : t) : list ToolDefinition :=
  map get_tool_definition (dict_values (tools self)).

(** The tool object is shared between the registry and the call, so
    what [execute] changes in it is seen in the registry afterwards. *)
Definition execute_tool (self : t) (tool_name : string) (kw : Kwargs)
  : Result string * t :=
  match dict_get tool_name (tools self) with
  | None => (Ok ("Tool '" ++ tool_name ++ "' not found"), self)
  | Some tool =>
      let '(r, tool') := execute tool kw in
      (r, mk (dict_set tool_name tool' (tools self)))
  end.

(** The loop of [get_last_sources] over [self.tools.values()]. *)
Fixpoint first_sources (values : list T) : list Source :=
  match values with
  | [] => []
  | tool :: rest =>
      match last_sources_attr tool with
      | Some l => if truthy_list l then l else first_sources rest
      | None => first_sources rest
      end
  end.

Definition get_last_sources (self : t) : list Source :=
  first_sources (dict_values (tools self)).

Definition reset_sources (self : t) : t :=
  mk (map (fun kv : string * T =>
             (fst kv,
              match last_sources_attr (snd kv) with
              | Some _ => set_last_sources [] (snd kv)
              | None => snd kv
              end))
        (tools self)).

(** The registries that can arise: the empty one of [ToolManager()], and
    what the methods of the class make of a registry that can arise. *)
Inductive reachable : t -> Prop :=
| reach_init : reachable __init__
| reach_register (self : t) (tool : T) (self' : t) :
    reachable self -> register_tool self tool = (Ok tt, self') -> reachable self'
| reach_execute (self : t) (tool_name : string) (kw : Kwargs) :
    reachable self -> reachable (snd (execute_tool self tool_name kw))
| reach_reset (self : t) : reachable self -> reachable (reset_sources self).

End Registry.

Arguments t T : clear implicits.

End ToolManager.

End SearchTools.

(* ================================================================== *)
(** ** backend/ai_generator.py *)
(* ================================================================== *)

Module AIGenerator.
Import Py.

(** Reasons why sequential tool calling terminates. *)
Inductive TerminationReason : Type :=
| MAX_ROUNDS_REACHED
| NO_TOOLS_REQUESTED
| TOOL_EXECUTION_ERROR.

(** A block of [response.content]: the API's [TextBlock] and
    [ToolUseBlock]; [type == "tool_use"] holds of the latter only. *)
Inductive ContentBlock : Type :=
| TextBlock (text : string)
| ToolUseBlock (id name : string) (input : Kwargs).

(** A [{"type": "tool_result", ...}] entry; [is_error] is [false] when the
    key is absent. *)
Record ToolResult := mkToolResult {
  tool_use_id : string;
  result_content : string;
  is_error : bool }.

Module Message.
(** The ["content"] of a message: the query text, the blocks of an
    assistant response, or a list of tool results. *)
Inductive Content : Type :=
| Text (s : string)
| Blocks (l : list ContentBlock)
| ToolResults (l : list ToolResult).

Record t := mk { role : string; content : Content }.
End Message.

Module Response.
Record t := mk { content : list ContentBlock; stop_reason : string }.
End Response.

Module ApiParams.
(** The keyword arguments of [client.messages.create]; [tools] and
    [tool_choice] are [None] when the keys are absent. *)
Record t := mk {
  model : string;
  temperature : Z;
  max_tokens : Z;
  messages : list Message.t;
  system : string;
  tools : option (list SearchTools.ToolDefinition);
  tool_choice : option string }.
End ApiParams.

Module ToolCallState.
(** Track state across tool calling rounds. *)
Record t := mk {
  current_round : nat;
  max_rounds : nat;
  messages : list Message.t;
  tools_executed : list string }.

(** Check if we should terminate tool calling. *)
Definition is_complete (self : t) : bool :=
  Nat.leb (max_rounds self) (current_round self).

(** Track executed tools for debugging/logging. *)
Definition add_tool_execution (self : t) (tool_name : string) : t :=
  mk (current_round self) (max_rounds self) (messages self)
     (tools_executed self
        ++ ["Round " ++ str_of_nat (current_round self) ++ ": " ++ tool_name]).

Definition increment_round (self : t) : t :=
  mk (S (current_round self)) (max_rounds self) (messages self) (tools_executed self).

Definition append_message (msg : Message.t) (self : t) : t :=
  mk (current_round self) (max_rounds self) (messages self ++ [msg]) (tools_executed self).
End ToolCallState.

(** Static system prompt. *)
Definition SYSTEM_PROMPT : string :=
  " You are an AI assistant specialized in course materials and educational content with access to comprehensive tools for course information.

Tool Usage Guidelines:
- **Sequential Tool Calling**: You can make up to 2 rounds of tool calls to gather comprehensive information
- **Content Search Tool**: Use to search INSIDE lessons for specific topics, concepts, explanations, or detailed content
- **Course Outline Tool**: Use to get lesson lists, course structure, titles, or to understand WHAT exists in a course
- **Strategy**: Consider what information you need upfront and plan your tool usage accordingly
- Synthesize all tool results into accurate, fact-based responses
- If tools yield no results, state this clearly without offering alternatives

Tool Selection Rules:
- **" ++ DQ ++ "What is lesson X about?" ++ DQ ++ "** → Use outline tool first to get lesson title/structure
- **" ++ DQ ++ "How many lessons?" ++ DQ ++ "** → Use outline tool 
- **" ++ DQ ++ "Course structure/outline?" ++ DQ ++ "** → Use outline tool
- **" ++ DQ ++ "List all lessons?" ++ DQ ++ "** → Use outline tool
- **" ++ DQ ++ "Search for [topic] in course" ++ DQ ++ "** → Use content search tool
- **" ++ DQ ++ "Explain [concept] from lesson" ++ DQ ++ "** → Use content search tool

Response Protocol:
- **General knowledge questions**: Answer using existing knowledge without using tools
- **Course content questions**: Use content search tool first, then additional tools if needed
- **Course outline/structure questions**: Use outline tool first, then content search if needed  
- **Complex queries**: May require multiple tool calls across rounds to fully address
- **Multi-step queries**: Use first round to gather initial information, second round to refine or get additional details
- **No meta-commentary**:
 - Provide direct answers only — no reasoning process, tool explanations, or question-type analysis
 - Do not mention " ++ DQ ++ "based on the search results" ++ DQ ++ " or " ++ DQ ++ "using the tool" ++ DQ ++ "

For Course Outline Queries:
- Always return the complete course title, course link (if available), and full lesson list
- Include lesson numbers and lesson titles for each lesson
- Present information in a clear, organized format

All responses must be:
1. **Brief, Concise and focused** - Get to the point quickly
2. **Educational** - Maintain instructional value
3. **Clear** - Use accessible language
4. **Example-supported** - Include relevant examples when they aid understanding
Provide only the direct answer to what was asked.
".


(** What a run lets an observer see, in order: each call to
    [client.messages.create] with its arguments and how it ended, and each
    call to [tool_manager.execute_tool] likewise. *)
Inductive Event : Type :=
| ApiCall (p : ApiParams.t) (r : Result Response.t)
| ToolCall (name : string) (input : Kwargs) (r : Result string).

Section Engine.

(** The state of everything outside the engine (the completion API, the
    tool manager and what lies behind it). Both collaborators read and change
    it, and may raise. *)
Variable W : Type.

Definition Client : Type := ApiParams.t -> W -> Result Response.t * W.

(** What the engine uses of its [tool_manager] argument: [execute_tool]. *)
Definition ToolDispatcher : Type := string -> Kwargs -> W -> Result string * W.

Record AIGenerator := mkAIGenerator { client : Client; model : string }.

(** The store a call of [generate_response] works on: its local
    [ToolCallState] object, the outside world and the observation log. *)
Record Machine := mkMachine {
  state : ToolCallState.t;
  world : W;
  log : list Event }.

(** Computations that read and change the store and may raise; what was
    changed before an exception stays changed. *)
Definition M (A : Type) : Type := Machine -> Result A * Machine.

Definition ret {A} (a : A) : M A := fun m => (Ok a, m).

Definition raise {A} (e : Exception) : M A := fun m => (Raise e, m).

Definition bind {A B} (c : M A) (k : A -> M B) : M B :=
  fun m =>
    match c m with
    | (Ok a, m') => k a m'
    | (Raise e, m') => (Raise e, m')
    end.

(** [try: c  except Exception as e: handler e]. *)
Definition try_except {A} (c : M A) (handler : Exception -> M A) : M A :=
  fun m =>
    match c m with
    | (Ok a, m') => (Ok a, m')
    | (Raise e, m') => handler e m'
    end.

Definition lift {A} (r : Result A) : M A := fun m => (r, m).

Definition get_state : M ToolCallState.t := fun m => (Ok (state m), m).

Definition modify_state (f : ToolCallState.t -> ToolCallState.t) : M unit :=
  fun m => (Ok tt, mkMachine (f (state m)) (world m) (log m)).

Notation "x <- c ;; k" := (bind c (fun x => k))
  (at level 61, c at next level, right associativity).
Notation "c ;; k" := (bind c (fun _ => k))
  (at level 61, right associativity).

(** [self.client.messages.create] on the unpacked [api_params]. *)
Definition messages_create (self : AIGenerator) (p : ApiParams.t) : M Response.t :=
  fun m =>
    let '(r, w') := client self p (world m) in
    (r, mkMachine (state m) w' (log m ++ [ApiCall p r])).

(** [tool_manager.execute_tool] on a tool name and the unpacked input. *)
Definition dispatch (tool_manager : ToolDispatcher) (name : string) (input : Kwargs)
  : M string :=
  fun m =>
    let '(r, w') := tool_manager name input (world m) in
    (r, mkMachine (state m) w' (log m ++ [ToolCall name input r])).

(** [self.base_params] extended with the per-call entries. *)
Definition api_params (self : AIGenerator) (messages : list Message.t) (system : string)
    (tools : option (list SearchTools.ToolDefinition)) : ApiParams.t :=
  {| ApiParams.model := model self;
     ApiParams.temperature := 0;
     ApiParams.max_tokens := 800;
     ApiParams.messages := messages;
     ApiParams.system := system;
     ApiParams.tools := tools;
     ApiParams.tool_choice := match tools with Some _ => Some "auto" | None => None end |}.

Definition truthy_tools (tools : option (list SearchTools.ToolDefinition)) : bool :=
  match tools with
  | Some l => truthy_list l
  | None => false
  end.

(** [response.content[0].text]. *)
Definition first_text (content : list ContentBlock) : Result string :=
  match content with
  | [] => Raise (IndexError "list index out of range")
  | TextBlock text :: _ => Ok text
  | ToolUseBlock _ _ _ :: _ =>
      Raise (AttributeError "'ToolUseBlock' object has no attribute 'text'")
  end.

(** Generate round-specific system prompt with guidance. *)
Definition _get_round_system_prompt (base_system_content : string) (round_number : nat)
  : string :=
  let round_guidance :=
    match round_number with
    | 1 => LF ++ "This is your first opportunity to use tools. Consider what information you need to fully answer the user's question and gather initial data."
    | 2 => LF ++ "This is your second and final opportunity to use tools. Based on previous results, determine if additional information is needed to complete your answer."
    | _ => LF ++ "Tool calling rounds are complete. Provide your final answer based on all available information."
    end in
  base_system_content ++ round_guidance.

(** The [for] loop of [_execute_round_tools] and what follows it; the
    progress output on the terminal is left out, and so is the error entry
    appended to the local list just before the early return, which nothing
    reads. [tool_results] is the list built so far. The result is the error
    message, if a tool failed. *)
Fixpoint round_tools_loop (tool_manager : ToolDispatcher) (blocks : list ContentBlock)
    (tool_results : list ToolResult) : M (option string) :=
  match blocks with
  | [] =>
      (if truthy_list tool_results
       then modify_state
              (ToolCallState.append_message
                 (Message.mk "user" (Message.ToolResults tool_results)))
       else ret tt) ;;
      ret None
  | TextBlock _ :: rest => round_tools_loop tool_manager rest tool_results
  | ToolUseBlock id name input :: rest =>
      r <- try_except
             (tool_result <- dispatch tool_manager name input ;;
              modify_state (fun st => ToolCallState.add_tool_execution st name) ;;
              ret (inl (mkToolResult id tool_result false)))
             (fun e =>
                let error_msg := "Tool " ++ name ++ " failed: " ++ str_exc e in
                ret (inr error_msg)) ;;
      match r with
      | inl tool_result =>
          round_tools_loop tool_manager rest (tool_results ++ [tool_result])
      | inr error_msg => ret (Some error_msg)
      end
  end.

(** Execute all tool calls from current round and add results to state. *)
Definition _execute_round_tools (response : Response.t) (tool_manager : ToolDispatcher)
  : M (option string) :=
  round_tools_loop tool_manager (Response.content response) [].

(** How one pass through the body of the [while] loop ends. *)
Inductive Step : Type :=
| Return (answer : string)
| Continue.

(** The [api_params] of a round, built after the round counter went up:
    the tools go along when there are any and the round is within bounds. *)
Definition round_params (self : AIGenerator) (system_content : string)
    (tools : option (list SearchTools.ToolDefinition)) (st : ToolCallState.t)
  : ApiParams.t :=
  api_params self (ToolCallState.messages st)
    (_get_round_system_prompt system_content (ToolCallState.current_round st))
    (if truthy_tools tools
        && Nat.leb (ToolCallState.current_round st) (ToolCallState.max_rounds st)
     then tools else None).

(** The body of the [while] loop. *)
Definition round (self : AIGenerator) (system_content : string)
    (tools : option (list SearchTools.ToolDefinition))
    (tool_manager : option ToolDispatcher) : M Step :=
  modify_state ToolCallState.increment_round ;;
  st <- get_state ;;
  try_except
    (response <- messages_create self (round_params self system_content tools st) ;;
     modify_state
       (ToolCallState.append_message
          (Message.mk "assistant" (Message.Blocks (Response.content response)))) ;;
     match tool_manager with
     | Some tm =>
         if Response.stop_reason response =? "tool_use"
         then
           tool_error <- _execute_round_tools response tm ;;
           match tool_error with
           | Some err =>
               if truthy_str err
               then ret (Return ("Unable to complete search: " ++ err))
               else ret Continue
           | None => ret Continue
           end
         else
           text <- lift (first_text (Response.content response)) ;;
           ret (Return text)
     | None =>
         text <- lift (first_text (Response.content response)) ;;
         ret (Return text)
     end)
    (fun e => ret (Return ("Error generating response: " ++ str_exc e))).

(** The [final_params]: no tools. *)
Definition final_params (self : AIGenerator) (system_content : string)
    (st : ToolCallState.t) : ApiParams.t :=
  api_params self (ToolCallState.messages st)
    (system_content ++ LF ++ LF
       ++ "Tool calling rounds complete. Provide your final answer based on all available information.")
    None.

(** The final call without tools, made once the rounds are used up. *)
Definition final_call (self : AIGenerator) (system_content : string) : M string :=
  st <- get_state ;;
  try_except
    (final_response <- messages_create self (final_params self system_content st) ;;
     lift (first_text (Response.content final_response)))
    (fun e => ret ("Error generating final response: " ++ str_exc e)).

(** How a call ends: it returns a string, lets an exception escape, or has
    not finished within the iterations it was given. *)
Inductive Outcome : Type :=
| Returned (answer : string)
| Raised (e : Exception)
| OutOfFuel.

Definition outcome_of (r : Result string) : Outcome :=
  match r with
  | Ok s => Returned s
  | Raise e => Raised e
  end.

(** The [while not state.is_complete()] loop followed by the final call;
    [fuel] bounds the number of iterations. *)
Fixpoint rounds_loop (fuel : nat) (self : AIGenerator) (system_content : string)
    (tools : option (list SearchTools.ToolDefinition))
    (tool_manager : option ToolDispatcher) (m : Machine) : Outcome * Machine :=
  if ToolCallState.is_complete (state m)
  then let '(r, m') := final_call self system_content m in (outcome_of r, m')
  else
    match fuel with
    | 0 => (OutOfFuel, m)
    | S fuel' =>
        match round self system_content tools tool_manager m with
        | (Ok (Return answer), m') => (Returned answer, m')
        | (Ok Continue, m') =>
            rounds_loop fuel' self system_content tools tool_manager m'
        | (Raise e, m') => (Raised e, m')
        end
    end.

Definition initial_state (query : string) : ToolCallState.t :=
  ToolCallState.mk 0 2 [Message.mk "user" (Message.Text query)] [].

Definition build_system_content (conversation_history : option string) : string :=
  match conversation_history with
  | Some h =>
      if truthy_str h
      then SYSTEM_PROMPT ++ LF ++ LF ++ "Previous conversation:" ++ LF ++ h
      else SYSTEM_PROMPT
  | None => SYSTEM_PROMPT
  end.

(** [generate_response] run for at most [fuel] iterations of its loop from
    the world [w]; the result comes with the final store. *)
Definition generate_response_run (fuel : nat) (self : AIGenerator) (query : string)
    (conversation_history : option string)
    (tools : option (list SearchTools.ToolDefinition))
    (tool_manager : option ToolDispatcher) (w : W) : Outcome * Machine :=
  rounds_loop fuel self (build_system_content conversation_history) tools tool_manager
    (mkMachine (initial_state query) w []).

(** Generate AI response with support for up to 2 sequential tool calling
    rounds. The loop gets as many iterations as [max_rounds] allows. *)
Definition generate_response (self : AIGenerator) (query : string)
    (conversation_history : option string)
    (tools : option (list SearchTools.ToolDefinition))
    (tool_manager : option ToolDispatcher) (w : W) : Outcome * Machine :=
  generate_response_run (ToolCallState.max_rounds (initial_state query))
    self query conversation_history tools tool_manager w.

(** The API calls of a log, and those that carry tools. *)
Fixpoint api_calls (l : list Event) : list ApiParams.t :=
  match l with
  | [] => []
  | ApiCall p _ :: rest => p :: api_calls rest
  | ToolCall _ _ _ :: rest => api_calls rest
  end.

Fixpoint tool_calls (l : list Event) : list (string * Kwargs) :=
  match l with
  | [] => []
  | ApiCall _ _ :: rest => tool_calls rest
  | ToolCall n i _ :: rest => (n, i) :: tool_calls rest
  end.

(** Every tool request among [blocks] is dispatched in order from the world
    [w] and none raises: [results] are the tool results built, [names] the
    tools run, [events] what is observed, and [w'] the world afterwards. *)
Inductive tools_succeed (tool_manager : ToolDispatcher)
  : list ContentBlock -> W -> list ToolResult -> list string -> list Event -> W -> Prop :=
| succeed_nil (w : W) : tools_succeed tool_manager [] w [] [] [] w
| succeed_text (text : string) (rest : list ContentBlock) (w w' : W)
    (results : list ToolResult) (names : list string) (events : list Event) :
    tools_succeed tool_manager rest w results names events w' ->
    tools_succeed tool_manager (TextBlock text :: rest) w results names events w'
| succeed_tool (id name : string) (input : Kwargs) (out : string)
    (rest : list ContentBlock) (w w1 w' : W)
    (results : list ToolResult) (names : list string) (events : list Event) :
    tool_manager name input w = (Ok out, w1) ->
    tools_succeed tool_manager rest w1 results names events w' ->
    tools_succeed tool_manager (ToolUseBlock id name input :: rest) w
      (mkToolResult id out false :: results) (name :: names)
      (ToolCall name input (Ok out) :: events) w'.

(** The entries [add_tool_execution] logs for the tools [names] run in round
    [round_number]. *)
Definition executed_in_round (round_number : nat) (names : list string) : list string :=
  map (fun tool_name => "Round " ++ str_of_nat round_number ++ ": " ++ tool_name) names.

(** The messages of a round that went through: those before it, the
    assistant turn holding the response's blocks, and one user turn with the
    tool results when there are any. *)
Definition messages_after_round (messages : list Message.t) (response : Response.t)
    (results : list ToolResult) : list Message.t :=
  messages
    ++ [Message.mk "assistant" (Message.Blocks (Response.content response))]
    ++ (if truthy_list results
        then [Message.mk "user" (Message.ToolResults results)] else []).

Definition tool_enabled (p : ApiParams.t) : bool :=
  match ApiParams.tools p with
  | Some _ => true
  | None => false
  end.

(** How the API calls of a log ended. *)
Fixpoint api_responses (l : list Event) : list (Result Response.t) :=
  match l with
  | [] => []
  | ApiCall _ r :: rest => r :: api_responses rest
  | ToolCall _ _ _ :: rest => api_responses rest
  end.

(** The tool requests among the blocks of a response, in order. *)
Fixpoint requested_tools (blocks : list ContentBlock) : list (string * Kwargs) :=
  match blocks with
  | [] => []
  | TextBlock _ :: rest => requested_tools rest
  | ToolUseBlock _ name input :: rest => (name, input) :: requested_tools rest
  end.

End Engine.

Arguments client {W} a.
Arguments model {W} a.
Arguments mkAIGenerator {W} client model.
Arguments mkMachine {W} state world log.
Arguments state {W} m.
Arguments world {W} m.
Arguments log {W} m.
Arguments round_tools_loop {W} tool_manager blocks tool_results m.
Arguments _execute_round_tools {W} response tool_manager m.
Arguments round_params {W} self system_content tools st.
Arguments final_params {W} self system_content st.
Arguments round {W} self system_content tools tool_manager m.
Arguments final_call {W} self system_content m.
Arguments rounds_loop {W} fuel self system_content tools tool_manager m.
Arguments generate_response_run {W} fuel self query conversation_history tools tool_manager w.
Arguments generate_response {W} self query conversation_history tools tool_manager w.
Arguments tools_succeed {W} tool_manager blocks w results names events w'.

End AIGenerator.

(* ================================================================== *)
(** ** Concrete collaborators used to run the code *)
(* ================================================================== *)

Module Examples.
Import Py SearchTools AIGenerator.

(** A store in the manner of the test suite's mock: the query ["nothing"]
    has no match, the query ["boom"] makes the store raise, every other
    query has one match in lesson 1 of "Test Course". *)
Definition demo_store : VectorStore :=
  {| search := fun query _ _ =>
       match query with
       | PStr "nothing" => Ok (mkSearchResults [] [] None)
       | PStr "boom" => Raise (mkException "RuntimeError" "Tool execution failed")
       | _ => Ok (mkSearchResults ["Test content"]
                    [mkChunkMeta (Some "Test Course") (Some 1%Z)] None)
       end;
     get_lesson_link := fun course_title lesson_number =>
       Ok (Some ("https://example.com/" ++ course_title ++ "/lesson/"
                   ++ str_of_int lesson_number));
     _resolve_course_name := fun course_name =>
       match course_name with
       | PStr "boom" => Raise (mkException "RuntimeError" "catalog unavailable")
       | PStr "unknown course" => Ok None
       | _ => Ok (Some "Resolved Course Title")
       end;
     course_catalog_get := fun course_title =>
       Ok (Some (mkGetResult
                   [[("title", course_title);
                     ("course_link", "https://example.com/course");
                     ("lessons_json", "[lessons]")]])) |}.

(** The same store with a catalog that cannot be reached. *)
Definition failing_catalog_store : VectorStore :=
  {| search := search demo_store;
     get_lesson_link := get_lesson_link demo_store;
     _resolve_course_name := _resolve_course_name demo_store;
     course_catalog_get := fun _ =>
       Raise (mkException "RuntimeError" "catalog unavailable") |}.

Definition lessons_B_A : list CourseOutlineTool.Lesson :=
  [CourseOutlineTool.mkLesson (Some 2%Z) (Some "B");
   CourseOutlineTool.mkLesson (Some 1%Z) (Some "A")].

(** A decoder that knows the one document of [demo_store]. *)
Definition demo_json_loads (js : string) : Result (list CourseOutlineTool.Lesson) :=
  if js =? "[lessons]" then Ok lessons_B_A
  else Raise (mkException "JSONDecodeError" "Expecting value: line 1 column 1 (char 0)").

Definition broken_json_loads (js : string) : Result (list CourseOutlineTool.Lesson) :=
  Raise (mkException "JSONDecodeError" "Expecting value: line 1 column 1 (char 0)").

Definition stale_source : Source := mkSource "Old Course - Lesson 7" None.

#[export] Instance Registered_Tool : Tool RegisteredTool :=
  RegisteredTool_Tool demo_json_loads.

(** The registry of the application: the search tool, then the outline tool. *)
Definition demo_manager : ToolManager.t RegisteredTool :=
  snd (ToolManager.register_tool
         (snd (ToolManager.register_tool ToolManager.__init__
                 (SearchTool (CourseSearchTool.__init__ demo_store))))
         (OutlineTool (CourseOutlineTool.__init__ demo_store))).

(** The same registry after the outline tool, then the search tool, ran. *)
Definition both_executed_manager : ToolManager.t RegisteredTool :=
  snd (ToolManager.execute_tool
         (snd (ToolManager.execute_tool demo_manager
                 "get_course_outline" [("course_name", PStr "MCP")]))
         "search_course_content" [("query", PStr "python")]).

(** The world of a run: the registry, and the responses the completion API
    will give, one per call. *)
Record World := mkWorld {
  manager : ToolManager.t RegisteredTool;
  script : list (Result Response.t) }.

Definition scripted_client : Client World :=
  fun _ w =>
    match script w with
    | [] => (Raise (mkException "APIError" "no response left"), w)
    | r :: rest => (r, mkWorld (manager w) rest)
    end.

Definition manager_dispatch : ToolDispatcher World :=
  fun tool_name kw w =>
    let '(r, manager') := ToolManager.execute_tool (manager w) tool_name kw in
    (r, mkWorld manager' (script w)).

Definition demo_generator : AIGenerator World :=
  mkAIGenerator scripted_client "test-model".

Definition demo_tools : option (list ToolDefinition) :=
  Some (ToolManager.get_tool_definitions demo_manager).

Definition tool_use (id query : string) : Response.t :=
  Response.mk
    [TextBlock "Let me search.";
     ToolUseBlock id "search_course_content" [("query", PStr query)]]
    "tool_use".

Definition end_turn (text : string) : Response.t :=
  Response.mk [TextBlock text] "end_turn".

(** A response asking for three searches, the second of which makes the
    store raise. *)
Definition three_requests : Response.t :=
  Response.mk
    [ToolUseBlock "t1" "search_course_content" [("query", PStr "python")];
     ToolUseBlock "t2" "search_course_content" [("query", PStr "boom")];
     ToolUseBlock "t3" "search_course_content" [("query", PStr "python")]]
    "tool_use".

End Examples.

(* ================================================================== *)
(** ** Further notions used to state properties of the sources *)
(* ================================================================== *)

Module Registration.
Import Py SearchTools.

(** A start-up sequence [manager.register_tool(t1); manager.register_tool(t2);
    ...], which stops at the first registration that raises. *)
Fixpoint register_all {T : Type} `{Tool T} (tools : list T) (self : ToolManager.t T)
  : Result unit * ToolManager.t T :=
  match tools with
  | [] => (Ok tt, self)
  | tool :: rest =>
      match ToolManager.register_tool self tool with
      | (Ok _, self') => register_all rest self'
      | (Raise e, self') => (Raise e, self')
      end
  end.

(** The names the definitions of [tools] declare ([None] for a definition
    without name). *)
Definition declared_names {T : Type} `{Tool T} (tools : list T) : list (option string) :=
  map (fun tool => name (get_tool_definition tool)) tools.

End Registration.

Module Observed.
Import Py AIGenerator.

(** A tool call that raised. *)
Definition tool_failed (ev : Event) : bool :=
  match ev with
  | ToolCall _ _ (Raise _) => true
  | _ => false
  end.

(** The names of the tool calls that returned, in order. *)
Fixpoint returned_tools (l : list Event) : list string :=
  match l with
  | [] => []
  | ToolCall tool_name _ (Ok _) :: rest => tool_name :: returned_tools rest
  | _ :: rest => returned_tools rest
  end.

(** What the tool calls that returned gave back, in order. *)
Fixpoint returned_outputs (l : list Event) : list string :=
  match l with
  | [] => []
  | ToolCall _ _ (Ok out) :: rest => out :: returned_outputs rest
  | _ :: rest => returned_outputs rest
  end.

(** The correlation ids of the tool requests among the blocks of a response. *)
Fixpoint requested_ids (blocks : list ContentBlock) : list string :=
  match blocks with
  | [] => []
  | TextBlock _ :: rest => requested_ids rest
  | ToolUseBlock id _ _ :: rest => id :: requested_ids rest
  end.

(** [l1] is an initial segment of [l2]. *)
Definition is_prefix {A : Type} (l1 l2 : list A) : Prop :=
  exists rest, l2 = (l1 ++ rest)%list.

End Observed.

(* ================================================================== *)
(** ** backend/app.py *)
(* ================================================================== *)

Module App.
Import Py SearchTools.

(** [prefix in s] at position 0: [s.startswith(prefix)]. *)
Fixpoint starts_with (prefix s : string) : bool :=
  match prefix, s with
  | EmptyString, _ => true
  | String a prefix', String b s' => Ascii.eqb a b && starts_with prefix' s'
  | String _ _, EmptyString => false
  end.

(** The test [sub in s] on strings. *)
Fixpoint str_in (sub s : string) : bool :=
  if starts_with sub s then true
  else
    match s with
    | EmptyString => false
    | String _ s' => str_in sub s'
    end.

(** Request model for course queries. *)
Record QueryRequest := mkQueryRequest {
  query : string;
  session_id : option string }.

(** An entry of [sources]: a plain string or a [SourceItem]. *)
Inductive SourceEntry : Type :=
| SourceString (s : string)
| SourceItem (item : Source).

(** Response model for course queries. *)
Record QueryResponse := mkQueryResponse {
  answer : string;
  sources : list SourceEntry;
  response_session_id : string }.

(** Response model for course statistics. *)
Record CourseStats := mkCourseStats {
  total_courses : Z;
  course_titles : list string }.

(** The [dict] returned by [get_course_analytics]; a field is [None] when the
    key is absent. *)
Record Analytics := mkAnalytics {
  analytics_total_courses : option Z;
  analytics_course_titles : option (list string) }.

(** [analytics[key]] on an absent key. *)
Definition KeyError (key : string) : Exception :=
  mkException "KeyError" ("'" ++ key ++ "'").

(** How an endpoint ends: with its response, or with an [HTTPException]. *)
Inductive Http (A : Type) : Type :=
| Respond (a : A)
| HTTPException (status_code : nat) (detail : string).
Arguments Respond {A} a.
Arguments HTTPException {A} status_code detail.

Section Endpoints.

(** The state behind [rag_system]. *)
Variable W : Type.

(** Modelled from the spec: the object [rag_system] of the module
    [rag_system], which is not among the sources, through the four
    operations the endpoints call on it; each may raise. *)
Record RAGSystem := mkRAGSystem {
  create_session : W -> Result string * W;
  rag_query : string -> string -> W -> Result (string * list SourceEntry) * W;
  get_course_analytics : W -> Result Analytics * W;
  clear_session : string -> W -> Result unit * W }.

(** The [except Exception as e] block shared by [query_documents] and
    [get_course_stats]. *)
Definition api_error {A : Type} (e : Exception) : Http A :=
  let error_msg := str_exc e in
  if str_in "credit balance is too low" error_msg
  then HTTPException 402
         "Anthropic API credit balance too low. Please add credits to your account."
  else if str_in "invalid_request_error" error_msg
  then HTTPException 400 ("API request error: " ++ error_msg)
  else HTTPException 500 error_msg.

(** Process a query and return response with sources. *)
Definition query_documents (rag_system : RAGSystem) (request : QueryRequest) (w : W)
  : Http QueryResponse * W :=
  let session_id := session_id request in
  let '(created, w1) :=
    if truthy_opt_str session_id
    then (Ok (match session_id with Some s => s | None => "" end), w)
    else create_session rag_system w in
  match created with
  | Raise e => (api_error e, w1)
  | Ok session_id =>
      match rag_query rag_system (query request) session_id w1 with
      | (Raise e, w2) => (api_error e, w2)
      | (Ok (answer, sources), w2) =>
          (Respond (mkQueryResponse answer sources session_id), w2)
      end
  end.

(** Get course analytics and statistics. *)
Definition get_course_stats (rag_system : RAGSystem) (w : W) : Http CourseStats * W :=
  match get_course_analytics rag_system w with
  | (Raise e, w1) => (api_error e, w1)
  | (Ok analytics, w1) =>
      match analytics_total_courses analytics with
      | None => (api_error (KeyError "total_courses"), w1)
      | Some total =>
          match analytics_course_titles analytics with
          | None => (api_error (KeyError "course_titles"), w1)
          | Some titles => (Respond (mkCourseStats total titles), w1)
          end
      end
  end.

(** Clear a conversation session; the response is the fixed success
    message. *)
Definition clear_session_endpoint (rag_system : RAGSystem) (session_id : string) (w : W)
  : Http (bool * string) * W :=
  match clear_session rag_system session_id w with
  | (Ok _, w1) => (Respond (true, "Session cleared successfully"), w1)
  | (Raise e, w1) => (HTTPException 500 (str_exc e), w1)
  end.

End Endpoints.

Arguments mkRAGSystem {W} create_session rag_query get_course_analytics clear_session.
Arguments create_session {W} r.
Arguments rag_query {W} r.
Arguments get_course_analytics {W} r.
Arguments clear_session {W} r.
Arguments query_documents {W} rag_system request w.
Arguments get_course_stats {W} rag_system w.
Arguments clear_session_endpoint {W} rag_system session_id w.

End App.

(* ================================================================== *)
(** ** More concrete collaborators *)
(* ================================================================== *)

Module MoreExamples.
Import Py SearchTools AIGenerator App.

(** A tool as the test suite builds them: a definition that may lack a
    name, a fixed reply, and no [last_sources] attribute. *)
Record PlainTool := mkPlainTool {
  plain_name : option string;
  plain_reply : string }.

Definition PlainTool_Tool : Tool PlainTool := {|
  get_tool_definition := fun t =>
    mkToolDefinition (plain_name t) "A tool for tests" [] [];
  execute := fun t _ => (Ok (plain_reply t), t);
  last_sources_attr := fun _ => None;
  set_last_sources := fun _ t => t |}.

Definition weather_tool : PlainTool := mkPlainTool (Some "weather") "sunny".
Definition clock_tool : PlainTool := mkPlainTool (Some "clock") "noon".
Definition unnamed_tool : PlainTool := mkPlainTool None "never".

(** A search result with more documents than metadata entries, a match
    without lesson number and a match of unknown course. *)
Definition uneven_store : VectorStore :=
  {| search := fun _ _ _ =>
       Ok (mkSearchResults
             ["first"; "second"; "third"; "fourth"]
             [mkChunkMeta (Some "Course A") (Some 0%Z);
              mkChunkMeta (Some "Course A") None;
              mkChunkMeta None (Some 3%Z)]
             None);
     get_lesson_link := fun course_title lesson_number =>
       Ok (Some ("https://example.com/" ++ course_title ++ "/"
                   ++ str_of_int lesson_number));
     _resolve_course_name := fun _ => Ok (Some "Course A");
     course_catalog_get := fun _ => Ok None |}.

(** A store that reports an error text along with documents; its catalog
    knows the title of a course and nothing else. *)
Definition error_store : VectorStore :=
  {| search := fun _ _ _ =>
       Ok (mkSearchResults ["left over"] [mkChunkMeta (Some "Course A") None]
             (Some "Search error: index unavailable"));
     get_lesson_link := fun _ _ => Ok None;
     _resolve_course_name := fun _ => Ok (Some "Course A");
     course_catalog_get := fun course_title =>
       Ok (Some (mkGetResult [[("title", course_title)]])) |}.

(** A [rag_system] over a session counter: sessions are numbered, the query
    ["quota"] fails as the completion API does without credit, the query
    ["malformed"] as it does on a bad request. *)
Definition demo_rag : RAGSystem nat :=
  mkRAGSystem
    (fun n => (Ok ("session_" ++ str_of_nat (S n)), S n))
    (fun q sid n =>
       if q =? "quota"
       then (Raise (mkException "BadRequestError"
                      "Error code: 400 - invalid_request_error: Your credit balance is too low to access the API"),
             n)
       else if q =? "malformed"
       then (Raise (mkException "BadRequestError"
                      "Error code: 400 - invalid_request_error: messages: field required"),
             n)
       else (Ok ("An answer for " ++ sid, [SourceString "Course A - Lesson 1"]), n))
    (fun n => (Ok (mkAnalytics None (Some ["Course A"])), n))
    (fun sid n =>
       (Raise (mkException "RuntimeError" "credit balance is too low"), n)).

End MoreExamples.

(* ================================================================== *)
(** ** Properties of the tools and of the registry *)
(* ================================================================== *)

Module SearchToolsProps.
Import Py SearchTools.
Local Open Scope list_scope.

Lemma append_assoc (a b c : string) : ((a ++ b) ++ c = a ++ b ++ c)%string.
Proof. induction a as [|ch a IH]; simpl; [reflexivity | now rewrite IH]. Qed.

Lemma append_nil_r (a : string) : (a ++ "" = a)%string.
Proof. induction a as [|ch a IH]; simpl; [reflexivity | now rewrite IH]. Qed.

Lemma truthy_list_true {A} (l : list A) : l <> [] -> truthy_list l = true.
Proof. destruct l; [congruence | reflexivity]. Qed.

Section DictFacts.

Context {V : Type}.

Lemma dict_set_existing (k : string) (v old : V) (d : Dict V) :
  dict_get k d = Some old ->
  exists before after,
    d = (before ++ (k, old) :: after)%list
    /\ dict_get k before = None
    /\ dict_set k v d = (before ++ (k, v) :: after)%list.
Proof.
  induction d as [|[k' v'] d IH]; simpl; [discriminate|].
  destruct (String.eqb_spec k' k) as [->|Hne]; intros Hget.
  - injection Hget as <-. now exists [], d.
  - destruct (IH Hget) as (before & after & -> & Hnone & Hset).
    exists ((k', v') :: before), after. simpl.
    destruct (String.eqb_spec k' k); [contradiction|].
    now rewrite Hset.
Qed.

Lemma dict_set_fresh (k : string) (v : V) (d : Dict V) :
  dict_get k d = None -> dict_set k v d = (d ++ [(k, v)])%list.
Proof.
  induction d as [|[k' v'] d IH]; simpl; [reflexivity|].
  destruct (k' =? k); [discriminate|]. intros Hget. now rewrite IH.
Qed.

Lemma dict_get_set_same (k : string) (v : V) (d : Dict V) :
  dict_get k (dict_set k v d) = Some v.
Proof.
  induction d as [|[k' v'] d IH]; simpl.
  - now rewrite String.eqb_refl.
  - destruct (k' =? k) eqn:E; simpl; rewrite E; [reflexivity | exact IH].
Qed.

Lemma dict_get_middle (k : string) (v : V) (before after : Dict V) :
  dict_get k before = None -> dict_get k (before ++ (k, v) :: after) = Some v.
Proof.
  induction before as [|[k' v'] before IH]; simpl.
  - now rewrite String.eqb_refl.
  - destruct (k' =? k); [discriminate | exact IH].
Qed.

Lemma dict_keys_set (k : string) (v : V) (d : Dict V) :
  incl (dict_keys (dict_set k v d)) (k :: dict_keys d).
Proof.
  induction d as [|[k' v'] d IH]; simpl.
  - apply incl_refl.
  - destruct (String.eqb_spec k' k) as [->|Hne]; simpl.
    + apply incl_tl, incl_refl.
    + intros x [<-|Hin]; [right; now left|].
      destruct (IH x Hin) as [<-|Hin']; [now left | right; now right].
Qed.

End DictFacts.

Section Registry.

Context {T : Type} `{Tool T}.

Lemma first_sources_skips (before rest : list T) :
  (forall earlier l, In earlier before -> last_sources_attr earlier = Some l -> l = []) ->
  ToolManager.first_sources (before ++ rest) = ToolManager.first_sources rest.
Proof.
  induction before as [|tool before IH]; simpl; intros Hnone; [reflexivity|].
  destruct (last_sources_attr tool) as [l|] eqn:E.
  - rewrite (Hnone tool l (or_introl eq_refl) E). simpl.
    apply IH. intros earlier l' Hin. apply Hnone. now right.
  - apply IH. intros earlier l' Hin. apply Hnone. now right.
Qed.

Lemma first_sources_head (tool : T) (batch : list Source) (rest : list T) :
  last_sources_attr tool = Some batch -> batch <> [] ->
  ToolManager.first_sources (tool :: rest) = batch.
Proof.
  intros E Hne. simpl. rewrite E. now rewrite (truthy_list_true batch Hne).
Qed.

(** A tool registered under a name that is not yet taken goes last in the
    listing order, so the order of the registry is the order of
    registration. *)
Lemma register_tool_fresh_name_goes_last (self : ToolManager.t T) (tool : T) (n : string) :
  name (get_tool_definition tool) = Some n ->
  truthy_str n = true ->
  dict_get n (ToolManager.tools self) = None ->
  ToolManager.register_tool self tool
  = (Ok tt, ToolManager.mk (ToolManager.tools self ++ [(n, tool)])).
Proof.
  intros Hname Htrue Hfresh. unfold ToolManager.register_tool.
  rewrite Hname. simpl. rewrite Htrue. now rewrite dict_set_fresh.
Qed.

Lemma reachable_names_truthy (self : ToolManager.t T) :
  ToolManager.reachable self ->
  forall k, In k (dict_keys (ToolManager.tools self)) -> truthy_str k = true.
Proof.
  induction 1 as [|self tool self' Hreach IH Hreg|self n kw Hreach IH|self Hreach IH];
    intros k Hin.
  - destruct Hin.
  - unfold ToolManager.register_tool in Hreg.
    destruct (name (get_tool_definition tool)) as [n|] eqn:En; simpl in Hreg;
      [|discriminate].
    destruct (truthy_str n) eqn:Et; [|discriminate].
    injection Hreg as <-. simpl in Hin.
    destruct (dict_keys_set n tool (ToolManager.tools self) k Hin) as [<-|Hin'];
      [exact Et | now apply IH].
  - unfold ToolManager.execute_tool in Hin.
    destruct (dict_get n (ToolManager.tools self)) as [tool|] eqn:Eg;
      [|now apply IH].
    destruct (execute tool kw) as [r tool']. simpl in Hin.
    destruct (dict_set_existing n tool' tool _ Eg) as (before & after & Hd & _ & Hset).
    rewrite Hset in Hin. apply IH. rewrite Hd.
    unfold dict_keys in *. rewrite map_app in *. exact Hin.
  - apply IH. unfold ToolManager.reset_sources, dict_keys in Hin. simpl in Hin.
    rewrite map_map in Hin. exact Hin.
Qed.

(** C5. [get_last_sources] goes through the registered tools in
    registration order and returns the first non-empty batch of sources it
    meets; it returns the empty list when no tool holds a non-empty batch.
    When two tools hold non-empty batches, the batch of the one registered
    first is the result, as it stands, and the other batch is not part of it. *)
Theorem get_last_sources_first_nonempty (self : ToolManager.t T) :
  (forall before tool batch after,
      dict_values (ToolManager.tools self) = (before ++ tool :: after)%list ->
      (forall earlier l,
          In earlier before -> last_sources_attr earlier = Some l -> l = []) ->
      last_sources_attr tool = Some batch ->
      batch <> [] ->
      ToolManager.get_last_sources self = batch)
  /\ ((forall tool l,
          In tool (dict_values (ToolManager.tools self)) ->
          last_sources_attr tool = Some l -> l = []) ->
      ToolManager.get_last_sources self = [])
  /\ (forall before first between second after batch1 batch2,
         dict_values (ToolManager.tools self)
         = (before ++ first :: between ++ second :: after)%list ->
         (forall earlier l,
             In earlier before -> last_sources_attr earlier = Some l -> l = []) ->
         last_sources_attr first = Some batch1 -> batch1 <> [] ->
         last_sources_attr second = Some batch2 -> batch2 <> [] ->
         ToolManager.get_last_sources self = batch1).
Proof.
  unfold ToolManager.get_last_sources. repeat split.
  - intros before tool batch after -> Hnone Hattr Hne.
    rewrite first_sources_skips by exact Hnone.
    now apply first_sources_head.
  - intros Hnone.
    rewrite <- (app_nil_r (dict_values (ToolManager.tools self))).
    now rewrite first_sources_skips.
  - intros before first between second after batch1 batch2 -> Hnone H1 Hne1 _ _.
    rewrite first_sources_skips by exact Hnone.
    now apply first_sources_head.
Qed.

(** C10. Registering a tool whose declared name is already registered
    succeeds and replaces the earlier tool in place: the entry of that name
    now holds the new tool, at the position the name had; the number of
    registered names and their order are unchanged; the definitions listed
    differ only at that position; and dispatching the name runs the new tool. *)
Theorem register_tool_same_name_replaces (self : ToolManager.t T) (tool old : T) (n : string) :
  ToolManager.reachable self ->
  name (get_tool_definition tool) = Some n ->
  dict_get n (ToolManager.tools self) = Some old ->
  exists before after,
    ToolManager.tools self = (before ++ (n, old) :: after)%list
    /\ dict_get n before = None
    /\ ToolManager.register_tool self tool
       = (Ok tt, ToolManager.mk (before ++ (n, tool) :: after))
    /\ length (before ++ (n, tool) :: after) = length (ToolManager.tools self)
    /\ dict_keys (before ++ (n, tool) :: after) = dict_keys (ToolManager.tools self)
    /\ ToolManager.get_tool_definitions (ToolManager.mk (before ++ (n, tool) :: after))
       = (map get_tool_definition (dict_values before)
            ++ get_tool_definition tool :: map get_tool_definition (dict_values after))%list
    /\ ToolManager.get_tool_definitions self
       = (map get_tool_definition (dict_values before)
            ++ get_tool_definition old :: map get_tool_definition (dict_values after))%list
    /\ forall kw,
         fst (ToolManager.execute_tool (ToolManager.mk (before ++ (n, tool) :: after)) n kw)
         = fst (execute tool kw).
Proof.
  intros Hreach Hname Hget.
  destruct (dict_set_existing n tool old _ Hget) as (before & after & Hd & Hnone & Hset).
  exists before, after.
  assert (Htrue : truthy_str n = true).
  { apply (reachable_names_truthy self Hreach). rewrite Hd.
    unfold dict_keys. rewrite map_app. apply in_or_app. right. now left. }
  split; [exact Hd|]. split; [exact Hnone|]. split.
  { unfold ToolManager.register_tool. rewrite Hname. simpl. rewrite Htrue.
    now rewrite Hset. }
  unfold dict_keys, ToolManager.get_tool_definitions.
  cbn [ToolManager.tools]. rewrite Hd.
  repeat split.
  - now rewrite !length_app.
  - now rewrite !map_app.
  - unfold dict_values. now rewrite !map_app.
  - unfold dict_values. now rewrite !map_app.
  - intros kw. unfold ToolManager.execute_tool. cbn [ToolManager.tools].
    rewrite (dict_get_middle n tool before after Hnone).
    now destruct (execute tool kw).
Qed.

End Registry.


(** *** [sorted] is a stable sort *)

Section SortedFacts.

Context {A : Type} (key : A -> Z).

Lemma insert_by_key_perm (x : A) (l : list A) :
  Permutation (x :: l) (insert_by_key key x l).
Proof.
  induction l as [|y l IH]; simpl; [apply Permutation_refl|].
  destruct (key y <? key x)%Z.
  - eapply perm_trans; [apply perm_swap|]. now apply perm_skip.
  - apply Permutation_refl.
Qed.

Lemma sorted_perm (l : list A) : Permutation l (sorted key l).
Proof.
  induction l as [|x l IH]; simpl; [constructor|].
  eapply perm_trans; [apply perm_skip, IH | apply insert_by_key_perm].
Qed.

Lemma insert_by_key_sorted (x : A) (l : list A) :
  StronglySorted (fun a b => key a <= key b)%Z l ->
  StronglySorted (fun a b => key a <= key b)%Z (insert_by_key key x l).
Proof.
  induction 1 as [|y l Hsorted IH Hall]; simpl.
  - constructor; constructor.
  - destruct (Z.ltb_spec (key y) (key x)) as [Hlt|Hge].
    + constructor; [exact IH|].
      apply (Permutation_Forall (insert_by_key_perm x l)).
      constructor; [lia | exact Hall].
    + constructor; [now constructor|].
      constructor; [exact Hge|].
      eapply Forall_impl; [|exact Hall]. intros z Hz. simpl in Hz. lia.
Qed.

Lemma sorted_ascending (l : list A) :
  StronglySorted (fun a b => key a <= key b)%Z (sorted key l).
Proof.
  induction l as [|x l IH]; simpl; [constructor | now apply insert_by_key_sorted].
Qed.

Lemma insert_by_key_filter (k : Z) (x : A) (l : list A) :
  filter (fun y => key y =? k)%Z (insert_by_key key x l)
  = filter (fun y => key y =? k)%Z (x :: l).
Proof.
  induction l as [|y l IH]; [reflexivity|].
  cbn [insert_by_key].
  destruct (Z.ltb_spec (key y) (key x)) as [Hlt|Hge]; [|reflexivity].
  cbn [filter] in *. rewrite IH.
  destruct (Z.eqb_spec (key x) k) as [Hx|Hx]; [|reflexivity].
  destruct (Z.eqb_spec (key y) k) as [Hy|Hy]; [lia | reflexivity].
Qed.

(** Elements with the same key come out in the order they went in. *)
Lemma sorted_stable (k : Z) (l : list A) :
  filter (fun y => key y =? k)%Z (sorted key l) = filter (fun y => key y =? k)%Z l.
Proof.
  induction l as [|x l IH]; [reflexivity|].
  cbn [sorted]. rewrite insert_by_key_filter. cbn [filter]. now rewrite IH.
Qed.

End SortedFacts.

Lemma join_nil_cons (a : string) (rest : list string) :
  join "" (a :: rest) = (a ++ join "" rest)%string.
Proof.
  destruct rest as [|b rest]; [now rewrite append_nil_r | reflexivity].
Qed.

Lemma fold_left_append {A} (f : A -> string) (l : list A) (acc : string) :
  fold_left (fun out x => (out ++ f x)%string) l acc
  = (acc ++ join "" (map f l))%string.
Proof.
  revert acc. induction l as [|x l IH]; intros acc.
  - simpl. now rewrite append_nil_r.
  - cbn [fold_left map]. rewrite IH, join_nil_cons. apply append_assoc.
Qed.

(** *** The content-search tool *)

Lemma format_loop_sources (st : VectorStore) (pairs : list (string * ChunkMeta))
    (formatted0 : list string) (sources0 : list Source)
    (formatted : list string) (sources : list Source) :
  CourseSearchTool.format_loop st pairs formatted0 sources0 = Ok (formatted, sources) ->
  exists new_sources,
    sources = sources0 ++ new_sources
    /\ Forall2
         (fun matched source =>
            exists block,
              CourseSearchTool.format_one st (fst matched) (snd matched)
              = Ok (block, source))
         pairs new_sources.
Proof.
  revert formatted0 sources0.
  induction pairs as [|[doc meta] pairs IH]; intros formatted0 sources0; simpl.
  - intros [= <- <-]. exists []. split; [now rewrite app_nil_r | constructor].
  - destruct (CourseSearchTool.format_one st doc meta) as [[block source]|e] eqn:E;
      simpl; [|discriminate].
    intros Hloop. destruct (IH _ _ Hloop) as (new_sources & -> & Hall).
    exists (source :: new_sources). split.
    + now rewrite <- app_assoc.
    + constructor; [now exists block | exact Hall].
Qed.

(** What [execute] answers when the search has no match and reports no
    error, and that it leaves the tool as it was. *)
Lemma execute_no_match (self : CourseSearchTool.t) (query course_name lesson_number : PyVal)
    (results : SearchResults) :
  search (CourseSearchTool.store self) query course_name lesson_number = Ok results ->
  truthy_opt_str (error results) = false ->
  is_empty results = true ->
  CourseSearchTool.execute self query course_name lesson_number
  = (Ok ("No relevant content found"
           ++ CourseSearchTool.filter_info course_name lesson_number ++ ".")%string,
     self).
Proof.
  intros Hsearch Herr Hempty. unfold CourseSearchTool.execute.
  now rewrite Hsearch, Herr, Hempty.
Qed.

(** With the course filter ["X"] and no lesson filter the answer is the
    sentence of the specification, and an empty list of sources stays empty. *)
Lemma execute_no_match_course_X (st : VectorStore) (query : PyVal) (results : SearchResults) :
  search st query (PStr "X") PNone = Ok results ->
  truthy_opt_str (error results) = false ->
  is_empty results = true ->
  CourseSearchTool.execute (CourseSearchTool.__init__ st) query (PStr "X") PNone
  = (Ok "No relevant content found in course 'X'.", CourseSearchTool.__init__ st).
Proof.
  intros Hsearch Herr Hempty.
  now rewrite (execute_no_match (CourseSearchTool.__init__ st) query (PStr "X") PNone
                 results Hsearch Herr Hempty).
Qed.

(** C4, as stated, fails: after a search without match the tool still holds
    the record of an earlier execution, one record for no match. *)
Lemma execute_without_match_keeps_old_batch :
  exists (self : CourseSearchTool.t) (query : PyVal) (results : SearchResults),
    search (CourseSearchTool.store self) query PNone PNone = Ok results
    /\ fst (CourseSearchTool.execute self query PNone PNone)
       = Ok "No relevant content found."
    /\ CourseSearchTool.last_sources (snd (CourseSearchTool.execute self query PNone PNone))
       = [Examples.stale_source]
    /\ length (CourseSearchTool.last_sources
                 (snd (CourseSearchTool.execute self query PNone PNone)))
       <> length (combine (documents results) (metadata results)).
Proof.
  exists (CourseSearchTool.mk Examples.demo_store [Examples.stale_source]),
         (PStr "nothing"), (mkSearchResults [] [] None).
  repeat split. simpl. discriminate.
Qed.

(** C4, amended. When [execute] returns after a search that reports no error
    and has matches, [last_sources] holds one record per match of that call,
    in order, each the display text and optional link computed for its
    match, whatever the tool held before. When the search reports an error
    or has no match, the tool is left as it was. No execution empties a
    non-empty batch (the store giving one metadata entry per document);
    [reset_sources] is what empties it. *)
Theorem execute_overwrites_sources_on_matches (self self' : CourseSearchTool.t)
    (query course_name lesson_number : PyVal) (results : SearchResults) (out : string) :
  search (CourseSearchTool.store self) query course_name lesson_number = Ok results ->
  CourseSearchTool.execute self query course_name lesson_number = (Ok out, self') ->
  (truthy_opt_str (error results) = false ->
   is_empty results = false ->
   Forall2
     (fun matched source =>
        exists block,
          CourseSearchTool.format_one (CourseSearchTool.store self)
            (fst matched) (snd matched) = Ok (block, source))
     (combine (documents results) (metadata results))
     (CourseSearchTool.last_sources self')
   /\ length (CourseSearchTool.last_sources self')
      = length (combine (documents results) (metadata results))
   /\ forall held,
        snd (CourseSearchTool.execute
               (CourseSearchTool.mk (CourseSearchTool.store self) held)
               query course_name lesson_number) = self')
  /\ (truthy_opt_str (error results) = true \/ is_empty results = true -> self' = self)
  /\ (length (documents results) = length (metadata results) ->
      CourseSearchTool.last_sources self <> [] ->
      CourseSearchTool.last_sources self' <> [])
  /\ (forall manager : ToolManager.t CourseSearchTool.t,
        Forall (fun tool => CourseSearchTool.last_sources tool = [])
          (dict_values (ToolManager.tools (ToolManager.reset_sources manager)))).
Proof.
  intros Hsearch Hexec.
  unfold CourseSearchTool.execute in Hexec. rewrite Hsearch in Hexec.
  assert (Hmatches :
    truthy_opt_str (error results) = false -> is_empty results = false ->
    exists formatted,
      CourseSearchTool.format_loop (CourseSearchTool.store self)
        (combine (documents results) (metadata results)) [] []
      = Ok (formatted, CourseSearchTool.last_sources self')
      /\ self' = CourseSearchTool.mk (CourseSearchTool.store self)
                   (CourseSearchTool.last_sources self')).
  { intros Herr Hempty. rewrite Herr, Hempty in Hexec.
    unfold CourseSearchTool._format_results in Hexec.
    destruct (CourseSearchTool.format_loop _ _ _ _) as [[formatted sources]|e];
      [|discriminate].
    injection Hexec as _ <-. now exists formatted. }
  split; [|split; [|split]].
  - intros Herr Hempty.
    destruct (Hmatches Herr Hempty) as (formatted & Hloop & Hself).
    destruct (format_loop_sources _ _ _ _ _ _ Hloop) as (new_sources & Heq & Hall).
    simpl in Heq. subst new_sources.
    split; [exact Hall|]. split.
    + symmetry. exact (Forall2_length Hall).
    + intros held. unfold CourseSearchTool.execute. cbn [CourseSearchTool.store].
      rewrite Hsearch, Herr, Hempty. unfold CourseSearchTool._format_results.
      cbn [CourseSearchTool.store]. rewrite Hloop. cbn [snd]. now rewrite Hself at 2.
  - intros [Herr|Hempty].
    + rewrite Herr in Hexec. now injection Hexec as _ <-.
    + destruct (truthy_opt_str (error results)).
      * now injection Hexec as _ <-.
      * rewrite Hempty in Hexec. now injection Hexec as _ <-.
  - intros Hlen Hheld.
    destruct (truthy_opt_str (error results)) eqn:Herr.
    { now injection Hexec as _ <-. }
    destruct (is_empty results) eqn:Hempty.
    { now injection Hexec as _ <-. }
    destruct (Hmatches eq_refl eq_refl) as (formatted & Hloop & _).
    destruct (format_loop_sources _ _ _ _ _ _ Hloop) as (new_sources & Heq & Hall).
    simpl in Heq. subst new_sources.
    apply Forall2_length in Hall. rewrite length_combine, <- Hlen, Nat.min_id in Hall.
    unfold is_empty in Hempty.
    destruct (documents results); [discriminate|].
    destruct (CourseSearchTool.last_sources self'); [discriminate | congruence].
  - intros manager. unfold ToolManager.reset_sources, dict_values.
    cbn [ToolManager.tools]. rewrite map_map. apply Forall_map, Forall_forall.
    now intros [k tool] _.
Qed.

(** C6. With the lesson filter 0 and no match, the message names no filter,
    whereas the lesson filter 1 is named. *)
Theorem execute_no_match_omits_lesson_zero :
  search Examples.demo_store (PStr "nothing") PNone (PInt 0)
  = Ok (mkSearchResults [] [] None)
  /\ fst (CourseSearchTool.execute (CourseSearchTool.__init__ Examples.demo_store)
            (PStr "nothing") PNone (PInt 0))
     = Ok "No relevant content found."
  /\ fst (CourseSearchTool.execute (CourseSearchTool.__init__ Examples.demo_store)
            (PStr "nothing") PNone (PInt 1))
     = Ok "No relevant content found in lesson 1."
  /\ fst (CourseSearchTool.execute (CourseSearchTool.__init__ Examples.demo_store)
            (PStr "nothing") (PStr "X") (PInt 0))
     = Ok "No relevant content found in course 'X'.".
Proof. repeat split. Qed.


(** *** The outline tool *)

Section Outline.

Variable json_loads : string -> Result (list CourseOutlineTool.Lesson).

(** The outline that [execute] renders once the course is resolved, its
    metadata found and its lesson list decoded. *)
Lemma execute_renders_outline (self : CourseOutlineTool.t) (course_name : PyVal)
    (title : string) (r : GetResult) (metadata : Dict string) (others : list (Dict string))
    (js : string) (lessons : list CourseOutlineTool.Lesson) :
  _resolve_course_name (CourseOutlineTool.store self) course_name = Ok (Some title) ->
  truthy_str title = true ->
  course_catalog_get (CourseOutlineTool.store self) title = Ok (Some r) ->
  metadatas r = metadata :: others ->
  metadata <> [] ->
  dict_get "lessons_json" metadata = Some js ->
  truthy_str js = true ->
  json_loads js = Ok lessons ->
  fst (CourseOutlineTool.execute json_loads self course_name)
  = Ok ((("**" ++ title ++ "**" ++ LF)
           ++ (if truthy_opt_str (dict_get "course_link" metadata)
               then "Course Link: "
                      ++ match dict_get "course_link" metadata with
                         | Some l => l
                         | None => ""
                         end ++ LF
               else "")
           ++ LF ++ "**Lessons (" ++ str_of_nat (length lessons) ++ " total):**" ++ LF)
          ++ join "" (map CourseOutlineTool.lesson_line
                        (sorted CourseOutlineTool.sort_key lessons)))%string.
Proof.
  intros Hres Htitle Hget Hmeta Hne Hjs Hjst Hloads.
  unfold CourseOutlineTool.execute. rewrite Hres, Htitle. cbn [negb].
  unfold CourseOutlineTool.outline_body. rewrite Hget. cbn [bindR]. rewrite Hmeta.
  rewrite (truthy_list_true metadata Hne). cbn [negb].
  rewrite Hjs, Hjst. cbn [negb]. rewrite Hloads. cbn [bindR fst].
  rewrite fold_left_append. f_equal. f_equal.
  destruct (dict_get "course_link" metadata) as [l|]; cbn [truthy_opt_str].
  - destruct (truthy_str l); rewrite ?append_assoc; reflexivity.
  - rewrite ?append_assoc. reflexivity.
Qed.

(** C8. The lesson lines of the outline follow the heading in the order of
    [sorted] on the lesson numbers (a lesson without number counting as 0):
    that order is a rearrangement of the lesson list, ascending in the lesson
    number, and keeps lessons of equal number in the order of the list. The
    lessons 2 "B", 1 "A" come out as the lines of 1 "A", then 2 "B". *)
Theorem outline_lessons_sorted_stable (self : CourseOutlineTool.t) (course_name : PyVal)
    (title : string) (r : GetResult) (metadata : Dict string) (others : list (Dict string))
    (js : string) (lessons : list CourseOutlineTool.Lesson) :
  _resolve_course_name (CourseOutlineTool.store self) course_name = Ok (Some title) ->
  truthy_str title = true ->
  course_catalog_get (CourseOutlineTool.store self) title = Ok (Some r) ->
  metadatas r = metadata :: others ->
  metadata <> [] ->
  dict_get "lessons_json" metadata = Some js ->
  truthy_str js = true ->
  json_loads js = Ok lessons ->
  fst (CourseOutlineTool.execute json_loads self course_name)
  = Ok ((("**" ++ title ++ "**" ++ LF)
           ++ (if truthy_opt_str (dict_get "course_link" metadata)
               then "Course Link: "
                      ++ match dict_get "course_link" metadata with
                         | Some l => l
                         | None => ""
                         end ++ LF
               else "")
           ++ LF ++ "**Lessons (" ++ str_of_nat (length lessons) ++ " total):**" ++ LF)
          ++ join "" (map CourseOutlineTool.lesson_line
                        (sorted CourseOutlineTool.sort_key lessons)))%string
  /\ Permutation lessons (sorted CourseOutlineTool.sort_key lessons)
  /\ StronglySorted
       (fun a b => CourseOutlineTool.sort_key a <= CourseOutlineTool.sort_key b)%Z
       (sorted CourseOutlineTool.sort_key lessons)
  /\ (forall number,
         filter (fun x => CourseOutlineTool.sort_key x =? number)%Z
           (sorted CourseOutlineTool.sort_key lessons)
         = filter (fun x => CourseOutlineTool.sort_key x =? number)%Z lessons)
  /\ map CourseOutlineTool.lesson_line
       (sorted CourseOutlineTool.sort_key
          [CourseOutlineTool.mkLesson (Some 2%Z) (Some "B");
           CourseOutlineTool.mkLesson (Some 1%Z) (Some "A")])
     = [("1. A" ++ LF)%string; ("2. B" ++ LF)%string].
Proof.
  intros Hres Htitle Hget Hmeta Hne Hjs Hjst Hloads.
  split; [|split; [|split; [|split]]].
  - exact (execute_renders_outline self course_name title r metadata others js lessons
             Hres Htitle Hget Hmeta Hne Hjs Hjst Hloads).
  - apply sorted_perm.
  - apply sorted_ascending.
  - intros number. apply sorted_stable.
  - reflexivity.
Qed.

(** C9. Once the course name is resolved, [execute] returns a text whatever
    happens: an exception from the catalog look-up or from decoding the
    lesson list becomes the text "Error retrieving course outline: " followed
    by its description, and the tool is left as it was. An exception raised
    by the name resolution itself leaves [execute] as it is. *)
Theorem outline_execute_error_conversion (self : CourseOutlineTool.t) (course_name : PyVal) :
  (forall title,
      _resolve_course_name (CourseOutlineTool.store self) course_name = Ok (Some title) ->
      truthy_str title = true ->
      (exists out, fst (CourseOutlineTool.execute json_loads self course_name) = Ok out)
      /\ (forall e,
             course_catalog_get (CourseOutlineTool.store self) title = Raise e ->
             CourseOutlineTool.execute json_loads self course_name
             = (Ok ("Error retrieving course outline: " ++ str_exc e)%string, self))
      /\ (forall r metadata others js e,
             course_catalog_get (CourseOutlineTool.store self) title = Ok (Some r) ->
             metadatas r = metadata :: others ->
             metadata <> [] ->
             dict_get "lessons_json" metadata = Some js ->
             truthy_str js = true ->
             json_loads js = Raise e ->
             CourseOutlineTool.execute json_loads self course_name
             = (Ok ("Error retrieving course outline: " ++ str_exc e)%string, self)))
  /\ (forall e,
         _resolve_course_name (CourseOutlineTool.store self) course_name = Raise e ->
         CourseOutlineTool.execute json_loads self course_name = (Raise e, self)).
Proof.
  split.
  - intros title Hres Htitle. unfold CourseOutlineTool.execute.
    rewrite Hres, Htitle. cbn [negb]. split; [|split].
    + destruct (CourseOutlineTool.outline_body json_loads self title) as [[out self']|e];
        eexists; reflexivity.
    + intros e Hget. unfold CourseOutlineTool.outline_body. now rewrite Hget.
    + intros r metadata others js e Hget Hmeta Hne Hjs Hjst Hloads.
      unfold CourseOutlineTool.outline_body. rewrite Hget. cbn [bindR]. rewrite Hmeta.
      rewrite (truthy_list_true metadata Hne). cbn [negb].
      rewrite Hjs, Hjst. cbn [negb]. now rewrite Hloads.
  - intros e Hres. unfold CourseOutlineTool.execute. now rewrite Hres.
Qed.

End Outline.


(** *** The properties at work on the example collaborators *)

Section Witnesses.

Import Examples.

Lemma get_last_sources_first_nonempty_witness :
  ToolManager.get_last_sources both_executed_manager
  = [mkSource "Test Course - Lesson 1" (Some "https://example.com/Test Course/lesson/1")]
  /\ ToolManager.get_last_sources demo_manager = [].
Proof.
  split.
  - apply (proj2 (proj2 (get_last_sources_first_nonempty both_executed_manager))
             []
             (SearchTool
                (CourseSearchTool.mk demo_store
                   [mkSource "Test Course - Lesson 1"
                      (Some "https://example.com/Test Course/lesson/1")]))
             []
             (OutlineTool
                (CourseOutlineTool.mk demo_store
                   [mkSource "Resolved Course Title - Course Outline"
                      (Some "https://example.com/course")]))
             []
             [mkSource "Test Course - Lesson 1"
                (Some "https://example.com/Test Course/lesson/1")]
             [mkSource "Resolved Course Title - Course Outline"
                (Some "https://example.com/course")]);
      try reflexivity; try discriminate.
    intros earlier l [].
  - apply (proj1 (proj2 (get_last_sources_first_nonempty demo_manager))).
    intros tool l [<-|[<-|[]]] [= <-]; reflexivity.
Defined.

Lemma register_tool_same_name_replaces_witness :
  exists before after,
    ToolManager.tools demo_manager
    = before ++ ("search_course_content",
                 SearchTool (CourseSearchTool.__init__ demo_store)) :: after
    /\ ToolManager.register_tool demo_manager
         (SearchTool (CourseSearchTool.__init__ failing_catalog_store))
       = (Ok tt,
          ToolManager.mk
            (before ++ ("search_course_content",
                        SearchTool (CourseSearchTool.__init__ failing_catalog_store))
                    :: after)).
Proof.
  destruct (register_tool_same_name_replaces demo_manager
              (SearchTool (CourseSearchTool.__init__ failing_catalog_store))
              (SearchTool (CourseSearchTool.__init__ demo_store))
              "search_course_content")
    as (before & after & Htools & _ & Hreg & _).
  - apply (ToolManager.reach_register
             (snd (ToolManager.register_tool ToolManager.__init__
                     (SearchTool (CourseSearchTool.__init__ demo_store))))
             (OutlineTool (CourseOutlineTool.__init__ demo_store))
             demo_manager);
      [|reflexivity].
    apply (ToolManager.reach_register ToolManager.__init__
             (SearchTool (CourseSearchTool.__init__ demo_store)));
      [apply ToolManager.reach_init | reflexivity].
  - reflexivity.
  - reflexivity.
  - now exists before, after.
Defined.

Lemma execute_overwrites_sources_on_matches_witness :
  length (CourseSearchTool.last_sources
            (snd (CourseSearchTool.execute
                    (CourseSearchTool.mk demo_store [stale_source])
                    (PStr "python") PNone PNone)))
  = 1
  /\ snd (CourseSearchTool.execute
            (CourseSearchTool.mk demo_store [stale_source]) (PStr "nothing") PNone PNone)
     = CourseSearchTool.mk demo_store [stale_source].
Proof.
  split.
  - apply (proj1 (proj2 (proj1
             (execute_overwrites_sources_on_matches
                (CourseSearchTool.mk demo_store [stale_source])
                (snd (CourseSearchTool.execute
                        (CourseSearchTool.mk demo_store [stale_source])
                        (PStr "python") PNone PNone))
                (PStr "python") PNone PNone
                (mkSearchResults ["Test content"]
                   [mkChunkMeta (Some "Test Course") (Some 1%Z)] None)
                ("[Test Course - Lesson 1]" ++ LF ++ "Test content")%string
                eq_refl eq_refl)
             eq_refl eq_refl))).
  - apply (proj1 (proj2
             (execute_overwrites_sources_on_matches
                (CourseSearchTool.mk demo_store [stale_source])
                (snd (CourseSearchTool.execute
                        (CourseSearchTool.mk demo_store [stale_source])
                        (PStr "nothing") PNone PNone))
                (PStr "nothing") PNone PNone
                (mkSearchResults [] [] None)
                "No relevant content found."
                eq_refl eq_refl))).
    now right.
Defined.

Lemma outline_lessons_sorted_stable_witness :
  fst (CourseOutlineTool.execute demo_json_loads
         (CourseOutlineTool.__init__ demo_store) (PStr "MCP"))
  = Ok ("**Resolved Course Title**" ++ LF
          ++ "Course Link: https://example.com/course" ++ LF
          ++ LF ++ "**Lessons (2 total):**" ++ LF
          ++ "1. A" ++ LF ++ "2. B" ++ LF)%string.
Proof.
  apply (proj1
           (outline_lessons_sorted_stable demo_json_loads
              (CourseOutlineTool.__init__ demo_store) (PStr "MCP")
              "Resolved Course Title"
              (mkGetResult
                 [[("title", "Resolved Course Title");
                   ("course_link", "https://example.com/course");
                   ("lessons_json", "[lessons]")]])
              [("title", "Resolved Course Title");
               ("course_link", "https://example.com/course");
               ("lessons_json", "[lessons]")]
              [] "[lessons]" lessons_B_A
              eq_refl eq_refl eq_refl eq_refl
              ltac:(discriminate) eq_refl eq_refl eq_refl)).
Defined.

Lemma outline_execute_error_conversion_witness :
  CourseOutlineTool.execute demo_json_loads
    (CourseOutlineTool.__init__ failing_catalog_store) (PStr "MCP")
  = (Ok "Error retrieving course outline: catalog unavailable",
     CourseOutlineTool.__init__ failing_catalog_store)
  /\ CourseOutlineTool.execute broken_json_loads
       (CourseOutlineTool.__init__ demo_store) (PStr "MCP")
     = (Ok "Error retrieving course outline: Expecting value: line 1 column 1 (char 0)",
        CourseOutlineTool.__init__ demo_store)
  /\ CourseOutlineTool.execute demo_json_loads
       (CourseOutlineTool.__init__ demo_store) (PStr "boom")
     = (Raise (mkException "RuntimeError" "catalog unavailable"),
        CourseOutlineTool.__init__ demo_store).
Proof.
  split; [|split].
  - apply (proj1 (proj2 (proj1
             (outline_execute_error_conversion demo_json_loads
                (CourseOutlineTool.__init__ failing_catalog_store) (PStr "MCP"))
             "Resolved Course Title" eq_refl eq_refl))
             (mkException "RuntimeError" "catalog unavailable") eq_refl).
  - apply (proj2 (proj2 (proj1
             (outline_execute_error_conversion broken_json_loads
                (CourseOutlineTool.__init__ demo_store) (PStr "MCP"))
             "Resolved Course Title" eq_refl eq_refl))
             (mkGetResult
                [[("title", "Resolved Course Title");
                  ("course_link", "https://example.com/course");
                  ("lessons_json", "[lessons]")]])
             [("title", "Resolved Course Title");
              ("course_link", "https://example.com/course");
              ("lessons_json", "[lessons]")]
             [] "[lessons]"
             (mkException "JSONDecodeError" "Expecting value: line 1 column 1 (char 0)")
             eq_refl eq_refl ltac:(discriminate) eq_refl eq_refl eq_refl).
  - apply (proj2
             (outline_execute_error_conversion demo_json_loads
                (CourseOutlineTool.__init__ demo_store) (PStr "boom"))
             (mkException "RuntimeError" "catalog unavailable") eq_refl).
Defined.

End Witnesses.

End SearchToolsProps.

(* ================================================================== *)
(** ** Properties of the tool-calling loop *)
(* ================================================================== *)

Module AIGeneratorProps.
Import Py SearchTools AIGenerator.
Local Open Scope list_scope.

Lemma api_calls_app (a b : list Event) : api_calls (a ++ b) = api_calls a ++ api_calls b.
Proof.
  induction a as [|[p r|n i r] a IH]; simpl; [reflexivity | now rewrite IH | exact IH].
Qed.

Lemma tool_calls_app (a b : list Event) :
  tool_calls (a ++ b) = tool_calls a ++ tool_calls b.
Proof.
  induction a as [|[p r|n i r] a IH]; simpl; [reflexivity | exact IH | now rewrite IH].
Qed.

Section Loop.

Context {W : Type}.

(** *** One round of tool calls *)

Lemma tools_succeed_events (tm : ToolDispatcher W) (blocks : list ContentBlock) (w w' : W)
    (results : list ToolResult) (names : list string) (events : list Event) :
  tools_succeed tm blocks w results names events w' ->
  api_calls events = []
  /\ tool_calls events = requested_tools blocks
  /\ map fst (requested_tools blocks) = names
  /\ length results = length names.
Proof.
  induction 1 as [w|text rest w w' results names events _ IH
                  |id name input out rest w w1 w' results names events Hcall _ IH];
    simpl; [easy | exact IH |].
  destruct IH as (Hapi & Htools & Hnames & Hlen). now rewrite Htools, Hnames, Hlen.
Qed.

Lemma round_tools_loop_succeeds (tm : ToolDispatcher W) (blocks : list ContentBlock)
    (w w' : W) (results : list ToolResult) (names : list string) (events : list Event) :
  tools_succeed tm blocks w results names events w' ->
  forall (st : ToolCallState.t) (lg : list Event) (acc : list ToolResult),
    round_tools_loop tm blocks acc (mkMachine st w lg)
    = (Ok None,
       mkMachine
         (ToolCallState.mk (ToolCallState.current_round st) (ToolCallState.max_rounds st)
            (ToolCallState.messages st
               ++ (if truthy_list (acc ++ results)
                   then [Message.mk "user" (Message.ToolResults (acc ++ results))]
                   else []))
            (ToolCallState.tools_executed st
               ++ executed_in_round (ToolCallState.current_round st) names))
         w' (lg ++ events)).
Proof.
  induction 1 as [w|text rest w w' results names events _ IH
                  |id name input out rest w w1 w' results names events Hcall _ IH];
    intros st lg acc.
  - cbn. rewrite !app_nil_r. destruct st as [cur mx msgs ex]. 
    destruct (truthy_list acc); cbn; now rewrite ?app_nil_r.
  - cbn [round_tools_loop]. apply IH.
  - cbn [round_tools_loop]. unfold bind at 1. unfold try_except, bind, dispatch.
    cbn [world state log]. rewrite Hcall. cbn.
    rewrite IH. cbn. unfold executed_in_round. cbn [map].
    now rewrite <- !app_assoc.
Qed.

Lemma round_tools_loop_fails (tm : ToolDispatcher W) (pre : list ContentBlock)
    (w w1 w2 : W) (results : list ToolResult) (names : list string) (events : list Event)
    (id name : string) (input : Kwargs) (e : Exception) :
  tools_succeed tm pre w results names events w1 ->
  tm name input w1 = (Raise e, w2) ->
  forall (post : list ContentBlock) (st : ToolCallState.t) (lg : list Event)
         (acc : list ToolResult),
    round_tools_loop tm (pre ++ ToolUseBlock id name input :: post) acc (mkMachine st w lg)
    = (Ok (Some ("Tool " ++ name ++ " failed: " ++ str_exc e)%string),
       mkMachine
         (ToolCallState.mk (ToolCallState.current_round st) (ToolCallState.max_rounds st)
            (ToolCallState.messages st)
            (ToolCallState.tools_executed st
               ++ executed_in_round (ToolCallState.current_round st) names))
         w2 (lg ++ events ++ [ToolCall name input (Raise e)])).
Proof.
  intros Hpre. revert w2.
  induction Hpre as [w|text rest w w' results names events _ IH
                     |id' name' input' out rest w w0 w' results names events Hcall _ IH];
    intros w2 Hfail post st lg acc.
  - cbn [app round_tools_loop]. unfold bind at 1. unfold try_except, bind, dispatch.
    cbn [world state log]. rewrite Hfail. cbn. rewrite app_nil_r.
    now destruct st.
  - cbn [app round_tools_loop]. now apply IH.
  - cbn [app round_tools_loop]. unfold bind at 1. unfold try_except, bind, dispatch.
    cbn [world state log]. rewrite Hcall. cbn.
    rewrite (IH w2 Hfail). cbn. unfold executed_in_round. cbn [map].
    now rewrite <- !app_assoc.
Qed.

(** Whatever the tools do, a round of tool calls ends without raising,
    leaves the round counters alone and makes no call to the API. *)
Lemma round_tools_loop_frame (tm : ToolDispatcher W) (blocks : list ContentBlock) :
  forall (acc : list ToolResult) (m : Machine W),
  exists r m',
    round_tools_loop tm blocks acc m = (Ok r, m')
    /\ ToolCallState.current_round (state m') = ToolCallState.current_round (state m)
    /\ ToolCallState.max_rounds (state m') = ToolCallState.max_rounds (state m)
    /\ api_calls (log m') = api_calls (log m).
Proof.
  induction blocks as [|[text|id name input] blocks IH]; intros acc m.
  - cbn. destruct (truthy_list acc); cbn; eexists; eexists; (split; [reflexivity|]); easy.
  - cbn [round_tools_loop]. apply IH.
  - cbn [round_tools_loop]. unfold bind at 1. unfold try_except, bind, dispatch.
    destruct (tm name input (world m)) as [[out|e] w1]; cbn.
    + match goal with |- context [round_tools_loop tm blocks ?a ?m0] =>
        destruct (IH a m0) as (r & m' & -> & Hcur & Hmax & Hapi) end.
      exists r, m'. split; [reflexivity|]. cbn in Hcur, Hmax, Hapi.
      rewrite Hcur, Hmax, Hapi, api_calls_app. cbn. now rewrite app_nil_r.
    + eexists; eexists; split; [reflexivity|]. cbn.
      rewrite api_calls_app. cbn. now rewrite app_nil_r.
Qed.

(** *** One pass through the loop, and the loop *)

Variable self : AIGenerator W.
Variable system_content : string.
Variable tools : option (list ToolDefinition).
Variable tool_manager : option (ToolDispatcher W).

(** A pass through the loop body never raises, moves the round counter up
    by one and calls the API exactly once. *)
Lemma round_frame (m : Machine W) :
  exists step m',
    round self system_content tools tool_manager m = (Ok step, m')
    /\ ToolCallState.current_round (state m') = S (ToolCallState.current_round (state m))
    /\ ToolCallState.max_rounds (state m') = ToolCallState.max_rounds (state m)
    /\ api_calls (log m')
       = api_calls (log m)
           ++ [round_params self system_content tools
                 (ToolCallState.increment_round (state m))].
Proof.
  unfold round, bind, modify_state, get_state, try_except, messages_create.
  cbn [state world log].
  destruct (client self _ (world m)) as [[response|e] w1].
  - destruct tool_manager as [tm|].
    + destruct (Response.stop_reason response =? "tool_use")%string.
      * unfold _execute_round_tools.
        match goal with |- context [round_tools_loop tm ?b ?a ?m0] =>
          destruct (round_tools_loop_frame tm b a m0) as (r & m' & -> & Hcur & Hmax & Hapi)
        end.
        cbn in Hcur, Hmax, Hapi. rewrite api_calls_app in Hapi. cbn in Hapi.
        destruct r as [err|]; [destruct (truthy_str err)|];
          cbn; eexists; eexists; (split; [reflexivity|]); now rewrite Hcur, Hmax, Hapi.
      * unfold lift. destruct (first_text (Response.content response));
          cbn; eexists; eexists; (split; [reflexivity|]); cbn;
          now rewrite api_calls_app.
    + unfold lift. destruct (first_text (Response.content response));
        cbn; eexists; eexists; (split; [reflexivity|]); cbn;
        now rewrite api_calls_app.
  - cbn. eexists; eexists; (split; [reflexivity|]); cbn. now rewrite api_calls_app.
Qed.

(** The final call never raises and calls the API exactly once, without
    tools. *)
Lemma final_call_frame (m : Machine W) :
  exists answer m',
    final_call self system_content m = (Ok answer, m')
    /\ api_calls (log m')
       = api_calls (log m) ++ [final_params self system_content (state m)].
Proof.
  unfold final_call, bind, get_state, try_except, messages_create, lift.
  cbn [state world log].
  destruct (client self _ (world m)) as [[response|e] w1].
  - destruct (first_text (Response.content response));
      cbn; eexists; eexists; (split; [reflexivity|]); cbn; now rewrite api_calls_app.
  - cbn. eexists; eexists; (split; [reflexivity|]); cbn. now rewrite api_calls_app.
Qed.

(** With as many iterations as rounds are left, the loop returns a string;
    it makes at most one tool-enabled call per round left, and one call more
    at most in all. *)
Lemma rounds_loop_returns (fuel : nat) :
  forall m : Machine W,
    ToolCallState.max_rounds (state m) - ToolCallState.current_round (state m) <= fuel ->
    exists answer m',
      rounds_loop fuel self system_content tools tool_manager m = (Returned answer, m')
      /\ length (filter tool_enabled (api_calls (log m')))
         <= length (filter tool_enabled (api_calls (log m)))
            + (ToolCallState.max_rounds (state m) - ToolCallState.current_round (state m))
      /\ length (api_calls (log m'))
         <= length (api_calls (log m))
            + (ToolCallState.max_rounds (state m) - ToolCallState.current_round (state m))
            + 1.
Proof.
  assert (Hfinal : forall m : Machine W,
    exists answer m',
      (let '(r, m') := final_call self system_content m in (outcome_of r, m'))
      = (Returned answer, m')
      /\ length (filter tool_enabled (api_calls (log m')))
         = length (filter tool_enabled (api_calls (log m)))
      /\ length (api_calls (log m')) = length (api_calls (log m)) + 1).
  { intros m. destruct (final_call_frame m) as (answer & m' & -> & Hapi).
    exists answer, m'. split; [reflexivity|]. rewrite Hapi, filter_app, !length_app.
    cbn. lia. }
  induction fuel as [|fuel IH]; intros m Hfuel.
  - cbn [rounds_loop]. unfold ToolCallState.is_complete.
    destruct (Nat.leb_spec (ToolCallState.max_rounds (state m))
                (ToolCallState.current_round (state m))) as [Hle|Hlt]; [|lia].
    destruct (Hfinal m) as (answer & m' & -> & H1 & H2).
    exists answer, m'. split; [reflexivity|]. lia.
  - cbn [rounds_loop]. unfold ToolCallState.is_complete.
    destruct (Nat.leb_spec (ToolCallState.max_rounds (state m))
                (ToolCallState.current_round (state m))) as [Hle|Hlt].
    + destruct (Hfinal m) as (answer & m' & -> & H1 & H2).
      exists answer, m'. split; [reflexivity|]. lia.
    + destruct (round_frame m) as (step & m1 & -> & Hcur & Hmax & Hapi).
      assert (Hone :
        length (filter tool_enabled (api_calls (log m1)))
        <= length (filter tool_enabled (api_calls (log m))) + 1
        /\ length (api_calls (log m1)) = length (api_calls (log m)) + 1).
      { rewrite Hapi, filter_app, !length_app. cbn [filter].
        destruct (tool_enabled _); cbn; lia. }
      destruct step as [answer|].
      * exists answer, m1. split; [reflexivity|]. lia.
      * destruct (IH m1) as (answer & m' & -> & H1 & H2); [lia|].
        exists answer, m'. split; [reflexivity|]. lia.
Qed.

(** More iterations than rounds are left change nothing. *)
Lemma rounds_loop_fuel (fuel : nat) :
  forall (fuel' : nat) (m : Machine W),
    ToolCallState.max_rounds (state m) - ToolCallState.current_round (state m) <= fuel ->
    ToolCallState.max_rounds (state m) - ToolCallState.current_round (state m) <= fuel' ->
    rounds_loop fuel self system_content tools tool_manager m
    = rounds_loop fuel' self system_content tools tool_manager m.
Proof.
  induction fuel as [|fuel IH]; intros fuel' m Hfuel Hfuel';
    destruct fuel' as [|fuel']; cbn [rounds_loop]; unfold ToolCallState.is_complete;
    destruct (Nat.leb_spec (ToolCallState.max_rounds (state m))
                (ToolCallState.current_round (state m))) as [Hle|Hlt];
    try reflexivity; try lia.
  destruct (round_frame m) as (step & m1 & -> & Hcur & Hmax & _).
  destruct step as [answer|]; [reflexivity|]. apply IH; lia.
Qed.

(** *** How a pass through the loop ends, case by case *)

Lemma round_returns_text (tmo : option (ToolDispatcher W)) (m : Machine W)
    (r : Response.t) (w1 : W) (text : string) (rest : list ContentBlock) :
  client self
    (round_params self system_content tools (ToolCallState.increment_round (state m)))
    (world m) = (Ok r, w1) ->
  Response.stop_reason r <> "tool_use"%string ->
  Response.content r = TextBlock text :: rest ->
  round self system_content tools tmo m
  = (Ok (Return text),
     mkMachine
       (ToolCallState.append_message
          (Message.mk "assistant" (Message.Blocks (Response.content r)))
          (ToolCallState.increment_round (state m)))
       w1
       (log m
          ++ [ApiCall
                (round_params self system_content tools
                   (ToolCallState.increment_round (state m)))
                (Ok r)])).
Proof.
  intros Hcall Hstop Hcontent.
  unfold round, bind, modify_state, get_state, try_except, messages_create.
  cbn [state world log]. rewrite Hcall.
  apply String.eqb_neq in Hstop. rewrite Hstop.
  unfold lift. rewrite Hcontent. now destruct tmo.
Qed.

Lemma round_api_error (tmo : option (ToolDispatcher W)) (m : Machine W)
    (e : Exception) (w1 : W) :
  client self
    (round_params self system_content tools (ToolCallState.increment_round (state m)))
    (world m) = (Raise e, w1) ->
  round self system_content tools tmo m
  = (Ok (Return ("Error generating response: " ++ str_exc e)%string),
     mkMachine (ToolCallState.increment_round (state m)) w1
       (log m
          ++ [ApiCall
                (round_params self system_content tools
                   (ToolCallState.increment_round (state m)))
                (Raise e)])).
Proof.
  intros Hcall.
  unfold round, bind, modify_state, get_state, try_except, messages_create.
  cbn [state world log]. now rewrite Hcall.
Qed.

Lemma round_continues (tm : ToolDispatcher W) (m : Machine W) (r : Response.t)
    (w1 w2 : W) (results : list ToolResult) (names : list string) (events : list Event) :
  client self
    (round_params self system_content tools (ToolCallState.increment_round (state m)))
    (world m) = (Ok r, w1) ->
  Response.stop_reason r = "tool_use"%string ->
  tools_succeed tm (Response.content r) w1 results names events w2 ->
  round self system_content tools (Some tm) m
  = (Ok Continue,
     mkMachine
       (ToolCallState.mk
          (S (ToolCallState.current_round (state m)))
          (ToolCallState.max_rounds (state m))
          (messages_after_round (ToolCallState.messages (state m)) r results)
          (ToolCallState.tools_executed (state m)
             ++ executed_in_round (S (ToolCallState.current_round (state m))) names))
       w2
       (log m
          ++ ApiCall
               (round_params self system_content tools
                  (ToolCallState.increment_round (state m)))
               (Ok r)
          :: events)).
Proof.
  intros Hcall Hstop Hsucceed.
  unfold round, bind, modify_state, get_state, try_except, messages_create.
  cbn [state world log]. rewrite Hcall, Hstop, String.eqb_refl.
  unfold _execute_round_tools.
  rewrite (round_tools_loop_succeeds tm _ _ _ _ _ _ Hsucceed).
  cbn. unfold messages_after_round. now rewrite <- !app_assoc.
Qed.

Lemma round_tool_failure (tm : ToolDispatcher W) (m : Machine W) (r : Response.t)
    (w1 w2 w3 : W) (pre post : list ContentBlock) (id name : string) (input : Kwargs)
    (results : list ToolResult) (names : list string) (events : list Event)
    (e : Exception) :
  client self
    (round_params self system_content tools (ToolCallState.increment_round (state m)))
    (world m) = (Ok r, w1) ->
  Response.stop_reason r = "tool_use"%string ->
  Response.content r = pre ++ ToolUseBlock id name input :: post ->
  tools_succeed tm pre w1 results names events w2 ->
  tm name input w2 = (Raise e, w3) ->
  round self system_content tools (Some tm) m
  = (Ok (Return ("Unable to complete search: Tool " ++ name ++ " failed: "
                   ++ str_exc e)%string),
     mkMachine
       (ToolCallState.mk
          (S (ToolCallState.current_round (state m)))
          (ToolCallState.max_rounds (state m))
          (ToolCallState.messages (state m)
             ++ [Message.mk "assistant" (Message.Blocks (Response.content r))])
          (ToolCallState.tools_executed (state m)
             ++ executed_in_round (S (ToolCallState.current_round (state m))) names))
       w3
       (log m
          ++ ApiCall
               (round_params self system_content tools
                  (ToolCallState.increment_round (state m)))
               (Ok r)
          :: events ++ [ToolCall name input (Raise e)])).
Proof.
  intros Hcall Hstop Hcontent Hsucceed Hfail.
  unfold round, bind, modify_state, get_state, try_except, messages_create.
  cbn [state world log]. rewrite Hcall, Hstop, String.eqb_refl.
  unfold _execute_round_tools.
  pose proof (fun st lg =>
                round_tools_loop_fails tm _ _ _ _ _ _ _ id name input e Hsucceed Hfail
                  post st lg []) as Hloop.
  rewrite <- Hcontent in Hloop. rewrite Hloop.
  cbn. now rewrite <- !app_assoc.
Qed.

Lemma final_call_result (m : Machine W) (res : Result Response.t) (w1 : W) :
  client self (final_params self system_content (state m)) (world m) = (res, w1) ->
  final_call self system_content m
  = (Ok (match bindR res (fun r => first_text (Response.content r)) with
         | Ok text => text
         | Raise e => ("Error generating final response: " ++ str_exc e)%string
         end),
     mkMachine (state m) w1
       (log m ++ [ApiCall (final_params self system_content (state m)) res])).
Proof.
  intros Hcall.
  unfold final_call, bind, get_state, try_except, messages_create, lift.
  cbn [state world log]. rewrite Hcall.
  destruct res as [r|e]; [|reflexivity].
  cbn [bindR]. now destruct (first_text (Response.content r)).
Qed.

Lemma rounds_loop_return (fuel : nat) (tmo : option (ToolDispatcher W)) (m m1 : Machine W)
    (answer : string) :
  ToolCallState.is_complete (state m) = false ->
  round self system_content tools tmo m = (Ok (Return answer), m1) ->
  rounds_loop (S fuel) self system_content tools tmo m = (Returned answer, m1).
Proof. intros Hc Hr. cbn [rounds_loop]. now rewrite Hc, Hr. Qed.

Lemma rounds_loop_continue (fuel : nat) (tmo : option (ToolDispatcher W))
    (m m1 : Machine W) :
  ToolCallState.is_complete (state m) = false ->
  round self system_content tools tmo m = (Ok Continue, m1) ->
  rounds_loop (S fuel) self system_content tools tmo m
  = rounds_loop fuel self system_content tools tmo m1.
Proof. intros Hc Hr. cbn [rounds_loop]. now rewrite Hc, Hr. Qed.

Lemma rounds_loop_final (fuel : nat) (tmo : option (ToolDispatcher W)) (m m1 : Machine W)
    (answer : string) :
  ToolCallState.is_complete (state m) = true ->
  final_call self system_content m = (Ok answer, m1) ->
  rounds_loop fuel self system_content tools tmo m = (Returned answer, m1).
Proof. intros Hc Hf. destruct fuel; cbn [rounds_loop]; now rewrite Hc, Hf. Qed.

End Loop.

(** *** [generate_response] *)

Section Generate.

Context {W : Type}.

Variable self : AIGenerator W.
Variable query : string.
Variable conversation_history : option string.
Variable tools : option (list ToolDefinition).

(** C7. When the first response of the model asks for no tool and starts
    with a text block, [generate_response] returns that text as it is, after
    exactly one API call. The same holds in whatever round such a response
    arrives: the loop returns its text at once, with one more API call and no
    other. *)
Theorem no_tool_response_returned_unchanged (tool_manager : option (ToolDispatcher W)) :
  (forall (w w1 : W) (r : Response.t) (text : string) (rest : list ContentBlock),
      client self
        (round_params self (build_system_content conversation_history) tools
           (ToolCallState.increment_round (initial_state query)))
        w = (Ok r, w1) ->
      Response.stop_reason r <> "tool_use"%string ->
      Response.content r = TextBlock text :: rest ->
      fst (generate_response self query conversation_history tools tool_manager w)
      = Returned text
      /\ log (snd (generate_response self query conversation_history tools tool_manager w))
         = [ApiCall
              (round_params self (build_system_content conversation_history) tools
                 (ToolCallState.increment_round (initial_state query)))
              (Ok r)]
      /\ length (api_calls
                   (log (snd (generate_response self query conversation_history tools
                                tool_manager w)))) = 1
      /\ world (snd (generate_response self query conversation_history tools
                       tool_manager w)) = w1)
  /\ (forall (fuel : nat) (system_content : string) (m : Machine W) (w1 : W)
             (r : Response.t) (text : string) (rest : list ContentBlock),
         ToolCallState.is_complete (state m) = false ->
         client self
           (round_params self system_content tools
              (ToolCallState.increment_round (state m)))
           (world m) = (Ok r, w1) ->
         Response.stop_reason r <> "tool_use"%string ->
         Response.content r = TextBlock text :: rest ->
         fst (rounds_loop (S fuel) self system_content tools tool_manager m)
         = Returned text
         /\ log (snd (rounds_loop (S fuel) self system_content tools tool_manager m))
            = log m
                ++ [ApiCall
                      (round_params self system_content tools
                         (ToolCallState.increment_round (state m)))
                      (Ok r)]).
Proof.
  assert (Hany : forall (fuel : nat) (system_content : string) (m : Machine W) (w1 : W)
             (r : Response.t) (text : string) (rest : list ContentBlock),
         ToolCallState.is_complete (state m) = false ->
         client self
           (round_params self system_content tools
              (ToolCallState.increment_round (state m)))
           (world m) = (Ok r, w1) ->
         Response.stop_reason r <> "tool_use"%string ->
         Response.content r = TextBlock text :: rest ->
         rounds_loop (S fuel) self system_content tools tool_manager m
         = (Returned text,
            mkMachine
              (ToolCallState.append_message
                 (Message.mk "assistant" (Message.Blocks (Response.content r)))
                 (ToolCallState.increment_round (state m)))
              w1
              (log m
                 ++ [ApiCall
                       (round_params self system_content tools
                          (ToolCallState.increment_round (state m)))
                       (Ok r)]))).
  { intros fuel system_content m w1 r text rest Hc Hcall Hstop Hcontent.
    apply rounds_loop_return; [exact Hc|].
    now apply (round_returns_text self system_content tools tool_manager m r w1 text rest). }
  split.
  - intros w w1 r text rest Hcall Hstop Hcontent.
    unfold generate_response, generate_response_run.
    cbn [ToolCallState.max_rounds initial_state].
    rewrite (Hany 1 _ (mkMachine (initial_state query) w []) w1 r text rest
               eq_refl Hcall Hstop Hcontent).
    now cbn.
  - intros fuel system_content m w1 r text rest Hc Hcall Hstop Hcontent.
    now rewrite (Hany fuel system_content m w1 r text rest Hc Hcall Hstop Hcontent).
Qed.

(** C3. [generate_response] returns a string from every world, whatever its
    arguments and whatever the API and the tools do: no exception escapes and
    the loop ends within its two rounds (more iterations change nothing). A
    failure of the API call of a round becomes the answer
    "Error generating response: ..." and a failure of the final call the
    answer "Error generating final response: ...". *)
Theorem generate_response_always_returns (tool_manager : option (ToolDispatcher W)) (w : W) :
  (exists answer,
      fst (generate_response self query conversation_history tools tool_manager w)
      = Returned answer)
  /\ (forall fuel,
         2 <= fuel ->
         generate_response_run fuel self query conversation_history tools tool_manager w
         = generate_response self query conversation_history tools tool_manager w)
  /\ (forall (fuel : nat) (system_content : string) (m : Machine W) (e : Exception) (w1 : W),
         ToolCallState.is_complete (state m) = false ->
         client self
           (round_params self system_content tools
              (ToolCallState.increment_round (state m)))
           (world m) = (Raise e, w1) ->
         fst (rounds_loop (S fuel) self system_content tools tool_manager m)
         = Returned ("Error generating response: " ++ str_exc e)%string)
  /\ (forall (fuel : nat) (system_content : string) (m : Machine W) (e : Exception) (w1 : W),
         ToolCallState.is_complete (state m) = true ->
         client self (final_params self system_content (state m)) (world m)
         = (Raise e, w1) ->
         fst (rounds_loop fuel self system_content tools tool_manager m)
         = Returned ("Error generating final response: " ++ str_exc e)%string).
Proof.
  split; [|split; [|split]].
  - unfold generate_response, generate_response_run.
    destruct (rounds_loop_returns self (build_system_content conversation_history)
                tools tool_manager
                (ToolCallState.max_rounds (initial_state query))
                (mkMachine (initial_state query) w []))
      as (answer & m' & Hrun & _).
    + cbn. lia.
    + exists answer. now rewrite Hrun.
  - intros fuel Hfuel. unfold generate_response, generate_response_run.
    apply rounds_loop_fuel; cbn; lia.
  - intros fuel system_content m e w1 Hc Hcall.
    rewrite (rounds_loop_return self system_content tools fuel tool_manager m _ _ Hc
               (round_api_error self system_content tools tool_manager m e w1 Hcall)).
    reflexivity.
  - intros fuel system_content m e w1 Hc Hcall.
    rewrite (rounds_loop_final self system_content tools fuel tool_manager m _ _ Hc
               (final_call_result self system_content m (Raise e) w1 Hcall)).
    reflexivity.
Qed.

(** C2. When a tool requested in round 1 raises, [generate_response] returns
    "Unable to complete search: Tool <name> failed: <description>". The API
    was called once, with the query as its only message, so no tool result
    went back to the model and no second round began; the tools requested
    before the failing one ran, the failing one ran, and those requested after
    it did not. *)
Theorem tool_failure_in_round_one_aborts (tm : ToolDispatcher W) (w w1 w2 w3 : W)
    (r : Response.t) (pre post : list ContentBlock) (id name : string) (input : Kwargs)
    (results : list ToolResult) (names : list string) (events : list Event)
    (e : Exception) :
  client self
    (round_params self (build_system_content conversation_history) tools
       (ToolCallState.increment_round (initial_state query)))
    w = (Ok r, w1) ->
  Response.stop_reason r = "tool_use"%string ->
  Response.content r = pre ++ ToolUseBlock id name input :: post ->
  tools_succeed tm pre w1 results names events w2 ->
  tm name input w2 = (Raise e, w3) ->
  fst (generate_response self query conversation_history tools (Some tm) w)
  = Returned ("Unable to complete search: Tool " ++ name ++ " failed: " ++ str_exc e)%string
  /\ contains "Unable to complete"
       ("Unable to complete search: Tool " ++ name ++ " failed: " ++ str_exc e)%string
  /\ contains (str_exc e)
       ("Unable to complete search: Tool " ++ name ++ " failed: " ++ str_exc e)%string
  /\ log (snd (generate_response self query conversation_history tools (Some tm) w))
     = ApiCall
         (round_params self (build_system_content conversation_history) tools
            (ToolCallState.increment_round (initial_state query)))
         (Ok r)
       :: events ++ [ToolCall name input (Raise e)]
  /\ api_calls (log (snd (generate_response self query conversation_history tools
                            (Some tm) w)))
     = [round_params self (build_system_content conversation_history) tools
          (ToolCallState.increment_round (initial_state query))]
  /\ ApiParams.messages
       (round_params self (build_system_content conversation_history) tools
          (ToolCallState.increment_round (initial_state query)))
     = [Message.mk "user" (Message.Text query)]
  /\ tool_calls (log (snd (generate_response self query conversation_history tools
                             (Some tm) w)))
     = requested_tools pre ++ [(name, input)].
Proof.
  intros Hcall Hstop Hcontent Hsucceed Hfail.
  unfold generate_response, generate_response_run.
  cbn [ToolCallState.max_rounds initial_state].
  rewrite (rounds_loop_return self (build_system_content conversation_history) tools
             1 (Some tm) (mkMachine (initial_state query) w []) _ _ eq_refl
             (round_tool_failure self (build_system_content conversation_history) tools
                tm (mkMachine (initial_state query) w []) r w1 w2 w3 pre post id name
                input results names events e Hcall Hstop Hcontent Hsucceed Hfail)).
  destruct (tools_succeed_events tm pre w1 w2 results names events Hsucceed)
    as (Hapi & Htools & _).
  cbn [fst snd log app].
  split; [reflexivity|]. split.
  { now exists ""%string, (" search: Tool " ++ name ++ " failed: " ++ str_exc e)%string. }
  split.
  { exists ("Unable to complete search: Tool " ++ name ++ " failed: ")%string, ""%string.
    now rewrite SearchToolsProps.append_nil_r, !SearchToolsProps.append_assoc. }
  split; [reflexivity|]. split.
  { cbn [api_calls]. rewrite api_calls_app, Hapi. reflexivity. }
  split; [reflexivity|].
  cbn [tool_calls]. rewrite tool_calls_app, Htools. reflexivity.
Qed.

(** C1, amended. No run makes more than two tool-enabled API calls, nor
    more than three calls in all. When tool definitions and a tool manager
    are given, the model asks for tools in round 1 and in round 2, and every
    tool it asks for runs without raising, exactly three API calls are made:
    two that carry the tool definitions with automatic tool choice, with the
    results of round 1 fed back in the second, then one without tools; the
    tool log lists the tools of round 1, then those of round 2, in the order
    they ran; and the text of the final response, when that call gives one,
    is the answer. *)
Theorem two_tool_rounds_then_final_call (tool_manager : option (ToolDispatcher W)) (w : W) :
  length (filter tool_enabled
            (api_calls
               (log (snd (generate_response self query conversation_history tools
                            tool_manager w))))) <= 2
  /\ length (api_calls
               (log (snd (generate_response self query conversation_history tools
                            tool_manager w)))) <= 3
  /\ (forall (tm : ToolDispatcher W) (defs : list ToolDefinition)
             (p1 p2 p3 : ApiParams.t) (r1 r2 : Response.t) (res3 : Result Response.t)
             (w1 w2 w3 w4 w5 : W)
             (results1 results2 : list ToolResult) (names1 names2 : list string)
             (events1 events2 : list Event),
         tool_manager = Some tm ->
         tools = Some defs ->
         defs <> [] ->
         p1 = round_params self (build_system_content conversation_history) tools
                (ToolCallState.mk 1 2 [Message.mk "user" (Message.Text query)] []) ->
         client self p1 w = (Ok r1, w1) ->
         Response.stop_reason r1 = "tool_use"%string ->
         tools_succeed tm (Response.content r1) w1 results1 names1 events1 w2 ->
         p2 = round_params self (build_system_content conversation_history) tools
                (ToolCallState.mk 2 2
                   (messages_after_round [Message.mk "user" (Message.Text query)]
                      r1 results1)
                   (executed_in_round 1 names1)) ->
         client self p2 w2 = (Ok r2, w3) ->
         Response.stop_reason r2 = "tool_use"%string ->
         tools_succeed tm (Response.content r2) w3 results2 names2 events2 w4 ->
         p3 = final_params self (build_system_content conversation_history)
                (ToolCallState.mk 2 2
                   (messages_after_round
                      (messages_after_round [Message.mk "user" (Message.Text query)]
                         r1 results1)
                      r2 results2)
                   (executed_in_round 1 names1 ++ executed_in_round 2 names2)) ->
         client self p3 w4 = (res3, w5) ->
         api_calls (log (snd (generate_response self query conversation_history tools
                                tool_manager w)))
         = [p1; p2; p3]
         /\ ApiParams.tools p1 = Some defs /\ ApiParams.tool_choice p1 = Some "auto"%string
         /\ ApiParams.tools p2 = Some defs /\ ApiParams.tool_choice p2 = Some "auto"%string
         /\ ApiParams.tools p3 = None /\ ApiParams.tool_choice p3 = None
         /\ log (snd (generate_response self query conversation_history tools
                        tool_manager w))
            = ApiCall p1 (Ok r1) :: events1
                ++ ApiCall p2 (Ok r2) :: events2 ++ [ApiCall p3 res3]
         /\ ToolCallState.tools_executed
              (state (snd (generate_response self query conversation_history tools
                             tool_manager w)))
            = executed_in_round 1 names1 ++ executed_in_round 2 names2
         /\ map fst (requested_tools (Response.content r1)) = names1
         /\ map fst (requested_tools (Response.content r2)) = names2
         /\ (forall (r3 : Response.t) (text : string) (rest : list ContentBlock),
                res3 = Ok r3 ->
                Response.content r3 = TextBlock text :: rest ->
                fst (generate_response self query conversation_history tools
                       tool_manager w) = Returned text)).
Proof.
  split; [|split].
  - unfold generate_response, generate_response_run.
    destruct (rounds_loop_returns self (build_system_content conversation_history)
                tools tool_manager
                (ToolCallState.max_rounds (initial_state query))
                (mkMachine (initial_state query) w []))
      as (answer & m' & Hrun & Hbound & _); [cbn; lia|].
    rewrite Hrun. cbn in Hbound |- *. lia.
  - unfold generate_response, generate_response_run.
    destruct (rounds_loop_returns self (build_system_content conversation_history)
                tools tool_manager
                (ToolCallState.max_rounds (initial_state query))
                (mkMachine (initial_state query) w []))
      as (answer & m' & Hrun & _ & Hbound); [cbn; lia|].
    rewrite Hrun. cbn in Hbound |- *. lia.
  - intros tm defs p1 p2 p3 r1 r2 res3 w1 w2 w3 w4 w5 results1 results2 names1 names2
           events1 events2 -> Htools Hdefs -> Hcall1 Hstop1 Hsucceed1 -> Hcall2 Hstop2
           Hsucceed2 -> Hcall3.
    unfold generate_response, generate_response_run.
    cbn [ToolCallState.max_rounds initial_state].
    rewrite (rounds_loop_continue self (build_system_content conversation_history) tools
               1 (Some tm) (mkMachine (initial_state query) w []) _ eq_refl
               (round_continues self (build_system_content conversation_history) tools
                  tm (mkMachine (initial_state query) w []) r1 w1 w2 results1 names1
                  events1 Hcall1 Hstop1 Hsucceed1)).
    cbn [state world log ToolCallState.current_round ToolCallState.max_rounds
         ToolCallState.messages ToolCallState.tools_executed initial_state app].
    erewrite rounds_loop_continue;
      [|reflexivity
       |apply (round_continues self (build_system_content conversation_history) tools
                 tm _ r2 w3 w4 results2 names2 events2);
          [exact Hcall2 | exact Hstop2 | exact Hsucceed2]].
    cbn [state world log ToolCallState.current_round ToolCallState.max_rounds
         ToolCallState.messages ToolCallState.tools_executed app].
    erewrite rounds_loop_final;
      [|reflexivity
       |apply (final_call_result self (build_system_content conversation_history)
                 _ res3 w5); exact Hcall3].
    cbn [fst snd state world log].
    destruct (tools_succeed_events tm _ w1 w2 results1 names1 events1 Hsucceed1)
      as (Hapi1 & _ & Hnames1 & _).
    destruct (tools_succeed_events tm _ w3 w4 results2 names2 events2 Hsucceed2)
      as (Hapi2 & _ & Hnames2 & _).
    assert (Htruthy : truthy_tools tools = true).
    { rewrite Htools. now apply SearchToolsProps.truthy_list_true. }
    split.
    { rewrite api_calls_app. cbn [api_calls]. rewrite api_calls_app, Hapi1.
      cbn [api_calls app]. rewrite Hapi2. reflexivity. }
    unfold round_params, final_params, api_params.
    cbn [ApiParams.tools ApiParams.tool_choice ToolCallState.current_round
         ToolCallState.max_rounds].
    rewrite Htruthy. cbn [Nat.leb andb]. rewrite Htools.
    repeat (split; [reflexivity|]).
    split.
    { cbn [app]. now rewrite <- app_assoc. }
    split; [reflexivity|]. split; [exact Hnames1|]. split; [exact Hnames2|].
    intros r3 text rest -> Hcontent. cbn [bindR]. now rewrite Hcontent.
Qed.

End Generate.

(** *** The properties at work on the example collaborators *)

Section Witnesses.

Import Examples.

(** C1, as stated, fails: the model asks for tools in round 1 and in round
    2, the tool of round 2 raises, and the run ends after two API calls. *)
Lemma second_round_tool_failure_stops_at_two_calls :
  exists w : World,
    api_responses
      (log (snd (generate_response demo_generator "q" None demo_tools
                   (Some manager_dispatch) w)))
    = [Ok (tool_use "t1" "python"); Ok (tool_use "t2" "boom")]
    /\ Response.stop_reason (tool_use "t1" "python") = "tool_use"%string
    /\ Response.stop_reason (tool_use "t2" "boom") = "tool_use"%string
    /\ map tool_enabled
         (api_calls
            (log (snd (generate_response demo_generator "q" None demo_tools
                         (Some manager_dispatch) w))))
       = [true; true]
    /\ length
         (api_calls
            (log (snd (generate_response demo_generator "q" None demo_tools
                         (Some manager_dispatch) w)))) <> 3
    /\ fst (generate_response demo_generator "q" None demo_tools
              (Some manager_dispatch) w)
       = Returned
           "Unable to complete search: Tool search_course_content failed: Tool execution failed".
Proof.
  exists (mkWorld demo_manager
            [Ok (tool_use "t1" "python"); Ok (tool_use "t2" "boom");
             Ok (end_turn "done")]).
  repeat split. vm_compute. discriminate.
Qed.

Lemma two_tool_rounds_then_final_call_witness :
  length
    (api_calls
       (log (snd (generate_response demo_generator "q" None demo_tools
                    (Some manager_dispatch)
                    (mkWorld demo_manager
                       [Ok (tool_use "t1" "python"); Ok (tool_use "t2" "nothing");
                        Ok (end_turn "done")]))))) = 3
  /\ ToolCallState.tools_executed
       (state (snd (generate_response demo_generator "q" None demo_tools
                      (Some manager_dispatch)
                      (mkWorld demo_manager
                         [Ok (tool_use "t1" "python"); Ok (tool_use "t2" "nothing");
                          Ok (end_turn "done")]))))
     = ["Round 1: search_course_content"; "Round 2: search_course_content"]%string
  /\ fst (generate_response demo_generator "q" None demo_tools
            (Some manager_dispatch)
            (mkWorld demo_manager
               [Ok (tool_use "t1" "python"); Ok (tool_use "t2" "nothing");
                Ok (end_turn "done")]))
     = Returned "done".
Proof.
  edestruct (proj2 (proj2
               (two_tool_rounds_then_final_call demo_generator "q" None demo_tools
                  (Some manager_dispatch)
                  (mkWorld demo_manager
                     [Ok (tool_use "t1" "python"); Ok (tool_use "t2" "nothing");
                      Ok (end_turn "done")]))))
    as (Hcalls & _ & _ & _ & _ & _ & _ & _ & Hexecuted & _ & _ & Hanswer).
  - reflexivity.
  - reflexivity.
  - discriminate.
  - reflexivity.
  - reflexivity.
  - reflexivity.
  - apply succeed_text. eapply succeed_tool; [reflexivity | apply succeed_nil].
  - reflexivity.
  - reflexivity.
  - reflexivity.
  - apply succeed_text. eapply succeed_tool; [reflexivity | apply succeed_nil].
  - reflexivity.
  - reflexivity.
  - split; [now rewrite Hcalls|]. split; [exact Hexecuted|].
    exact (Hanswer (end_turn "done") "done"%string [] eq_refl eq_refl).
Defined.

Lemma tool_failure_in_round_one_aborts_witness :
  fst (generate_response demo_generator "q" None demo_tools (Some manager_dispatch)
         (mkWorld demo_manager [Ok three_requests; Ok (end_turn "done")]))
  = Returned
      "Unable to complete search: Tool search_course_content failed: Tool execution failed"
  /\ tool_calls
       (log (snd (generate_response demo_generator "q" None demo_tools
                    (Some manager_dispatch)
                    (mkWorld demo_manager [Ok three_requests; Ok (end_turn "done")]))))
     = [("search_course_content"%string, [("query"%string, PStr "python")]);
        ("search_course_content"%string, [("query"%string, PStr "boom")])]
  /\ length
       (api_calls
          (log (snd (generate_response demo_generator "q" None demo_tools
                       (Some manager_dispatch)
                       (mkWorld demo_manager [Ok three_requests; Ok (end_turn "done")])))))
     = 1.
Proof.
  destruct (tool_failure_in_round_one_aborts demo_generator "q" None demo_tools
              manager_dispatch
              (mkWorld demo_manager [Ok three_requests; Ok (end_turn "done")])
              (mkWorld demo_manager [Ok (end_turn "done")])
              (snd (manager_dispatch "search_course_content"
                      [("query"%string, PStr "python")]
                      (mkWorld demo_manager [Ok (end_turn "done")])))
              (snd (manager_dispatch "search_course_content"
                      [("query"%string, PStr "boom")]
                      (snd (manager_dispatch "search_course_content"
                              [("query"%string, PStr "python")]
                              (mkWorld demo_manager [Ok (end_turn "done")])))))
              three_requests
              [ToolUseBlock "t1" "search_course_content" [("query"%string, PStr "python")]]
              [ToolUseBlock "t3" "search_course_content" [("query"%string, PStr "python")]]
              "t2" "search_course_content" [("query"%string, PStr "boom")]
              [mkToolResult "t1" ("[Test Course - Lesson 1]" ++ LF ++ "Test content") false]
              ["search_course_content"%string]
              [ToolCall "search_course_content" [("query"%string, PStr "python")]
                 (Ok ("[Test Course - Lesson 1]" ++ LF ++ "Test content")%string)]
              (mkException "RuntimeError" "Tool execution failed"))
    as (Hanswer & _ & _ & _ & Hcalls & _ & Htools).
  - reflexivity.
  - reflexivity.
  - reflexivity.
  - apply succeed_tool with (w1 := snd (manager_dispatch "search_course_content"
                                         [("query"%string, PStr "python")]
                                         (mkWorld demo_manager [Ok (end_turn "done")])));
      [reflexivity | apply succeed_nil].
  - reflexivity.
  - split; [exact Hanswer|]. split; [exact Htools | now rewrite Hcalls].
Defined.

Lemma generate_response_always_returns_witness :
  fst (generate_response demo_generator "q" None demo_tools (Some manager_dispatch)
         (mkWorld demo_manager [Raise (mkException "APIError" "overloaded")]))
  = Returned "Error generating response: overloaded"
  /\ fst (rounds_loop 0 demo_generator SYSTEM_PROMPT demo_tools (Some manager_dispatch)
            (mkMachine
               (ToolCallState.mk 2 2 [Message.mk "user" (Message.Text "q")] [])
               (mkWorld demo_manager []) []))
     = Returned "Error generating final response: no response left".
Proof.
  split.
  - apply (proj1 (proj2 (proj2
             (generate_response_always_returns demo_generator "q" None demo_tools
                (Some manager_dispatch) (mkWorld demo_manager []))))
             1 (build_system_content None)
             (mkMachine (initial_state "q")
                (mkWorld demo_manager [Raise (mkException "APIError" "overloaded")]) [])
             (mkException "APIError" "overloaded") (mkWorld demo_manager [])
             eq_refl eq_refl).
  - apply (proj2 (proj2 (proj2
             (generate_response_always_returns demo_generator "q" None demo_tools
                (Some manager_dispatch) (mkWorld demo_manager []))))
             0 SYSTEM_PROMPT
             (mkMachine
                (ToolCallState.mk 2 2 [Message.mk "user" (Message.Text "q")] [])
                (mkWorld demo_manager []) [])
             (mkException "APIError" "no response left") (mkWorld demo_manager [])
             eq_refl eq_refl).
Defined.

Lemma no_tool_response_returned_unchanged_witness :
  fst (generate_response demo_generator "What is Python?" None demo_tools
         (Some manager_dispatch)
         (mkWorld demo_manager [Ok (end_turn "A programming language.")]))
  = Returned "A programming language.".
Proof.
  apply (proj1 (proj1
           (no_tool_response_returned_unchanged demo_generator "What is Python?" None
              demo_tools (Some manager_dispatch))
           (mkWorld demo_manager [Ok (end_turn "A programming language.")])
           (mkWorld demo_manager [])
           (end_turn "A programming language.") "A programming language."%string []
           eq_refl ltac:(discriminate) eq_refl)).
Defined.

End Witnesses.

End AIGeneratorProps.

(* ================================================================== *)
(** ** Further properties of the registry and of the tools *)
(* ================================================================== *)

Module SearchToolsMore.
Import Py SearchTools Registration.
Local Open Scope list_scope.

Section DictMore.

Context {V : Type}.

Lemma dict_get_set_other (k k' : string) (v : V) (d : Dict V) :
  k' <> k -> dict_get k' (dict_set k v d) = dict_get k' d.
Proof.
  intros Hne. induction d as [|[k0 v0] d IH]; simpl.
  - destruct (String.eqb_spec k k'); [congruence | reflexivity].
  - destruct (String.eqb_spec k0 k) as [->|Hk]; simpl.
    + destruct (String.eqb_spec k k'); [congruence | reflexivity].
    + destruct (k0 =? k')%string; [reflexivity | exact IH].
Qed.

Lemma dict_keys_set_existing (k : string) (v old : V) (d : Dict V) :
  dict_get k d = Some old -> dict_keys (dict_set k v d) = dict_keys d.
Proof.
  intros Hget.
  destruct (SearchToolsProps.dict_set_existing k v old d Hget)
    as (before & after & -> & _ & ->).
  unfold dict_keys. now rewrite !map_app.
Qed.

Lemma dict_get_none_iff (k : string) (d : Dict V) :
  dict_get k d = None <-> ~ In k (dict_keys d).
Proof.
  induction d as [|[k0 v0] d IH]; simpl; [tauto|].
  destruct (String.eqb_spec k0 k) as [->|Hne].
  - split; [discriminate | intros Hn; exfalso; apply Hn; now left].
  - rewrite IH. split; [intros Hn [Heq|Hin]; [congruence | now apply Hn] | tauto].
Qed.

End DictMore.

Section Registry.

Context {T : Type} `{Tool T}.

(** X1. Dispatching a tool never changes which names are registered, nor
    their order, whatever the tool does; it leaves the entries of all other
    names as they were; and for a name that is not registered it returns the
    text "Tool '<name>' not found" and leaves the registry as it was. *)
Theorem execute_tool_keeps_registered_names (self : ToolManager.t T) (tool_name : string)
    (kw : Kwargs) :
  dict_keys (ToolManager.tools (snd (ToolManager.execute_tool self tool_name kw)))
  = dict_keys (ToolManager.tools self)
  /\ (forall other,
         other <> tool_name ->
         dict_get other (ToolManager.tools (snd (ToolManager.execute_tool self tool_name kw)))
         = dict_get other (ToolManager.tools self))
  /\ (dict_get tool_name (ToolManager.tools self) = None ->
      ToolManager.execute_tool self tool_name kw
      = (Ok ("Tool '" ++ tool_name ++ "' not found")%string, self)).
Proof.
  unfold ToolManager.execute_tool.
  destruct (dict_get tool_name (ToolManager.tools self)) as [tool|] eqn:Eg.
  - destruct (execute tool kw) as [r tool']. cbn [snd ToolManager.tools].
    split; [exact (dict_keys_set_existing tool_name tool' tool _ Eg)|].
    split; [|discriminate].
    intros other Hne. now apply dict_get_set_other.
  - now repeat split.
Qed.

(** X2. Registering a tool that declares a name makes that name dispatch to
    it: the registry then holds the tool under its name, [execute_tool] on
    the name gives what the tool's [execute] gives, and the entries of all
    other names are as before. *)
Theorem register_tool_then_dispatch (self : ToolManager.t T) (tool : T) (n : string) :
  name (get_tool_definition tool) = Some n ->
  truthy_str n = true ->
  exists self',
    ToolManager.register_tool self tool = (Ok tt, self')
    /\ dict_get n (ToolManager.tools self') = Some tool
    /\ (forall kw,
           fst (ToolManager.execute_tool self' n kw) = fst (execute tool kw))
    /\ (forall other,
           other <> n ->
           dict_get other (ToolManager.tools self') = dict_get other (ToolManager.tools self)).
Proof.
  intros Hname Htrue. unfold ToolManager.register_tool. rewrite Hname. cbn [truthy_opt_str].
  rewrite Htrue. eexists. split; [reflexivity|]. cbn [ToolManager.tools].
  split; [apply SearchToolsProps.dict_get_set_same|]. split.
  - intros kw. unfold ToolManager.execute_tool. cbn [ToolManager.tools].
    rewrite SearchToolsProps.dict_get_set_same. now destruct (execute tool kw).
  - intros other Hne. now apply dict_get_set_other.
Qed.

Lemma register_all_fresh (tools : list T) :
  forall self : ToolManager.t T,
    Forall (fun tool => truthy_opt_str (name (get_tool_definition tool)) = true) tools ->
    NoDup (declared_names tools) ->
    (forall tool n,
        In tool tools -> name (get_tool_definition tool) = Some n ->
        dict_get n (ToolManager.tools self) = None) ->
    exists self',
      register_all tools self = (Ok tt, self')
      /\ dict_values (ToolManager.tools self')
         = dict_values (ToolManager.tools self) ++ tools
      /\ (ToolManager.reachable self -> ToolManager.reachable self').
Proof.
  induction tools as [|tool tools IH]; intros self Hnamed Hdistinct Hfresh.
  - exists self. cbn. now rewrite app_nil_r.
  - inversion Hnamed as [|? ? Htool Hrest]; subst.
    destruct (name (get_tool_definition tool)) as [n|] eqn:En; [|discriminate].
    cbn [truthy_opt_str] in Htool.
    unfold declared_names in Hdistinct. cbn [map] in Hdistinct. rewrite En in Hdistinct.
    apply NoDup_cons_iff in Hdistinct. destruct Hdistinct as [Hnotin Hdistinct'].
    assert (Hreg :
      ToolManager.register_tool self tool
      = (Ok tt, ToolManager.mk (ToolManager.tools self ++ [(n, tool)]))).
    { apply SearchToolsProps.register_tool_fresh_name_goes_last; try assumption.
      apply (Hfresh tool n); [now left | exact En]. }
    cbn [register_all]. rewrite Hreg.
    destruct (IH (ToolManager.mk (ToolManager.tools self ++ [(n, tool)])) Hrest Hdistinct')
      as (self' & Hall & Hvalues & Hreach).
    + intros tool' n' Hin' En'. cbn [ToolManager.tools].
      apply dict_get_none_iff. unfold dict_keys. rewrite map_app. cbn.
      intros Hin. apply in_app_or in Hin. destruct Hin as [Hin|[Heq|[]]].
      * exact (proj1 (dict_get_none_iff n' (ToolManager.tools self))
                 (Hfresh tool' n' (or_intror Hin') En') Hin).
      * subst n'. apply Hnotin. rewrite <- En'.
        exact (in_map (fun t : T => name (get_tool_definition t)) tools tool' Hin').
    + exists self'. split; [exact Hall|]. split.
      * rewrite Hvalues. cbn [ToolManager.tools]. unfold dict_values.
        rewrite map_app. cbn. now rewrite <- app_assoc.
      * intros Hr. apply Hreach. exact (ToolManager.reach_register self tool _ Hr Hreg).
Qed.

(** X3. Registering, one after the other, tools that all declare a name, no
    two the same, into an empty registry succeeds, and the registry then
    lists the tools, and so their definitions, in the order they were
    registered. *)
Theorem register_all_lists_definitions_in_order (tools : list T) :
  Forall (fun tool => truthy_opt_str (name (get_tool_definition tool)) = true) tools ->
  NoDup (declared_names tools) ->
  exists self',
    register_all tools ToolManager.__init__ = (Ok tt, self')
    /\ dict_values (ToolManager.tools self') = tools
    /\ ToolManager.get_tool_definitions self' = map get_tool_definition tools
    /\ ToolManager.reachable self'.
Proof.
  intros Hnamed Hdistinct.
  destruct (register_all_fresh tools ToolManager.__init__ Hnamed Hdistinct)
    as (self' & Hall & Hvalues & Hreach); [reflexivity|].
  exists self'. split; [exact Hall|]. cbn in Hvalues. split; [exact Hvalues|].
  split; [|apply Hreach, ToolManager.reach_init].
  unfold ToolManager.get_tool_definitions. now rewrite Hvalues.
Qed.

(** X4. A tool whose definition has no name, or an empty one, cannot be
    registered: the registration raises [ValueError], the tools registered
    before it stay registered, and none of the tools that follow it in the
    start-up sequence gets registered. *)
Theorem register_all_stops_at_unnamed_tool (before after : list T) (unnamed : T)
    (self self1 : ToolManager.t T) :
  register_all before self = (Ok tt, self1) ->
  truthy_opt_str (name (get_tool_definition unnamed)) = false ->
  register_all (before ++ unnamed :: after) self
  = (Raise (ValueError "Tool must have a 'name' in its definition"), self1)
  /\ ToolManager.register_tool self1 unnamed
     = (Raise (ValueError "Tool must have a 'name' in its definition"), self1).
Proof.
  intros Hbefore Hunnamed.
  assert (Hreg :
    ToolManager.register_tool self1 unnamed
    = (Raise (ValueError "Tool must have a 'name' in its definition"), self1)).
  { unfold ToolManager.register_tool. now rewrite Hunnamed. }
  split; [|exact Hreg].
  revert self Hbefore. induction before as [|tool before IH]; intros self Hbefore.
  - cbn in Hbefore. injection Hbefore as <-. cbn [app register_all]. now rewrite Hreg.
  - cbn [app register_all] in *.
    destruct (ToolManager.register_tool self tool) as [[[]|e] self0];
      [now apply IH | discriminate].
Qed.

End Registry.

(** X5. In a registry of the application's tools, [reset_sources] leaves no
    source behind: [get_last_sources] is empty right after it, whatever the
    tools held. It changes neither the registered names, nor their order,
    nor the definitions, and resetting twice is resetting once. *)
Theorem reset_sources_clears_latest_sources
    (json_loads : string -> Result (list CourseOutlineTool.Lesson))
    (self : ToolManager.t RegisteredTool) :
  @ToolManager.get_last_sources _ (RegisteredTool_Tool json_loads)
    (@ToolManager.reset_sources _ (RegisteredTool_Tool json_loads) self) = []
  /\ dict_keys (ToolManager.tools
                  (@ToolManager.reset_sources _ (RegisteredTool_Tool json_loads) self))
     = dict_keys (ToolManager.tools self)
  /\ @ToolManager.get_tool_definitions _ (RegisteredTool_Tool json_loads)
       (@ToolManager.reset_sources _ (RegisteredTool_Tool json_loads) self)
     = @ToolManager.get_tool_definitions _ (RegisteredTool_Tool json_loads) self
  /\ @ToolManager.reset_sources _ (RegisteredTool_Tool json_loads)
       (@ToolManager.reset_sources _ (RegisteredTool_Tool json_loads) self)
     = @ToolManager.reset_sources _ (RegisteredTool_Tool json_loads) self.
Proof.
  destruct self as [tools].
  unfold ToolManager.get_last_sources, ToolManager.get_tool_definitions,
    ToolManager.reset_sources, dict_keys, dict_values.
  cbn [ToolManager.tools].
  split; [|split; [|split]].
  - induction tools as [|[k [tool|tool]] tools IH]; [reflexivity | exact IH | exact IH].
  - rewrite map_map. now apply map_ext.
  - rewrite !map_map. apply map_ext. now intros [k [tool|tool]].
  - f_equal. rewrite map_map. apply map_ext. now intros [k [tool|tool]].
Qed.

End SearchToolsMore.

Module ToolsMore.
Import Py SearchTools.
Local Open Scope list_scope.

(** *** The content-search tool *)

(** X6. [CourseSearchTool.execute] never replaces the store it searches.
    When it raises (the store's search or a link look-up raised), the sources
    it held are still there. When the store reports an error text, that text
    is the answer as it stands, also when the result carries documents, and
    the tool is left as it was. *)
Theorem search_execute_failure_keeps_tool (self : CourseSearchTool.t)
    (query course_name lesson_number : PyVal) :
  CourseSearchTool.store
    (snd (CourseSearchTool.execute self query course_name lesson_number))
  = CourseSearchTool.store self
  /\ (forall e,
         fst (CourseSearchTool.execute self query course_name lesson_number) = Raise e ->
         snd (CourseSearchTool.execute self query course_name lesson_number) = self)
  /\ (forall e,
         search (CourseSearchTool.store self) query course_name lesson_number = Raise e ->
         CourseSearchTool.execute self query course_name lesson_number = (Raise e, self))
  /\ (forall results err,
         search (CourseSearchTool.store self) query course_name lesson_number = Ok results ->
         error results = Some err ->
         err <> ""%string ->
         CourseSearchTool.execute self query course_name lesson_number = (Ok err, self)).
Proof.
  unfold CourseSearchTool.execute.
  destruct (search (CourseSearchTool.store self) query course_name lesson_number)
    as [results|e0].
  - split; [|split; [|split]].
    + destruct (truthy_opt_str (error results)); [reflexivity|].
      destruct (is_empty results); [reflexivity|].
      unfold CourseSearchTool._format_results.
      now destruct (CourseSearchTool.format_loop _ _ _ _) as [[formatted sources]|e].
    + intros e. destruct (truthy_opt_str (error results)); [discriminate|].
      destruct (is_empty results); [discriminate|].
      unfold CourseSearchTool._format_results.
      now destruct (CourseSearchTool.format_loop _ _ _ _) as [[formatted sources]|e1].
    + discriminate.
    + intros results' err [= <-] Herr Hne. rewrite Herr. cbn [truthy_opt_str].
      unfold truthy_str. apply String.eqb_neq in Hne. now rewrite Hne.
  - split; [reflexivity|]. split; [reflexivity|]. split.
    + now intros e [= ->].
    + discriminate.
Qed.

Lemma format_one_describes_match (st : VectorStore) (doc : string) (meta : ChunkMeta)
    (block : string) (source : Source) :
  CourseSearchTool.format_one st doc meta = Ok (block, source) ->
  let title := match course_title meta with Some c => c | None => "unknown"%string end in
  text source = CourseSearchTool.source_text title (lesson_number meta)
  /\ block = ("[" ++ text source ++ "]" ++ LF ++ doc)%string
  /\ match link source with
     | Some l =>
         l <> ""%string
         /\ title <> "unknown"%string
         /\ exists n, lesson_number meta = Some n /\ get_lesson_link st title n = Ok (Some l)
     | None => True
     end.
Proof.
  unfold CourseSearchTool.format_one. intros Hone. cbv zeta in Hone |- *.
  set (title := match course_title meta with Some c => c | None => "unknown"%string end)
    in *.
  assert (Hshape : forall lesson_link,
    Ok (CourseSearchTool.header title (lesson_number meta) ++ LF ++ doc,
        {| text := CourseSearchTool.source_text title (lesson_number meta);
           link := if truthy_opt_str lesson_link then lesson_link else None |})%string
    = Ok (block, source) ->
    text source = CourseSearchTool.source_text title (lesson_number meta)
    /\ block = ("[" ++ text source ++ "]" ++ LF ++ doc)%string
    /\ link source = if truthy_opt_str lesson_link then lesson_link else None).
  { intros lesson_link Heq. injection Heq as Hb Hs. subst block source. cbn [text link].
    split; [reflexivity|]. split; [|reflexivity].
    unfold CourseSearchTool.source_text. now rewrite !SearchToolsProps.append_assoc. }
  destruct (lesson_number meta) as [n|] eqn:En.
  - destruct (String.eqb_spec title "unknown") as [Hu|Hu]; cbn [negb bindR] in Hone.
    + destruct (Hshape None Hone) as (Ht & Hb & Hl). rewrite Hl. now repeat split.
    + destruct (get_lesson_link st title n) as [lesson_link|e] eqn:El;
        cbn [bindR] in Hone; [|discriminate].
      destruct (Hshape lesson_link Hone) as (Ht & Hb & Hl). rewrite Hl.
      split; [exact Ht|]. split; [exact Hb|].
      destruct lesson_link as [l|]; cbn [truthy_opt_str]; [|exact I].
      destruct (truthy_str l) eqn:Et; [|exact I].
      split; [|split; [exact Hu | now exists n]].
      intros ->. discriminate.
  - cbn [bindR] in Hone. destruct (Hshape None Hone) as (Ht & Hb & Hl).
    rewrite Hl. now repeat split.
Qed.

Lemma format_loop_describes_matches (st : VectorStore) (pairs : list (string * ChunkMeta)) :
  forall (formatted0 : list string) (sources0 : list Source)
         (formatted : list string) (sources : list Source),
    CourseSearchTool.format_loop st pairs formatted0 sources0 = Ok (formatted, sources) ->
    exists blocks new_sources,
      formatted = formatted0 ++ blocks
      /\ sources = sources0 ++ new_sources
      /\ Forall2
           (fun matched block_source =>
              CourseSearchTool.format_one st (fst matched) (snd matched)
              = Ok block_source)
           pairs (combine blocks new_sources)
      /\ length blocks = length pairs
      /\ length new_sources = length pairs.
Proof.
  induction pairs as [|[doc meta] pairs IH]; intros formatted0 sources0 formatted sources;
    cbn [CourseSearchTool.format_loop].
  - intros [= <- <-]. exists [], []. rewrite !app_nil_r. repeat split. constructor.
  - destruct (CourseSearchTool.format_one st doc meta) as [[block source]|e] eqn:E;
      cbn [bindR]; [|discriminate].
    intros Hloop.
    destruct (IH _ _ _ _ Hloop) as (blocks & new_sources & -> & -> & Hall & Hb & Hs).
    exists (block :: blocks), (source :: new_sources).
    rewrite <- !app_assoc. cbn [app combine length]. repeat split; try congruence.
    constructor; [exact E | exact Hall].
Qed.

(** X7. When [execute] returns formatted matches, the sources it records
    and the blocks of its answer go match by match: the display text of a
    source is the course title of its match ("unknown" without one) followed
    by " - Lesson n" when the match has a lesson number; the block of the
    match is that text in square brackets, a line break and the matched
    document; the blocks are joined by blank lines. A source has a link only
    when its match has a lesson number and a known course title, and the link
    is then the non-empty link the store gives for that course and lesson. *)
Theorem recorded_sources_describe_matches (self self' : CourseSearchTool.t)
    (query course_name lesson_number : PyVal) (results : SearchResults) (out : string) :
  search (CourseSearchTool.store self) query course_name lesson_number = Ok results ->
  truthy_opt_str (error results) = false ->
  is_empty results = false ->
  CourseSearchTool.execute self query course_name lesson_number = (Ok out, self') ->
  exists blocks,
    out = join (LF ++ LF) blocks
    /\ length blocks = length (combine (documents results) (metadata results))
    /\ length (CourseSearchTool.last_sources self')
       = Nat.min (length (documents results)) (length (metadata results))
    /\ Forall2
         (fun matched block_source =>
            let title :=
              match course_title (snd matched) with
              | Some c => c
              | None => "unknown"%string
              end in
            text (snd block_source)
            = CourseSearchTool.source_text title (SearchTools.lesson_number (snd matched))
            /\ fst block_source
               = ("[" ++ text (snd block_source) ++ "]" ++ LF ++ fst matched)%string
            /\ match link (snd block_source) with
               | Some l =>
                   l <> ""%string
                   /\ title <> "unknown"%string
                   /\ exists n,
                        SearchTools.lesson_number (snd matched) = Some n
                        /\ get_lesson_link (CourseSearchTool.store self) title n
                           = Ok (Some l)
               | None => True
               end)
         (combine (documents results) (metadata results))
         (combine blocks (CourseSearchTool.last_sources self')).
Proof.
  intros Hsearch Herr Hempty Hexec.
  unfold CourseSearchTool.execute in Hexec.
  rewrite Hsearch, Herr, Hempty in Hexec.
  unfold CourseSearchTool._format_results in Hexec.
  destruct (CourseSearchTool.format_loop _ _ _ _) as [[formatted sources]|e] eqn:Hloop;
    [|discriminate].
  injection Hexec as <- <-. cbn [CourseSearchTool.last_sources].
  destruct (format_loop_describes_matches _ _ _ _ _ _ Hloop)
    as (blocks & new_sources & Hf & Hs & Hall & Hlb & Hls).
  cbn [app] in Hf, Hs. subst formatted sources.
  exists blocks. split; [reflexivity|]. split; [exact Hlb|]. split.
  - rewrite Hls. apply length_combine.
  - eapply Forall2_impl; [|exact Hall].
    intros [doc meta] [block source] Hone. cbn [fst snd] in *.
    exact (format_one_describes_match _ doc meta block source Hone).
Qed.

(** *** The outline tool *)

Section Outline.

Variable json_loads : string -> Result (list CourseOutlineTool.Lesson).


(** X9. What [execute] answers when there is no outline to give, each time
    leaving the tool as it was: "No course found matching '<name>'" when the
    store resolves the name to nothing or to an empty title;
    "Course metadata not found for '<title>'" when the catalog has no result,
    no metadata entry or an empty first entry; and
    "No lesson information available for '<title>'" when the metadata has no
    lesson list or an empty one. *)
Theorem outline_execute_soft_failures (self : CourseOutlineTool.t) (course_name : PyVal) :
  (forall resolved,
      _resolve_course_name (CourseOutlineTool.store self) course_name = Ok resolved ->
      truthy_opt_str resolved = false ->
      CourseOutlineTool.execute json_loads self course_name
      = (Ok ("No course found matching '" ++ py_str course_name ++ "'")%string, self))
  /\ (forall title,
         _resolve_course_name (CourseOutlineTool.store self) course_name
         = Ok (Some title) ->
         truthy_str title = true ->
         (forall found,
             course_catalog_get (CourseOutlineTool.store self) title = Ok found ->
             match found with
             | None => True
             | Some r =>
                 match metadatas r with
                 | [] => True
                 | metadata :: _ => metadata = []
                 end
             end ->
             CourseOutlineTool.execute json_loads self course_name
             = (Ok ("Course metadata not found for '" ++ title ++ "'")%string, self))
         /\ (forall r metadata others,
                course_catalog_get (CourseOutlineTool.store self) title = Ok (Some r) ->
                metadatas r = metadata :: others ->
                metadata <> [] ->
                truthy_opt_str (dict_get "lessons_json" metadata) = false ->
                CourseOutlineTool.execute json_loads self course_name
                = (Ok ("No lesson information available for '" ++ title ++ "'")%string,
                   self))).
Proof.
  split.
  - intros resolved Hres Hfalse. unfold CourseOutlineTool.execute. rewrite Hres.
    destruct resolved as [title|]; [|reflexivity].
    cbn [truthy_opt_str] in Hfalse. now rewrite Hfalse.
  - intros title Hres Htitle. unfold CourseOutlineTool.execute.
    rewrite Hres, Htitle. cbn [negb]. unfold CourseOutlineTool.outline_body. split.
    + intros found Hget Hshape. rewrite Hget. cbn [bindR].
      destruct found as [r|]; [|reflexivity].
      destruct (metadatas r) as [|metadata others]; [reflexivity|].
      now subst metadata.
    + intros r metadata others Hget Hmeta Hne Hjs. rewrite Hget. cbn [bindR].
      rewrite Hmeta, (SearchToolsProps.truthy_list_true metadata Hne). cbn [negb].
      destruct (dict_get "lessons_json" metadata) as [js|]; [|reflexivity].
      cbn [truthy_opt_str] in Hjs. now rewrite Hjs.
Qed.

End Outline.




End ToolsMore.

(* ================================================================== *)
(** ** Further properties of the tool-calling loop *)
(* ================================================================== *)

Module AIGeneratorMore.
Import Py SearchTools AIGenerator Observed.
Local Open Scope list_scope.

Lemma is_prefix_refl {A : Type} (l : list A) : is_prefix l l.
Proof. exists []. now rewrite app_nil_r. Qed.

Lemma is_prefix_trans {A : Type} (l1 l2 l3 : list A) :
  is_prefix l1 l2 -> is_prefix l2 l3 -> is_prefix l1 l3.
Proof. intros [r1 ->] [r2 ->]. exists (r1 ++ r2). now rewrite app_assoc. Qed.

Lemma is_prefix_nil {A : Type} (l : list A) : is_prefix [] l.
Proof. now exists l. Qed.

Lemma is_prefix_app {A : Type} (l rest : list A) : is_prefix l (l ++ rest).
Proof. now exists rest. Qed.

Lemma is_prefix_cons {A : Type} (x : A) (l1 l2 : list A) :
  is_prefix l1 l2 -> is_prefix (x :: l1) (x :: l2).
Proof. intros [r ->]. now exists r. Qed.


Section Loop.

Context {W : Type}.

(** What a round of tool calls does, in full: it never raises, observes
    tool calls only, keeps the round counters, logs the tools that returned,
    runs the requested tools in order up to the first failure, and feeds the
    results back only when none failed. *)
Lemma round_tools_loop_run (tm : ToolDispatcher W) (blocks : list ContentBlock) :
  forall (acc : list ToolResult) (m : Machine W),
  exists r m' events,
    round_tools_loop tm blocks acc m = (Ok r, m')
    /\ log m' = log m ++ events
    /\ api_calls events = []
    /\ ToolCallState.current_round (state m') = ToolCallState.current_round (state m)
    /\ ToolCallState.max_rounds (state m') = ToolCallState.max_rounds (state m)
    /\ ToolCallState.tools_executed (state m')
       = ToolCallState.tools_executed (state m)
           ++ executed_in_round (ToolCallState.current_round (state m))
                (returned_tools events)
    /\ is_prefix (tool_calls events) (requested_tools blocks)
    /\ match r with
       | None =>
           Forall (fun ev => tool_failed ev = false) events
           /\ tool_calls events = requested_tools blocks
           /\ exists results,
                ToolCallState.messages (state m')
                = ToolCallState.messages (state m)
                    ++ (if truthy_list (acc ++ results)
                        then [Message.mk "user" (Message.ToolResults (acc ++ results))]
                        else [])
                /\ map tool_use_id results = requested_ids blocks
                /\ map result_content results = returned_outputs events
                /\ Forall (fun res => is_error res = false) results
       | Some msg =>
           ToolCallState.messages (state m') = ToolCallState.messages (state m)
           /\ exists before tool_name input e,
                events = before ++ [ToolCall tool_name input (Raise e)]
                /\ Forall (fun ev => tool_failed ev = false) before
                /\ msg = ("Tool " ++ tool_name ++ " failed: " ++ str_exc e)%string
       end.
Proof.
  induction blocks as [|[text|id name input] blocks IH]; intros acc m.
  - exists None. cbn [round_tools_loop]. unfold bind, modify_state, ret.
    destruct (truthy_list acc) eqn:Eacc; eexists; exists [];
      (split; [reflexivity|]); cbn; rewrite !app_nil_r;
      (repeat split; try apply is_prefix_refl; try constructor);
      exists []; rewrite !app_nil_r, Eacc; cbn; rewrite ?app_nil_r;
      repeat split; constructor.
  - cbn [round_tools_loop requested_tools requested_ids]. apply IH.
  - cbn [round_tools_loop]. unfold bind at 1. unfold try_except, bind, dispatch.
    destruct (tm name input (world m)) as [[out|e] w1] eqn:Ecall; cbn.
    + match goal with |- context [round_tools_loop tm blocks ?a ?m0] =>
        destruct (IH a m0)
          as (r & m' & events & -> & Hlog & Hapi & Hcur & Hmax & Hexec & Hpre & Hr)
      end.
      cbn in Hlog, Hcur, Hmax, Hexec.
      exists r, m', (ToolCall name input (Ok out) :: events).
      split; [reflexivity|]. split; [now rewrite Hlog, <- app_assoc|].
      split; [exact Hapi|]. split; [exact Hcur|]. split; [exact Hmax|].
      split; [now rewrite Hexec, <- app_assoc|].
      split; [now apply is_prefix_cons|].
      destruct r as [msg|].
      * destruct Hr as (Hmsgs & before & n & i & e & -> & Hok & ->).
        split; [exact Hmsgs|].
        exists (ToolCall name input (Ok out) :: before), n, i, e.
        repeat split. now constructor.
      * destruct Hr as (Hok & Hcalls & results & Hmsgs & Hids & Houts & Herr).
        split; [now constructor|]. split; [cbn; now rewrite Hcalls|].
        exists (mkToolResult id out false :: results).
        rewrite <- app_assoc in Hmsgs. cbn [app] in Hmsgs.
        split; [exact Hmsgs|]. cbn. rewrite Hids, Houts.
        repeat split. now constructor.
    + exists (Some ("Tool " ++ name ++ " failed: " ++ str_exc e)%string).
      eexists. exists [ToolCall name input (Raise e)].
      split; [reflexivity|]. cbn. rewrite app_nil_r.
      repeat split.
      * now exists (requested_tools blocks).
      * exists [], name, input, e. repeat split. constructor.
Qed.

Variable self : AIGenerator W.
Variable system_content : string.
Variable tools : option (list ToolDefinition).
Variable tool_manager : option (ToolDispatcher W).

(** What a pass through the loop body does, in full. *)
Lemma round_run (m : Machine W) :
  exists step m' r events,
    round self system_content tools tool_manager m = (Ok step, m')
    /\ log m'
       = log m
           ++ ApiCall
                (round_params self system_content tools
                   (ToolCallState.increment_round (state m)))
                r
           :: events
    /\ api_calls events = []
    /\ ToolCallState.current_round (state m') = S (ToolCallState.current_round (state m))
    /\ ToolCallState.max_rounds (state m') = ToolCallState.max_rounds (state m)
    /\ is_prefix (ToolCallState.messages (state m)) (ToolCallState.messages (state m'))
    /\ ToolCallState.tools_executed (state m')
       = ToolCallState.tools_executed (state m)
           ++ executed_in_round (S (ToolCallState.current_round (state m)))
                (returned_tools events)
    /\ (tool_manager = None -> events = [] /\ exists answer, step = Return answer)
    /\ (forall e,
           r = Raise e ->
           events = []
           /\ step = Return ("Error generating response: " ++ str_exc e)%string)
    /\ (forall response,
           r = Ok response ->
           is_prefix (tool_calls events) (requested_tools (Response.content response))
           /\ (Response.stop_reason response <> "tool_use"%string -> events = []))
    /\ match step with
       | Continue =>
           Forall (fun ev => tool_failed ev = false) events
           /\ exists response,
                r = Ok response
                /\ Response.stop_reason response = "tool_use"%string
                /\ tool_calls events = requested_tools (Response.content response)
       | Return answer =>
           Forall (fun ev => tool_failed ev = false) events
           \/ exists before tool_name input e,
                events = before ++ [ToolCall tool_name input (Raise e)]
                /\ Forall (fun ev => tool_failed ev = false) before
                /\ answer
                   = ("Unable to complete search: Tool " ++ tool_name ++ " failed: "
                        ++ str_exc e)%string
       end.
Proof.
  unfold round, bind, modify_state, get_state, try_except, messages_create.
  cbn [state world log].
  destruct (client self _ (world m)) as [[response|e] w1].
  - destruct tool_manager as [tm|] eqn:Etm.
    + destruct (String.eqb_spec (Response.stop_reason response) "tool_use") as [Hstop|Hstop].
      * unfold _execute_round_tools.
        match goal with |- context [round_tools_loop tm ?b ?a ?m0] =>
          destruct (round_tools_loop_run tm b a m0)
            as (r & m' & events & -> & Hlog & Hapi & Hcur & Hmax & Hexec & Hpre & Hr)
        end.
        cbn in Hlog, Hcur, Hmax, Hexec.
        destruct r as [msg|].
        -- destruct Hr as (Hmsgs & before & n & i & e & -> & Hok & ->).
           cbn in Hmsgs. cbn.
           eexists; exists m'; exists (Ok response); eexists.
           split; [reflexivity|]. split; [now rewrite Hlog, <- app_assoc|].
           split; [exact Hapi|]. split; [exact Hcur|]. split; [exact Hmax|].
           split; [rewrite Hmsgs; apply is_prefix_app|]. split; [exact Hexec|].
           split; [discriminate|]. split; [discriminate|]. split.
           { intros response' [= <-]. split; [exact Hpre | congruence]. }
           right. now exists before, n, i, e.
        -- destruct Hr as (Hok & Hcalls & results & Hmsgs & _).
           cbn in Hmsgs. cbn.
           exists Continue, m', (Ok response), events.
           split; [reflexivity|]. split; [now rewrite Hlog, <- app_assoc|].
           split; [exact Hapi|]. split; [exact Hcur|]. split; [exact Hmax|].
           split.
           { rewrite Hmsgs, <- app_assoc. apply is_prefix_app. }
           split; [exact Hexec|]. split; [discriminate|]. split; [discriminate|]. split.
           { intros response' [= <-]. split; [exact Hpre | congruence]. }
           split; [exact Hok|]. now exists response.
      * unfold lift. destruct (first_text (Response.content response)) as [text|e]; cbn;
          eexists; eexists; exists (Ok response), [];
          (split; [reflexivity|]); cbn; rewrite ?app_nil_r;
          (repeat split; try discriminate; try apply is_prefix_app;
           try apply is_prefix_nil; try apply is_prefix_refl; try (now left); try (now exists [])).
    + unfold lift. destruct (first_text (Response.content response)) as [text|e]; cbn;
        eexists; eexists; exists (Ok response), [];
        (split; [reflexivity|]); cbn; rewrite ?app_nil_r;
        (repeat split; try discriminate; try apply is_prefix_app;
         try apply is_prefix_nil; try apply is_prefix_refl; try (now left); try (now exists []);
         try (eexists; reflexivity)).
  - cbn. eexists; eexists; exists (Raise e), [].
    split; [reflexivity|]. cbn. rewrite ?app_nil_r.
    split; [reflexivity|]. split; [reflexivity|]. split; [reflexivity|].
    split; [reflexivity|]. split; [apply is_prefix_refl|]. split; [reflexivity|].
    split; [intros _; split; [reflexivity | eexists; reflexivity]|].
    split; [intros e' [= <-]; now split|].
    split; [discriminate|]. now left.
Qed.

(** The final call, in full: it never raises, leaves the state as it is
    and observes one API call without tools. *)
Lemma final_call_run (m : Machine W) :
  exists answer r w1,
    final_call self system_content m
    = (Ok answer,
       mkMachine (state m) w1
         (log m ++ [ApiCall (final_params self system_content (state m)) r])).
Proof.
  destruct (client self (final_params self system_content (state m)) (world m))
    as [r w1] eqn:Ecall.
  eexists; exists r, w1.
  exact (AIGeneratorProps.final_call_result self system_content m r w1 Ecall).
Qed.

(** Proving a property of how the loop ends: from a property [I] of the
    store kept by each pass that goes on, show [Q] of the answer and the store
    when a pass returns and when the final call returns. *)
Lemma rounds_loop_establishes (I : Machine W -> Prop) (Q : Outcome -> Machine W -> Prop) :
  (forall m m',
      I m -> ToolCallState.is_complete (state m) = false ->
      round self system_content tools tool_manager m = (Ok Continue, m') -> I m') ->
  (forall m answer m',
      I m -> ToolCallState.is_complete (state m) = false ->
      round self system_content tools tool_manager m = (Ok (Return answer), m') ->
      Q (Returned answer) m') ->
  (forall m answer m',
      I m -> ToolCallState.is_complete (state m) = true ->
      final_call self system_content m = (Ok answer, m') -> Q (Returned answer) m') ->
  forall (fuel : nat) (m : Machine W),
    ToolCallState.max_rounds (state m) - ToolCallState.current_round (state m) <= fuel ->
    I m ->
    Q (fst (rounds_loop fuel self system_content tools tool_manager m))
      (snd (rounds_loop fuel self system_content tools tool_manager m)).
Proof.
  intros Hgo Hreturn Hfinal. induction fuel as [|fuel IH]; intros m Hfuel Hm;
    cbn [rounds_loop]; destruct (ToolCallState.is_complete (state m)) eqn:Ec.
  - destruct (final_call_run m) as (answer & r & w1 & Hf). rewrite Hf. cbn [fst snd].
    exact (Hfinal m _ _ Hm Ec Hf).
  - unfold ToolCallState.is_complete in Ec. apply Nat.leb_gt in Ec. lia.
  - destruct (final_call_run m) as (answer & r & w1 & Hf). rewrite Hf. cbn [fst snd].
    exact (Hfinal m _ _ Hm Ec Hf).
  - destruct (round_run m) as (step & m' & r & events & Hr & _ & _ & Hcur & Hmax & _).
    rewrite Hr. destruct step as [answer|]; [exact (Hreturn m _ _ Hm Ec Hr)|].
    apply IH; [lia | exact (Hgo m _ Hm Ec Hr)].
Qed.

End Loop.

(** *** The round prompts *)

Lemma append_same_head (a b c : string) : (a ++ b = a ++ c)%string -> b = c.
Proof. induction a as [|ch a IH]; cbn; [tauto | intros [= Heq]; now apply IH]. Qed.

(** X11. Whatever the base system content, the prompts of round 1 and of
    round 2 are different texts, each the base content followed by its
    guidance: the first speaks of the "first opportunity" to use tools, the
    second of the "second and final opportunity". Every other round number
    gets the base content followed by the guidance that the rounds are
    complete. *)
Theorem round_prompts_differ (base : string) :
  _get_round_system_prompt base 1 <> _get_round_system_prompt base 2
  /\ contains "first opportunity" (_get_round_system_prompt base 1)
  /\ contains "second and final opportunity" (_get_round_system_prompt base 2)
  /\ (forall n,
         _get_round_system_prompt base (3 + n)
         = (base ++ LF
              ++ "Tool calling rounds are complete. Provide your final answer based on all available information.")%string)
  /\ _get_round_system_prompt base 0 = _get_round_system_prompt base 3
  /\ _get_round_system_prompt base 1 <> _get_round_system_prompt base 3
  /\ _get_round_system_prompt base 2 <> _get_round_system_prompt base 3
  /\ (forall n, exists guidance,
         _get_round_system_prompt base n = (base ++ LF ++ guidance)%string).
Proof.
  unfold _get_round_system_prompt.
  split; [intros Heq; apply append_same_head in Heq; discriminate|].
  split.
  { exists (base ++ LF ++ "This is your ")%string,
      " to use tools. Consider what information you need to fully answer the user's question and gather initial data."%string.
    now rewrite SearchToolsProps.append_assoc. }
  split.
  { exists (base ++ LF ++ "This is your ")%string,
      " to use tools. Based on previous results, determine if additional information is needed to complete your answer."%string.
    now rewrite SearchToolsProps.append_assoc. }
  split; [reflexivity|]. split; [reflexivity|].
  split; [intros Heq; apply append_same_head in Heq; discriminate|].
  split; [intros Heq; apply append_same_head in Heq; discriminate|].
  intros [|[|[|n]]]; eexists; reflexivity.
Qed.

(** *** The whole of [generate_response] *)

Section Generate.

Context {W : Type}.

Variable self : AIGenerator W.
Variable query : string.
Variable conversation_history : option string.
Variable tools : option (list ToolDefinition).
Variable tool_manager : option (ToolDispatcher W).
Variable w : W.

Lemma round_api_calls (system_content : string) (m : Machine W) (step : Step)
    (m' : Machine W) :
  round self system_content tools tool_manager m = (Ok step, m') ->
  api_calls (log m')
  = api_calls (log m)
      ++ [round_params self system_content tools
            (ToolCallState.increment_round (state m))]
  /\ ToolCallState.current_round (state m') = S (ToolCallState.current_round (state m))
  /\ ToolCallState.max_rounds (state m') = ToolCallState.max_rounds (state m)
  /\ is_prefix (ToolCallState.messages (state m)) (ToolCallState.messages (state m')).
Proof.
  intros Hround.
  destruct (round_run self system_content tools tool_manager m)
    as (step0 & m0 & r & events & Hr & Hlog & Hapi & Hcur & Hmax & Hmsgs & _).
  rewrite Hround in Hr. injection Hr as <- <-.
  rewrite Hlog, AIGeneratorProps.api_calls_app. cbn [api_calls]. now rewrite Hapi.
Qed.

Lemma final_api_calls (system_content : string) (m : Machine W) (answer : string)
    (m' : Machine W) :
  final_call self system_content m = (Ok answer, m') ->
  api_calls (log m')
  = api_calls (log m) ++ [final_params self system_content (state m)]
  /\ state m' = state m.
Proof.
  intros Hfinal.
  destruct (final_call_run self system_content m) as (answer0 & r & w1 & Hf).
  rewrite Hfinal in Hf. injection Hf as -> ->. cbn [log state].
  now rewrite AIGeneratorProps.api_calls_app.
Qed.

(** A property of API calls that the calls of every round and the final
    call have is had by all calls of a run. *)
Lemma every_api_call (P : ApiParams.t -> Prop) :
  (forall st, P (round_params self (build_system_content conversation_history) tools st)) ->
  (forall st, P (final_params self (build_system_content conversation_history) st)) ->
  Forall P
    (api_calls
       (log (snd (generate_response self query conversation_history tools
                    tool_manager w)))).
Proof.
  intros Hround Hfinal. unfold generate_response, generate_response_run.
  apply (rounds_loop_establishes self (build_system_content conversation_history) tools
           tool_manager
           (fun m => Forall P (api_calls (log m)))
           (fun _ m => Forall P (api_calls (log m)))).
  - intros m m' Hm _ Hr. destruct (round_api_calls _ m _ m' Hr) as (-> & _).
    apply Forall_app. split; [exact Hm | constructor; [apply Hround | constructor]].
  - intros m answer m' Hm _ Hr. destruct (round_api_calls _ m _ m' Hr) as (-> & _).
    apply Forall_app. split; [exact Hm | constructor; [apply Hround | constructor]].
  - intros m answer m' Hm _ Hf. destruct (final_api_calls _ m _ m' Hf) as (-> & _).
    apply Forall_app. split; [exact Hm | constructor; [apply Hfinal | constructor]].
  - cbn. lia.
  - constructor.
Qed.

(** X12. Every API call of a run names the generator's model, asks for
    temperature 0 and at most 800 tokens, and has a system prompt made of
    the static prompt, then the section "Previous conversation:" with the
    history when a non-empty history is given (and nothing for no history or
    an empty one), then a line of guidance. *)
Theorem every_api_call_carries_base_params :
  Forall
    (fun p =>
       ApiParams.model p = model self
       /\ ApiParams.temperature p = 0%Z
       /\ ApiParams.max_tokens p = 800%Z
       /\ exists guidance,
            guidance <> ""%string
            /\ ApiParams.system p
               = (SYSTEM_PROMPT
                    ++ match conversation_history with
                       | Some h =>
                           if truthy_str h
                           then LF ++ LF ++ "Previous conversation:" ++ LF ++ h
                           else ""
                       | None => ""
                       end
                    ++ guidance)%string)
    (api_calls
       (log (snd (generate_response self query conversation_history tools
                    tool_manager w)))).
Proof.
  assert (Hbase :
    build_system_content conversation_history
    = (SYSTEM_PROMPT
         ++ match conversation_history with
            | Some h =>
                if truthy_str h
                then LF ++ LF ++ "Previous conversation:" ++ LF ++ h
                else ""
            | None => ""
            end)%string).
  { unfold build_system_content. destruct conversation_history as [h|];
      [destruct (truthy_str h)|]; now rewrite ?SearchToolsProps.append_nil_r. }
  apply every_api_call.
  - intros st. unfold round_params, api_params. cbn.
    repeat split. unfold _get_round_system_prompt.
    destruct (ToolCallState.current_round st) as [|[|[|n]]];
      eexists; (split; [|rewrite Hbase, SearchToolsProps.append_assoc; reflexivity]);
      discriminate.
  - intros st. unfold final_params, api_params. cbn.
    repeat split. eexists.
    split; [|rewrite Hbase, SearchToolsProps.append_assoc; reflexivity]. discriminate.
Qed.

(** X13. An API call offers tools exactly when it asks for automatic tool
    choice, and the tools it offers are the list given to
    [generate_response]. When no list or an empty list is given, no API call
    of the run offers tools. *)
Theorem tools_offered_as_given :
  Forall
    (fun p =>
       (ApiParams.tools p = None /\ ApiParams.tool_choice p = None)
       \/ (ApiParams.tools p = tools
           /\ truthy_tools tools = true
           /\ ApiParams.tool_choice p = Some "auto"%string))
    (api_calls
       (log (snd (generate_response self query conversation_history tools
                    tool_manager w))))
  /\ (truthy_tools tools = false ->
      Forall (fun p => ApiParams.tools p = None /\ ApiParams.tool_choice p = None)
        (api_calls
           (log (snd (generate_response self query conversation_history tools
                        tool_manager w))))).
Proof.
  split.
  - apply every_api_call.
    + intros st. unfold round_params, api_params. cbn.
      destruct (truthy_tools tools) eqn:Et; cbn [andb]; [|now left].
      destruct (Nat.leb _ _); [|now left].
      right. destruct tools; [now repeat split | discriminate].
    + intros st. now left.
  - intros Hfalse. apply every_api_call.
    + intros st. unfold round_params, api_params. cbn. now rewrite Hfalse.
    + intros st. now split.
Qed.

Lemma StronglySorted_snoc {A : Type} (R : A -> A -> Prop) (l : list A) (x : A) :
  StronglySorted R l -> Forall (fun y => R y x) l -> StronglySorted R (l ++ [x]).
Proof.
  induction 1 as [|y l Hsorted IH Hall]; intros Hx; cbn [app].
  - constructor; constructor.
  - inversion Hx as [|? ? Hy Hrest]; subst.
    constructor; [now apply IH|].
    apply Forall_app. split; [exact Hall | now constructor].
Qed.

(** X14. The conversation sent to the model only grows: the messages of
    each API call of a run are an initial segment of the messages of every
    later call, and the first message of every call is the user's query. *)
Theorem messages_append_only :
  StronglySorted
    (fun p q => is_prefix (ApiParams.messages p) (ApiParams.messages q))
    (api_calls
       (log (snd (generate_response self query conversation_history tools
                    tool_manager w))))
  /\ Forall
       (fun p =>
          exists rest,
            ApiParams.messages p = Message.mk "user" (Message.Text query) :: rest)
       (api_calls
          (log (snd (generate_response self query conversation_history tools
                       tool_manager w)))).
Proof.
  pose (I := fun m : Machine W =>
    StronglySorted
      (fun p q => is_prefix (ApiParams.messages p) (ApiParams.messages q))
      (api_calls (log m))
    /\ Forall
         (fun p => is_prefix (ApiParams.messages p) (ToolCallState.messages (state m)))
         (api_calls (log m))
    /\ Forall
         (fun p =>
            exists rest,
              ApiParams.messages p = Message.mk "user" (Message.Text query) :: rest)
         (api_calls (log m))
    /\ exists rest,
         ToolCallState.messages (state m)
         = Message.mk "user" (Message.Text query) :: rest).
  assert (Hround : forall m step m',
    I m ->
    round self (build_system_content conversation_history) tools tool_manager m
    = (Ok step, m') ->
    I m').
  { intros m step m' (Hsorted & Hstate & Hfirst & Hhead) Hr.
    destruct (round_api_calls _ m _ m' Hr) as (Hcalls & _ & _ & Hgrow).
    unfold I. rewrite Hcalls.
    split; [|split; [|split]].
    - apply StronglySorted_snoc; [exact Hsorted | exact Hstate].
    - apply Forall_app. split.
      + eapply Forall_impl; [|exact Hstate]. intros p Hp.
        exact (is_prefix_trans _ _ _ Hp Hgrow).
      + constructor; [exact Hgrow | constructor].
    - apply Forall_app. split; [exact Hfirst | constructor; [exact Hhead | constructor]].
    - destruct Hhead as [rest Hrest]. destruct Hgrow as [more ->].
      rewrite Hrest. now exists (rest ++ more). }
  assert (Hend :
    I (snd (generate_response self query conversation_history tools tool_manager w))).
  { unfold generate_response, generate_response_run.
    apply (rounds_loop_establishes self (build_system_content conversation_history) tools
             tool_manager I (fun _ m => I m)).
    - intros m m' Hm _ Hr. exact (Hround m _ m' Hm Hr).
    - intros m answer m' Hm _ Hr. exact (Hround m _ m' Hm Hr).
    - intros m answer m' (Hsorted & Hstate & Hfirst & Hhead) _ Hf.
      destruct (final_api_calls _ m _ m' Hf) as (Hcalls & Hsame).
      unfold I. rewrite Hcalls, Hsame.
      split; [|split; [|split]].
      + apply StronglySorted_snoc; [exact Hsorted | exact Hstate].
      + apply Forall_app. split; [exact Hstate|].
        constructor; [apply is_prefix_refl | constructor].
      + apply Forall_app. split; [exact Hfirst | constructor; [exact Hhead | constructor]].
      + exact Hhead.
    - cbn. lia.
    - cbn. split; [constructor|]. split; [constructor|]. split; [constructor|].
      now exists []. }
  destruct Hend as (Hsorted & _ & Hfirst & _). now split.
Qed.

(** X15. A run makes at least one API call. It ends with the round counter
    at 1 or 2 and the bound at 2, having made as many API calls as the counter
    says, or one more: the one more is the final call, made only with the
    counter at 2. *)
Theorem api_calls_follow_round_counter :
  1 <= length
         (api_calls
            (log (snd (generate_response self query conversation_history tools
                         tool_manager w))))
  /\ 1 <= ToolCallState.current_round
            (state (snd (generate_response self query conversation_history tools
                           tool_manager w))) <= 2
  /\ ToolCallState.max_rounds
       (state (snd (generate_response self query conversation_history tools
                      tool_manager w))) = 2
  /\ (length
        (api_calls
           (log (snd (generate_response self query conversation_history tools
                        tool_manager w))))
      = ToolCallState.current_round
          (state (snd (generate_response self query conversation_history tools
                         tool_manager w)))
      \/ (length
            (api_calls
               (log (snd (generate_response self query conversation_history tools
                            tool_manager w)))) = 3
          /\ ToolCallState.current_round
               (state (snd (generate_response self query conversation_history tools
                              tool_manager w))) = 2)).
Proof.
  pose (I := fun m : Machine W =>
    ToolCallState.max_rounds (state m) = 2
    /\ ToolCallState.current_round (state m) <= 2
    /\ length (api_calls (log m)) = ToolCallState.current_round (state m)).
  pose (Q := fun m : Machine W =>
    1 <= length (api_calls (log m))
    /\ 1 <= ToolCallState.current_round (state m) <= 2
    /\ ToolCallState.max_rounds (state m) = 2
    /\ (length (api_calls (log m)) = ToolCallState.current_round (state m)
        \/ (length (api_calls (log m)) = 3
            /\ ToolCallState.current_round (state m) = 2))).
  assert (Hround : forall m step m',
    I m -> ToolCallState.is_complete (state m) = false ->
    round self (build_system_content conversation_history) tools tool_manager m
    = (Ok step, m') ->
    I m' /\ Q m').
  { intros m step m' (Hmax & Hle & Hlen) Hc Hr.
    destruct (round_api_calls _ m _ m' Hr) as (Hcalls & Hcur & Hmax' & _).
    unfold ToolCallState.is_complete in Hc. apply Nat.leb_gt in Hc.
    unfold I, Q. rewrite Hcalls, length_app, Hcur, Hmax'. cbn [length]. lia. }
  unfold generate_response, generate_response_run.
  apply (rounds_loop_establishes self (build_system_content conversation_history) tools
           tool_manager I (fun _ m => Q m)).
  - intros m m' Hm Hc Hr. exact (proj1 (Hround m _ m' Hm Hc Hr)).
  - intros m answer m' Hm Hc Hr. exact (proj2 (Hround m _ m' Hm Hc Hr)).
  - intros m answer m' (Hmax & Hle & Hlen) Hc Hf.
    destruct (final_api_calls _ m _ m' Hf) as (Hcalls & Hstate).
    unfold ToolCallState.is_complete in Hc. apply Nat.leb_le in Hc.
    unfold Q. rewrite Hcalls, length_app, Hstate. cbn [length]. lia.
  - cbn. lia.
  - unfold I. cbn. lia.
Qed.

(** X16. A tool call that raises is the last thing a run does, and the
    answer is then "Unable to complete search: Tool <name> failed: <cause>"
    for that tool and that failure, in whichever round it happens. So a run
    sees at most one failing tool call, and every tool call before it
    returned. *)
Theorem failing_tool_call_ends_run :
  Forall (fun ev => tool_failed ev = false)
    (log (snd (generate_response self query conversation_history tools tool_manager w)))
  \/ exists before tool_name input e,
       log (snd (generate_response self query conversation_history tools tool_manager w))
       = before ++ [ToolCall tool_name input (Raise e)]
       /\ Forall (fun ev => tool_failed ev = false) before
       /\ fst (generate_response self query conversation_history tools tool_manager w)
          = Returned
              ("Unable to complete search: Tool " ++ tool_name ++ " failed: "
                 ++ str_exc e)%string.
Proof.
  pose (I := fun m : Machine W => Forall (fun ev => tool_failed ev = false) (log m)).
  pose (Q := fun (o : Outcome) (m : Machine W) =>
    Forall (fun ev => tool_failed ev = false) (log m)
    \/ exists before tool_name input e,
         log m = before ++ [ToolCall tool_name input (Raise e)]
         /\ Forall (fun ev => tool_failed ev = false) before
         /\ o = Returned
                  ("Unable to complete search: Tool " ++ tool_name ++ " failed: "
                     ++ str_exc e)%string).
  unfold generate_response, generate_response_run.
  apply (rounds_loop_establishes self (build_system_content conversation_history) tools
           tool_manager I Q).
  - intros m m' Hm _ Hr.
    destruct (round_run self (build_system_content conversation_history) tools
                tool_manager m)
      as (step0 & m0 & r & events & Hr0 & Hlog & _ & _ & _ & _ & _ & _ & _ & _ & Hstep).
    rewrite Hr in Hr0. injection Hr0 as <- <-. destruct Hstep as (Hok & _).
    unfold I. rewrite Hlog. apply Forall_app. split; [exact Hm|].
    constructor; [reflexivity | exact Hok].
  - intros m answer m' Hm _ Hr.
    destruct (round_run self (build_system_content conversation_history) tools
                tool_manager m)
      as (step0 & m0 & r & events & Hr0 & Hlog & _ & _ & _ & _ & _ & _ & _ & _ & Hstep).
    rewrite Hr in Hr0. injection Hr0 as <- <-.
    destruct Hstep as [Hok|(before & n & i & e & -> & Hok & ->)].
    + left. rewrite Hlog. apply Forall_app. split; [exact Hm|].
      constructor; [reflexivity | exact Hok].
    + right.
      exists (log m
                ++ ApiCall
                     (round_params self (build_system_content conversation_history)
                        tools (ToolCallState.increment_round (state m)))
                     r
                :: before), n, i, e.
      split; [rewrite Hlog, <- app_assoc; reflexivity|]. split; [|reflexivity].
      apply Forall_app. split; [exact Hm|]. constructor; [reflexivity | exact Hok].
  - intros m answer m' Hm _ Hf.
    destruct (final_call_run self (build_system_content conversation_history) m)
      as (answer0 & r & w1 & Hf0).
    rewrite Hf in Hf0. injection Hf0 as _ ->. left. cbn [log].
    apply Forall_app. split; [exact Hm | constructor; [reflexivity | constructor]].
  - cbn. lia.
  - constructor.
Qed.


End Generate.

(** X18. Without a tool manager [generate_response] makes exactly one API
    call and runs no tool, whatever the model answers, also a request for
    tools. *)
Theorem without_tool_manager_one_call {W : Type} (self : AIGenerator W) (query : string)
    (conversation_history : option string) (tools : option (list ToolDefinition)) (w : W) :
  exists r,
    log (snd (generate_response self query conversation_history tools None w))
    = [ApiCall
         (round_params self (build_system_content conversation_history) tools
            (ToolCallState.increment_round (initial_state query)))
         r]
    /\ exists answer,
         fst (generate_response self query conversation_history tools None w)
         = Returned answer.
Proof.
  destruct (round_run self (build_system_content conversation_history) tools None
              (mkMachine (initial_state query) w []))
    as (step & m' & r & events & Hr & Hlog & _ & _ & _ & _ & _ & Hnone & _).
  destruct (Hnone eq_refl) as (-> & answer & ->).
  unfold generate_response, generate_response_run.
  change (ToolCallState.max_rounds (initial_state query)) with 2.
  rewrite (AIGeneratorProps.rounds_loop_return self
             (build_system_content conversation_history) tools 1 None
             (mkMachine (initial_state query) w []) m' answer eq_refl Hr).
  exists r. cbn [fst snd]. split; [exact Hlog | now exists answer].
Qed.

(** X19. [_execute_round_tools] never raises. It runs the tools the
    response requests, in the order of the requests, up to the first one that
    raises. When none raises, every request was run and the conversation
    gains exactly one user message with one result per request, carrying the
    request's id and the tool's output, in request order (and gains nothing
    when the response requests no tool). When one raises, the conversation
    gains nothing and the error message names the tool and the failure. *)
Theorem execute_round_tools_runs_requests_in_order {W : Type} (response : Response.t)
    (tm : ToolDispatcher W) (m : Machine W) :
  exists r m' events,
    _execute_round_tools response tm m = (Ok r, m')
    /\ log m' = log m ++ events
    /\ is_prefix (tool_calls events) (requested_tools (Response.content response))
    /\ match r with
       | None =>
           tool_calls events = requested_tools (Response.content response)
           /\ Forall (fun ev => tool_failed ev = false) events
           /\ exists results,
                ToolCallState.messages (state m')
                = ToolCallState.messages (state m)
                    ++ match results with
                       | [] => []
                       | _ :: _ => [Message.mk "user" (Message.ToolResults results)]
                       end
                /\ map tool_use_id results = requested_ids (Response.content response)
                /\ map result_content results = returned_outputs events
                /\ Forall (fun res => is_error res = false) results
       | Some msg =>
           ToolCallState.messages (state m') = ToolCallState.messages (state m)
           /\ exists before tool_name input e,
                events = before ++ [ToolCall tool_name input (Raise e)]
                /\ Forall (fun ev => tool_failed ev = false) before
                /\ msg = ("Tool " ++ tool_name ++ " failed: " ++ str_exc e)%string
       end.
Proof.
  unfold _execute_round_tools.
  destruct (round_tools_loop_run tm (Response.content response) [] m)
    as (r & m' & events & Hrun & Hlog & _ & _ & _ & _ & Hpre & Hr).
  exists r, m', events. split; [exact Hrun|]. split; [exact Hlog|]. split; [exact Hpre|].
  destruct r as [msg|]; [exact Hr|].
  destruct Hr as (Hok & Hcalls & results & Hmsgs & Hids & Houts & Herr).
  split; [exact Hcalls|]. split; [exact Hok|].
  exists results. cbn [app] in Hmsgs. split; [|now repeat split].
  rewrite Hmsgs. now destruct results.
Qed.

End AIGeneratorMore.

(* ================================================================== *)
(** ** Properties of the endpoints *)
(* ================================================================== *)

Module AppProps.
Import Py App.

Lemma starts_with_spec (prefix s : string) :
  starts_with prefix s = true <-> exists rest, s = (prefix ++ rest)%string.
Proof.
  revert s. induction prefix as [|a prefix IH]; intros s; cbn [starts_with].
  - split; [intros _; now exists s | reflexivity].
  - destruct s as [|b s].
    + split; [discriminate | intros [rest Hrest]; discriminate].
    + rewrite andb_true_iff, IH. split.
      * intros [Hab [rest ->]]. apply Ascii.eqb_eq in Hab. subst b. now exists rest.
      * intros [rest [= -> ->]]. split; [apply Ascii.eqb_refl | now exists rest].
Qed.

(** The test [sub in s] holds exactly when [sub] occurs in [s]. *)
Lemma str_in_spec (sub s : string) : str_in sub s = true <-> contains sub s.
Proof.
  split.
  - induction s as [|c s IH]; cbn [str_in].
    + destruct (starts_with sub "") eqn:E; [|discriminate]. intros _.
      apply starts_with_spec in E. destruct E as [rest ->]. now exists ""%string, rest.
    + destruct (starts_with sub (String c s)) eqn:E.
      * intros _. apply starts_with_spec in E. destruct E as [rest ->].
        now exists ""%string, rest.
      * intros Hin. destruct (IH Hin) as (before & after & ->).
        now exists (String c before), after.
  - intros (before & after & ->). induction before as [|c before IH].
    + cbn [append].
      assert (E : starts_with sub (sub ++ after) = true)
        by (apply starts_with_spec; now exists after).
      destruct (sub ++ after)%string; cbn [str_in]; now rewrite E.
    + cbn [append str_in]. rewrite IH. now destruct (starts_with _ _).
Qed.

Lemma str_in_false (sub s : string) : str_in sub s = false <-> ~ contains sub s.
Proof.
  rewrite <- str_in_spec. destruct (str_in sub s); split; congruence.
Qed.

Section Endpoints.

Context {W : Type}.
Variable rag_system : RAGSystem W.

(** X20. When creating the session or processing the query raises,
    [query_documents] ends with an [HTTPException] chosen by the failure's
    text: status 402 with a fixed detail when it mentions
    "credit balance is too low", also when it mentions
    "invalid_request_error" as well; otherwise status 400 with detail
    "API request error: <text>" when it mentions "invalid_request_error";
    otherwise status 500 with the text itself as detail. *)
Theorem query_documents_maps_failures (request : QueryRequest) (w w1 : W) (e : Exception) :
  (truthy_opt_str (session_id request) = false /\ create_session rag_system w = (Raise e, w1))
  \/ (exists sid w0,
         ((session_id request = Some sid /\ sid <> ""%string /\ w0 = w)
          \/ (truthy_opt_str (session_id request) = false
              /\ create_session rag_system w = (Ok sid, w0)))
         /\ rag_query rag_system (query request) sid w0 = (Raise e, w1)) ->
  snd (query_documents rag_system request w) = w1
  /\ (contains "credit balance is too low" (str_exc e) ->
      fst (query_documents rag_system request w)
      = HTTPException 402
          "Anthropic API credit balance too low. Please add credits to your account.")
  /\ (~ contains "credit balance is too low" (str_exc e) ->
      contains "invalid_request_error" (str_exc e) ->
      fst (query_documents rag_system request w)
      = HTTPException 400 ("API request error: " ++ str_exc e))
  /\ (~ contains "credit balance is too low" (str_exc e) ->
      ~ contains "invalid_request_error" (str_exc e) ->
      fst (query_documents rag_system request w) = HTTPException 500 (str_exc e)).
Proof.
  intros Hfail.
  assert (Hrun : query_documents rag_system request w = (api_error e, w1)).
  { unfold query_documents.
    destruct Hfail as [[Hfalsy Hcreate]|(sid & w0 & Hsession & Hquery)].
    - now rewrite Hfalsy, Hcreate.
    - destruct Hsession as [(Hsid & Hne & ->)|[Hfalsy Hcreate]].
      + rewrite Hsid. cbn [truthy_opt_str]. unfold truthy_str.
        apply String.eqb_neq in Hne. rewrite Hne. cbn [negb]. now rewrite Hquery.
      + now rewrite Hfalsy, Hcreate, Hquery. }
  rewrite Hrun. cbn [fst snd]. unfold api_error.
  split; [reflexivity|]. split; [|split].
  - intros Hcredit. apply str_in_spec in Hcredit. now rewrite Hcredit.
  - intros Hcredit Hinvalid. apply str_in_false in Hcredit. apply str_in_spec in Hinvalid.
    now rewrite Hcredit, Hinvalid.
  - intros Hcredit Hinvalid. apply str_in_false in Hcredit. apply str_in_false in Hinvalid.
    now rewrite Hcredit, Hinvalid.
Qed.

(** X21. [query_documents] answers under the session id of the request when
    that is a non-empty string, without creating a session; with no session
    id, or an empty one, it creates a session first, processes the query
    under the new id and returns that id. The answer and the sources are
    those of [rag_system.query], as they are. *)
Theorem query_documents_session (request : QueryRequest) (w : W) :
  (forall sid answer sources w1,
      session_id request = Some sid ->
      sid <> ""%string ->
      rag_query rag_system (query request) sid w = (Ok (answer, sources), w1) ->
      query_documents rag_system request w
      = (Respond (mkQueryResponse answer sources sid), w1))
  /\ (forall sid w0 answer sources w1,
         truthy_opt_str (session_id request) = false ->
         create_session rag_system w = (Ok sid, w0) ->
         rag_query rag_system (query request) sid w0 = (Ok (answer, sources), w1) ->
         query_documents rag_system request w
         = (Respond (mkQueryResponse answer sources sid), w1)).
Proof.
  unfold query_documents. split.
  - intros sid answer sources w1 Hsid Hne Hquery. rewrite Hsid. cbn [truthy_opt_str].
    unfold truthy_str. apply String.eqb_neq in Hne. rewrite Hne. cbn [negb].
    now rewrite Hquery.
  - intros sid w0 answer sources w1 Hfalsy Hcreate Hquery.
    now rewrite Hfalsy, Hcreate, Hquery.
Qed.

(** X22. [get_course_stats] passes on the two entries of the analytics; an
    analytics record that lacks one of them gives status 500 with the quoted
    key as detail. [clear_session] reports every failure with status 500 and
    the failure's text, also one that mentions "credit balance is too low",
    and answers a success with the fixed message. *)
Theorem stats_and_clear_session_failures (w : W) :
  (forall analytics w1,
      get_course_analytics rag_system w = (Ok analytics, w1) ->
      fst (get_course_stats rag_system w)
      = match analytics_total_courses analytics, analytics_course_titles analytics with
        | Some total, Some titles => Respond (mkCourseStats total titles)
        | None, _ => HTTPException 500 "'total_courses'"
        | Some _, None => HTTPException 500 "'course_titles'"
        end)
  /\ (forall sid e w1,
         clear_session rag_system sid w = (Raise e, w1) ->
         clear_session_endpoint rag_system sid w = (HTTPException 500 (str_exc e), w1))
  /\ (forall sid u w1,
         clear_session rag_system sid w = (Ok u, w1) ->
         clear_session_endpoint rag_system sid w
         = (Respond (true, "Session cleared successfully"), w1)).
Proof.
  split; [|split].
  - intros analytics w1 Hget. unfold get_course_stats. rewrite Hget.
    destruct (analytics_total_courses analytics) as [total|];
      [destruct (analytics_course_titles analytics) as [titles|]|]; reflexivity.
  - intros sid e w1 Hclear. unfold clear_session_endpoint. now rewrite Hclear.
  - intros sid u w1 Hclear. unfold clear_session_endpoint. now rewrite Hclear.
Qed.

End Endpoints.

End AppProps.

(* ================================================================== *)
(** ** The further properties at work on the example collaborators *)
(* ================================================================== *)

Module MoreWitnesses.
Import Py SearchTools AIGenerator Registration Observed App Examples MoreExamples.
Local Open Scope list_scope.

Lemma execute_tool_keeps_registered_names_witness :
  ToolManager.execute_tool demo_manager "nonexistent_tool" [("query"%string, PStr "test")]
  = (Ok "Tool 'nonexistent_tool' not found"%string, demo_manager)
  /\ dict_get "get_course_outline"
       (ToolManager.tools
          (snd (ToolManager.execute_tool demo_manager "search_course_content"
                  [("query"%string, PStr "python")])))
     = dict_get "get_course_outline" (ToolManager.tools demo_manager).
Proof.
  split.
  - apply (proj2 (proj2 (SearchToolsMore.execute_tool_keeps_registered_names demo_manager
                           "nonexistent_tool" [("query"%string, PStr "test")]))).
    reflexivity.
  - apply (proj1 (proj2 (SearchToolsMore.execute_tool_keeps_registered_names demo_manager
                           "search_course_content" [("query"%string, PStr "python")]))).
    discriminate.
Defined.

Lemma register_tool_then_dispatch_witness :
  exists self',
    @ToolManager.register_tool _ PlainTool_Tool ToolManager.__init__ weather_tool
    = (Ok tt, self')
    /\ dict_get "weather" (ToolManager.tools self') = Some weather_tool
    /\ (forall kw,
           fst (@ToolManager.execute_tool _ PlainTool_Tool self' "weather" kw)
           = fst (@execute _ PlainTool_Tool weather_tool kw))
    /\ (forall other,
           other <> "weather"%string ->
           dict_get other (ToolManager.tools self')
           = dict_get other (ToolManager.tools (@ToolManager.__init__ PlainTool))).
Proof.
  apply (@SearchToolsMore.register_tool_then_dispatch _ PlainTool_Tool
           ToolManager.__init__ weather_tool "weather"); reflexivity.
Defined.

Lemma register_all_lists_definitions_in_order_witness :
  exists self',
    @register_all _ PlainTool_Tool [weather_tool; clock_tool] ToolManager.__init__
    = (Ok tt, self')
    /\ dict_values (ToolManager.tools self') = [weather_tool; clock_tool]
    /\ @ToolManager.get_tool_definitions _ PlainTool_Tool self'
       = map (@get_tool_definition _ PlainTool_Tool) [weather_tool; clock_tool]
    /\ @ToolManager.reachable _ PlainTool_Tool self'.
Proof.
  apply (@SearchToolsMore.register_all_lists_definitions_in_order _ PlainTool_Tool
           [weather_tool; clock_tool]).
  - repeat constructor.
  - constructor; [|constructor; [|constructor]].
    + intros [Heq|[]]. discriminate.
    + intros [].
Defined.

Lemma register_all_stops_at_unnamed_tool_witness :
  @register_all _ PlainTool_Tool ([weather_tool] ++ unnamed_tool :: [clock_tool])
    ToolManager.__init__
  = (Raise (ValueError "Tool must have a 'name' in its definition"),
     ToolManager.mk [("weather"%string, weather_tool)]).
Proof.
  apply (proj1 (@SearchToolsMore.register_all_stops_at_unnamed_tool _ PlainTool_Tool
                  [weather_tool] [clock_tool] unnamed_tool ToolManager.__init__
                  (ToolManager.mk [("weather"%string, weather_tool)])
                  eq_refl eq_refl)).
Defined.

Lemma search_execute_failure_keeps_tool_witness :
  CourseSearchTool.execute (CourseSearchTool.mk error_store [stale_source])
    (PStr "anything") PNone PNone
  = (Ok "Search error: index unavailable"%string,
     CourseSearchTool.mk error_store [stale_source])
  /\ CourseSearchTool.execute (CourseSearchTool.mk demo_store [stale_source])
       (PStr "boom") PNone PNone
     = (Raise (mkException "RuntimeError" "Tool execution failed"),
        CourseSearchTool.mk demo_store [stale_source]).
Proof.
  split.
  - apply (proj2 (proj2 (proj2
             (ToolsMore.search_execute_failure_keeps_tool
                (CourseSearchTool.mk error_store [stale_source])
                (PStr "anything") PNone PNone)))
             (mkSearchResults ["left over"] [mkChunkMeta (Some "Course A") None]
                (Some "Search error: index unavailable"%string))
             "Search error: index unavailable"%string eq_refl eq_refl).
    discriminate.
  - apply (proj1 (proj2 (proj2
             (ToolsMore.search_execute_failure_keeps_tool
                (CourseSearchTool.mk demo_store [stale_source])
                (PStr "boom") PNone PNone)))
             (mkException "RuntimeError" "Tool execution failed") eq_refl).
Defined.

Lemma recorded_sources_describe_matches_witness :
  length
    (CourseSearchTool.last_sources
       (snd (CourseSearchTool.execute (CourseSearchTool.__init__ uneven_store)
               (PStr "anything") PNone PNone)))
  = 3.
Proof.
  destruct (ToolsMore.recorded_sources_describe_matches
              (CourseSearchTool.__init__ uneven_store)
              (snd (CourseSearchTool.execute (CourseSearchTool.__init__ uneven_store)
                      (PStr "anything") PNone PNone))
              (PStr "anything") PNone PNone
              (mkSearchResults
                 ["first"; "second"; "third"; "fourth"]%string
                 [mkChunkMeta (Some "Course A"%string) (Some 0%Z);
                  mkChunkMeta (Some "Course A"%string) None;
                  mkChunkMeta None (Some 3%Z)]
                 None)
              ("[Course A - Lesson 0]" ++ LF ++ "first" ++ LF ++ LF
                 ++ "[Course A]" ++ LF ++ "second" ++ LF ++ LF
                 ++ "[unknown - Lesson 3]" ++ LF ++ "third")%string
              eq_refl eq_refl eq_refl eq_refl)
    as (blocks & _ & _ & Hlen & _).
  exact Hlen.
Defined.

Lemma outline_execute_soft_failures_witness :
  CourseOutlineTool.execute demo_json_loads (CourseOutlineTool.__init__ demo_store)
    (PStr "unknown course")
  = (Ok "No course found matching 'unknown course'"%string,
     CourseOutlineTool.__init__ demo_store)
  /\ CourseOutlineTool.execute demo_json_loads (CourseOutlineTool.__init__ uneven_store)
       (PStr "A")
     = (Ok "Course metadata not found for 'Course A'"%string,
        CourseOutlineTool.__init__ uneven_store)
  /\ CourseOutlineTool.execute demo_json_loads (CourseOutlineTool.__init__ error_store)
       (PStr "A")
     = (Ok "No lesson information available for 'Course A'"%string,
        CourseOutlineTool.__init__ error_store).
Proof.
  split; [|split].
  - apply (proj1 (ToolsMore.outline_execute_soft_failures demo_json_loads
                    (CourseOutlineTool.__init__ demo_store) (PStr "unknown course"))
             None eq_refl eq_refl).
  - apply (proj1 (proj2 (ToolsMore.outline_execute_soft_failures demo_json_loads
                           (CourseOutlineTool.__init__ uneven_store) (PStr "A"))
                    "Course A"%string eq_refl eq_refl)
             None eq_refl I).
  - apply (proj2 (proj2 (ToolsMore.outline_execute_soft_failures demo_json_loads
                           (CourseOutlineTool.__init__ error_store) (PStr "A"))
                    "Course A"%string eq_refl eq_refl)
             (mkGetResult [[("title"%string, "Course A"%string)]])
             [("title"%string, "Course A"%string)] [] eq_refl eq_refl
             ltac:(discriminate) eq_refl).
Defined.


Lemma tools_offered_as_given_witness :
  Forall (fun p => ApiParams.tools p = None /\ ApiParams.tool_choice p = None)
    (api_calls
       (log (snd (generate_response demo_generator "q" None None (Some manager_dispatch)
                    (mkWorld demo_manager [Ok (end_turn "done")]))))).
Proof.
  apply (proj2 (AIGeneratorMore.tools_offered_as_given demo_generator "q" None None
                  (Some manager_dispatch) (mkWorld demo_manager [Ok (end_turn "done")]))).
  reflexivity.
Defined.

Lemma query_documents_maps_failures_witness :
  fst (query_documents demo_rag (mkQueryRequest "quota" None) 0)
  = HTTPException 402
      "Anthropic API credit balance too low. Please add credits to your account."
  /\ fst (query_documents demo_rag (mkQueryRequest "malformed" (Some "abc"%string)) 0)
     = HTTPException 400
         "API request error: Error code: 400 - invalid_request_error: messages: field required".
Proof.
  split.
  - apply (proj1 (proj2
             (AppProps.query_documents_maps_failures demo_rag
                (mkQueryRequest "quota" None) 0 1
                (mkException "BadRequestError"
                   "Error code: 400 - invalid_request_error: Your credit balance is too low to access the API")
                (or_intror
                   (ex_intro _ "session_1"%string
                      (ex_intro _ 1
                         (conj (or_intror (conj eq_refl eq_refl)) eq_refl))))))).
    now exists "Error code: 400 - invalid_request_error: Your "%string,
      " to access the API"%string.
  - apply (proj1 (proj2 (proj2
             (AppProps.query_documents_maps_failures demo_rag
                (mkQueryRequest "malformed" (Some "abc"%string)) 0 0
                (mkException "BadRequestError"
                   "Error code: 400 - invalid_request_error: messages: field required")
                (or_intror
                   (ex_intro _ "abc"%string
                      (ex_intro _ 0
                         (conj (or_introl
                                  (conj eq_refl
                                     (conj (fun H : "abc"%string = ""%string =>
                                              eq_ind "abc"%string
                                                (fun s => match s with
                                                          | EmptyString => False
                                                          | String _ _ => True
                                                          end) I ""%string H)
                                        eq_refl)))
                               eq_refl)))))))).
    + apply AppProps.str_in_false. reflexivity.
    + now exists "Error code: 400 - "%string, ": messages: field required"%string.
Defined.

Lemma query_documents_session_witness :
  query_documents demo_rag (mkQueryRequest "hello" (Some "abc"%string)) 0
  = (Respond
       (mkQueryResponse "An answer for abc" [SourceString "Course A - Lesson 1"] "abc"),
     0)
  /\ query_documents demo_rag (mkQueryRequest "hello" (Some ""%string)) 0
     = (Respond
          (mkQueryResponse "An answer for session_1" [SourceString "Course A - Lesson 1"]
             "session_1"),
        1).
Proof.
  split.
  - apply (proj1 (AppProps.query_documents_session demo_rag
                    (mkQueryRequest "hello" (Some "abc"%string)) 0)
             "abc"%string _ _ 0 eq_refl); [discriminate | reflexivity].
  - apply (proj2 (AppProps.query_documents_session demo_rag
                    (mkQueryRequest "hello" (Some ""%string)) 0)
             "session_1"%string 1 _ _ 1 eq_refl eq_refl eq_refl).
Defined.

Lemma stats_and_clear_session_failures_witness :
  fst (get_course_stats demo_rag 0) = HTTPException 500 "'total_courses'"
  /\ clear_session_endpoint demo_rag "abc" 0
     = (HTTPException 500 "credit balance is too low", 0).
Proof.
  split.
  - apply (proj1 (AppProps.stats_and_clear_session_failures demo_rag 0)
             (mkAnalytics None (Some ["Course A"%string])) 0 eq_refl).
  - apply (proj1 (proj2 (AppProps.stats_and_clear_session_failures demo_rag 0))
             "abc"%string (mkException "RuntimeError" "credit balance is too low") 0
             eq_refl).
Defined.

End MoreWitnesses.
